(** * VFIO common code (hw/vfio/common.c): a shallow embedding

    The C code talks to the host kernel through system calls and to the
    device model through function pointers.  Both are kept abstract: the
    kernel is an oracle that answers every call from the history of the
    earlier ones, the per-device behaviour table is a family of
    transformers of the device store.  Every call and every hook
    invocation is appended to a trace, so that statements of the form
    "exactly one unmap is issued" are statements about that trace.

    Heap objects (VFIOAddressSpace, VFIOContainer, VFIOGroup, VFIODevice)
    live in finite maps from addresses to records; a QLIST is the list of
    the addresses of its members, head first. *)

From stdpp Require Import gmap list.
From Stdlib Require Import ZArith Lia.

Local Open Scope Z_scope.

(** ** Machine integers *)

Definition wrap (bits : Z) (x : Z) : Z := x mod 2 ^ bits.
Definition wrap64 : Z -> Z := wrap 64.
Definition UINT64_MAX : Z := 2 ^ 64 - 1.

(** Modelled from the spec: the byte-swapping helpers of qemu/bswap.h are
    not among the sources; "convert to little-endian host byte order"
    (4.7) is the little-endian byte string that [cpu_to_le16] /
    [cpu_to_le32] followed by a byte-wise copy of the union produce. *)
Fixpoint le_encode (n : nat) (x : Z) : list Z :=
  match n with
  | O => []
  | S n' => (x mod 256) :: le_encode n' (x / 256)
  end.

(** Modelled from the spec: the converse, [le16_to_cpu] / [le32_to_cpu]
    (also qemu/bswap.h) applied to the bytes that pread stored. *)
Fixpoint le_decode (bs : list Z) : Z :=
  match bs with
  | [] => 0
  | b :: bs' => b mod 256 + 256 * le_decode bs'
  end.

(** ** errno values used by the code *)

Definition EPERM : Z := 1.
Definition EFAULT : Z := 14.
Definition EBUSY : Z := 16.
Definition EINVAL : Z := 22.

(** ** The host kernel *)

Definition VFIO_DMA_MAP_FLAG_READ : Z := 1.
Definition VFIO_DMA_MAP_FLAG_WRITE : Z := 2.
Definition VFIO_REGION_INFO_FLAG_READ : Z := 1.
Definition VFIO_REGION_INFO_FLAG_WRITE : Z := 2.
Definition PROT_READ : Z := 1.
Definition PROT_WRITE : Z := 2.

Inductive Call : Type :=
| PREAD (fd count offset : Z)
| PWRITE (fd : Z) (buf : list Z) (count offset : Z)
| VFIO_IOMMU_MAP_DMA (fd flags vaddr iova size : Z)
| VFIO_IOMMU_UNMAP_DMA (fd flags iova size : Z)
| VFIO_EEH_PE_OP (fd op : Z)
| MMAP (len prot fd offset : Z)
| MUNMAP (addr len : Z)
| OPEN_VFIO
| OPEN_GROUP (groupid : Z)
| CLOSE (fd : Z)
| VFIO_GET_API_VERSION (fd : Z)
| VFIO_CHECK_EXTENSION (fd ext : Z)
| VFIO_GROUP_SET_CONTAINER (group_fd fd : Z)
| VFIO_GROUP_GET_STATUS (group_fd : Z)
| VFIO_SET_IOMMU (fd type : Z)
| VFIO_IOMMU_GET_INFO (fd : Z)
| VFIO_IOMMU_ENABLE (fd : Z)
| VFIO_IOMMU_SPAPR_TCE_GET_INFO (fd : Z)
| KVM_CREATE_DEVICE (type : Z)
| KVM_SET_DEVICE_ATTR (fd group attr group_fd : Z).

(** A call either returns a value (with the bytes it stored through its
    buffer argument, if it has one) or returns -1 and sets errno. *)
Inductive Reply : Type :=
| Ok (v : Z) (data : list Z)
| Err (e : Z).

Definition ret_of (r : Reply) : Z :=
  match r with Ok v _ => v | Err _ => -1 end.

Definition data_of (r : Reply) : list Z :=
  match r with Ok _ d => d | Err _ => [] end.

(** The hooks of [VFIODeviceOps]. *)
Inductive Hook : Type :=
| vfio_compute_needs_reset
| vfio_hot_reset_multi
| vfio_eoi.

Inductive Event : Type :=
| Sys (c : Call) (r : Reply)
| Op (h : Hook) (vbasedev : Z)
| memory_region_ref (mr : Z)
| memory_region_unref (mr : Z)
| memory_region_register_iommu_notifier (mr : Z)
| memory_region_unregister_iommu_notifier (mr : Z)
| memory_listener_register (container as_ : Z)
| memory_listener_unregister (container : Z)
| qemu_register_reset.

(** ** Heap objects *)

Definition NULL : Z := 0.

Record VFIODevice := {
  dev_fd : Z;
  dev_group : Z;
  needs_reset : bool;
}.

Record VFIOGroup := {
  group_fd : Z;
  groupid : Z;
  group_container : Z;
  device_list : list Z;
}.

Record VFIOGuestIOMMU := {
  giommu_container : Z;
  giommu_iommu : Z;
}.

Record VFIOContainer := {
  container_space : Z;
  container_fd : Z;
  min_iova : Z;
  max_iova : Z;
  iova_pgsizes : Z;
  container_error : Z;
  initialized : bool;
  giommu_list : list VFIOGuestIOMMU;
  group_list : list Z;
}.

Record VFIOAddressSpace := {
  space_as : Z;
  space_containers : list Z;
}.

(** ** Guest memory objects, as the memory API hands them to the listener *)

Record MemoryRegion := {
  mr_addr : Z;
  mr_is_ram : bool;
  mr_is_iommu : bool;
  mr_readonly : bool;
  mr_ram_ptr : Z;
}.

Record MemoryRegionSection := {
  mr : MemoryRegion;
  offset_within_region : Z;
  size : Z;
  offset_within_address_space : Z;
  readonly : bool;
}.

Record IOMMUTLBEntry := {
  iova : Z;
  translated_addr : Z;
  addr_mask : Z;
  perm : Z;
}.

Definition IOMMU_NONE : Z := 0.
Definition IOMMU_RO : Z := 1.
Definition IOMMU_WO : Z := 2.
Definition IOMMU_RW : Z := 3.

(** ** The world the code runs in

    [Env] is what the code cannot change: the kernel, the behaviour
    tables of the devices, the target's page size, the build and run
    time KVM switches, and three queries of the memory API: the
    translation through the system address space, the translations that
    are valid in a guest IOMMU, and the sections of an address space. *)

Record Env := {
  host : list Event -> Call -> Reply;
  ops : Hook -> Z -> gmap Z VFIODevice -> gmap Z VFIODevice;
  TARGET_PAGE_BITS : Z;
  address_space_translate : Z -> Z -> bool -> MemoryRegion * Z * Z;
  iommu_valid_entries : Z -> Z -> list IOMMUTLBEntry;
  flatview : Z -> list MemoryRegionSection;
  CONFIG_KVM : bool;
  kvm_enabled : bool;
}.

Record World := {
  env : Env;
  trace : list Event;
  errno : Z;
  devices : gmap Z VFIODevice;
  groups : gmap Z VFIOGroup;
  containers : gmap Z VFIOContainer;
  spaces : gmap Z VFIOAddressSpace;
  vfio_group_list : list Z;
  vfio_address_spaces : list Z;
  vfio_kvm_device_fd : Z;
}.

Definition set_trace (t : list Event) (w : World) : World :=
  {| env := env w; trace := t; errno := errno w;
     devices := devices w; groups := groups w; containers := containers w;
     spaces := spaces w; vfio_group_list := vfio_group_list w;
     vfio_address_spaces := vfio_address_spaces w;
     vfio_kvm_device_fd := vfio_kvm_device_fd w |}.

Definition set_errno (e : Z) (w : World) : World :=
  {| env := env w; trace := trace w; errno := e;
     devices := devices w; groups := groups w; containers := containers w;
     spaces := spaces w; vfio_group_list := vfio_group_list w;
     vfio_address_spaces := vfio_address_spaces w;
     vfio_kvm_device_fd := vfio_kvm_device_fd w |}.

Definition set_devices (d : gmap Z VFIODevice) (w : World) : World :=
  {| env := env w; trace := trace w; errno := errno w;
     devices := d; groups := groups w; containers := containers w;
     spaces := spaces w; vfio_group_list := vfio_group_list w;
     vfio_address_spaces := vfio_address_spaces w;
     vfio_kvm_device_fd := vfio_kvm_device_fd w |}.

Definition set_containers (c : gmap Z VFIOContainer) (w : World) : World :=
  {| env := env w; trace := trace w; errno := errno w;
     devices := devices w; groups := groups w; containers := c;
     spaces := spaces w; vfio_group_list := vfio_group_list w;
     vfio_address_spaces := vfio_address_spaces w;
     vfio_kvm_device_fd := vfio_kvm_device_fd w |}.

Definition set_spaces (s : gmap Z VFIOAddressSpace) (l : list Z) (w : World)
  : World :=
  {| env := env w; trace := trace w; errno := errno w;
     devices := devices w; groups := groups w; containers := containers w;
     spaces := s; vfio_group_list := vfio_group_list w;
     vfio_address_spaces := l;
     vfio_kvm_device_fd := vfio_kvm_device_fd w |}.

Definition set_groups (g : gmap Z VFIOGroup) (l : list Z) (w : World)
  : World :=
  {| env := env w; trace := trace w; errno := errno w;
     devices := devices w; groups := g; containers := containers w;
     spaces := spaces w; vfio_group_list := l;
     vfio_address_spaces := vfio_address_spaces w;
     vfio_kvm_device_fd := vfio_kvm_device_fd w |}.

Definition set_vfio_kvm_device_fd (fd : Z) (w : World) : World :=
  {| env := env w; trace := trace w; errno := errno w;
     devices := devices w; groups := groups w; containers := containers w;
     spaces := spaces w; vfio_group_list := vfio_group_list w;
     vfio_address_spaces := vfio_address_spaces w;
     vfio_kvm_device_fd := fd |}.

(** ** The monad of the embedding

    A computation ends normally, or in [abort()] ([hw_error], a failed
    [assert]), or by dereferencing an address that holds no object. *)

Inductive Outcome (A : Type) : Type :=
| Ret (a : A) (w : World)
| Abort (w : World)
| Fault.

Arguments Ret {A} a w.
Arguments Abort {A} w.
Arguments Fault {A}.

Definition M (A : Type) : Type := World -> Outcome A.

Definition ret {A} (a : A) : M A := fun w => Ret a w.

Definition bind {A B} (m : M A) (k : A -> M B) : M B :=
  fun w => match m w with
           | Ret a w' => k a w'
           | Abort w' => Abort w'
           | Fault => Fault
           end.

Declare Scope vfio_scope.
Delimit Scope vfio_scope with vfio.
Notation "x <- m ;; k" := (bind m (fun x => k))
  (at level 100, m at next level, right associativity) : vfio_scope.
Notation "m ;; k" := (bind m (fun _ => k))
  (at level 100, right associativity) : vfio_scope.
Local Open Scope vfio_scope.

(** Modelled from the spec: hw_error (hw/hw.h) is not among the sources;
    it is the "fatal usage error" of 4.7 and the "runtime fatal" failure
    of 7: it reports and calls [abort()]. *)
Definition hw_error {A} : M A := fun w => Abort w.

Definition fault {A} : M A := fun _ => Fault.

Definition get_errno : M Z := fun w => Ret (errno w) w.

Definition emit (e : Event) : M unit :=
  fun w => Ret tt (set_trace (trace w ++ [e]) w).

(** One system call: ask the oracle, log the exchange, set errno on
    failure (and leave it alone on success, as libc does). *)
Definition syscall (c : Call) : M Reply :=
  fun w =>
    let r := host (env w) (trace w) c in
    let w1 := set_trace (trace w ++ [Sys c r]) w in
    Ret r (match r with Err e => set_errno e w1 | Ok _ _ => w1 end).

(** One call through the device's behaviour table. *)
Definition call_op (h : Hook) (vbasedev : Z) : M unit :=
  fun w =>
    Ret tt (set_devices (ops (env w) h vbasedev (devices w))
              (set_trace (trace w ++ [Op h vbasedev]) w)).

Definition get_device (p : Z) : M VFIODevice :=
  fun w => match devices w !! p with
           | Some d => Ret d w
           | None => Fault
           end.

Definition get_group (p : Z) : M VFIOGroup :=
  fun w => match groups w !! p with
           | Some g => Ret g w
           | None => Fault
           end.

Definition get_container (p : Z) : M VFIOContainer :=
  fun w => match containers w !! p with
           | Some c => Ret c w
           | None => Fault
           end.

Definition get_space (p : Z) : M VFIOAddressSpace :=
  fun w => match spaces w !! p with
           | Some s => Ret s w
           | None => Fault
           end.

(** ** Trapped access: vfio_region_write / vfio_region_read *)

Record VFIOMmap := {
  mmap_mem_installed : bool;
  mmap_ptr : Z;
  mmap_offset : Z;
  mmap_size : Z;
}.

Record VFIORegion := {
  vbasedev : Z;
  fd_offset : Z;
  region_mem : bool;
  region_size : Z;
  region_flags : Z;
  region_nr : Z;
  mmaps : list VFIOMmap;
}.

(** [error_report] and the [trace_*] probes only log; they are left out,
    and errno is taken to survive them. *)

Definition vfio_region_write (region : VFIORegion) (addr data size : Z)
  : M unit :=
  buf <- (if size =? 1 then ret (le_encode 1 (wrap 8 data))
          else if size =? 2 then ret (le_encode 2 (wrap 16 data))
          else if size =? 4 then ret (le_encode 4 (wrap 32 data))
          else hw_error) ;;
  dev <- get_device (vbasedev region) ;;
  _ <- syscall (PWRITE (dev_fd dev) buf size
                  (wrap64 (fd_offset region + addr))) ;;
  call_op vfio_eoi (vbasedev region).

Definition vfio_region_read (region : VFIORegion) (addr size : Z) : M Z :=
  dev <- get_device (vbasedev region) ;;
  r <- syscall (PREAD (dev_fd dev) size (wrap64 (fd_offset region + addr))) ;;
  if negb (ret_of r =? size) then ret UINT64_MAX
  else
    data <- (if size =? 1 then ret (le_decode (take 1 (data_of r)))
             else if size =? 2 then ret (le_decode (take 2 (data_of r)))
             else if size =? 4 then ret (le_decode (take 4 (data_of r)))
             else hw_error) ;;
    _ <- call_op vfio_eoi (vbasedev region) ;;
    ret data.

(** ** DMA map engine: vfio_dma_unmap / vfio_dma_map *)

Definition vfio_dma_unmap (container iova size : Z) : M Z :=
  c <- get_container container ;;
  r <- syscall (VFIO_IOMMU_UNMAP_DMA (container_fd c) 0 iova size) ;;
  if negb (ret_of r =? 0) then
    e <- get_errno ;; ret (- e)
  else ret 0.

Definition vfio_dma_map (container iova size vaddr : Z) (readonly : bool)
  : M Z :=
  c <- get_container container ;;
  let flags := if readonly then VFIO_DMA_MAP_FLAG_READ
               else Z.lor VFIO_DMA_MAP_FLAG_READ VFIO_DMA_MAP_FLAG_WRITE in
  let map := VFIO_IOMMU_MAP_DMA (container_fd c) flags vaddr iova size in
  let failed : M Z := (e <- get_errno ;; ret (- e)) in
  r1 <- syscall map ;;
  if ret_of r1 =? 0 then ret 0
  else
    e <- get_errno ;;
    if e =? EBUSY then
      u <- vfio_dma_unmap container iova size ;;
      if u =? 0 then
        r2 <- syscall map ;;
        if ret_of r2 =? 0 then ret 0 else failed
      else failed
    else failed.

(** ** Int128 and page arithmetic *)

(** Modelled from the spec: qemu/int128.h is not among the sources.  The
    section's size and the end of its interval (4.4, "compute the
    page-aligned IOVA interval") are 128-bit signed integers; an Int128
    is kept as the integer it denotes, and [int128_wrap] is the
    wrap-around of its arithmetic. *)
Definition int128_wrap (x : Z) : Z := (x + 2 ^ 127) mod 2 ^ 128 - 2 ^ 127.

(** Modelled from the spec: the constructors and operations of
    qemu/int128.h that the listener uses, on the integers denoted. *)
Definition int128_make64 (a : Z) : Z := a.
Definition int128_exts64 (a : Z) : Z := a.
Definition int128_one : Z := 1.
Definition int128_add (a b : Z) : Z := int128_wrap (a + b).
Definition int128_sub (a b : Z) : Z := int128_wrap (a - b).
Definition int128_and (a b : Z) : Z := Z.land a b.
Definition int128_ge (a b : Z) : bool := b <=? a.

(** Modelled from the spec: [int128_get64] of qemu/int128.h, the
    conversion back to 64 bits; it asserts that the value fits 64
    unsigned bits, and a failed assertion aborts. *)
Definition int128_get64 (a : Z) : M Z :=
  if (0 <=? a) && (a <? 2 ^ 64) then ret a else hw_error.

Definition get_env : M Env := fun w => Ret (env w) w.

(** Modelled from the spec: the page macros of exec/cpu-all.h are not
    among the sources; the page size is a power of two that the target
    fixes (TARGET_PAGE_BITS is a parameter), TARGET_PAGE_MASK is the
    negative int [~(TARGET_PAGE_SIZE - 1)] and TARGET_PAGE_ALIGN rounds a
    64-bit address up to the next page boundary. *)
Definition TARGET_PAGE_SIZE (e : Env) : Z := 2 ^ TARGET_PAGE_BITS e.
Definition TARGET_PAGE_MASK (e : Env) : Z := - TARGET_PAGE_SIZE e.
Definition TARGET_PAGE_ALIGN (e : Env) (addr : Z) : Z :=
  wrap64 (Z.land (addr + TARGET_PAGE_SIZE e - 1) (TARGET_PAGE_MASK e)).

(** The bits of an address below the page size, [addr & ~TARGET_PAGE_MASK]. *)
Definition page_offset (e : Env) (addr : Z) : Z :=
  Z.land addr (Z.lnot (TARGET_PAGE_MASK e)).

(** ** Memory listener *)

Definition vfio_listener_skipped_section (section : MemoryRegionSection)
  : bool :=
  (negb (mr_is_ram (mr section)) && negb (mr_is_iommu (mr section)))
  || negb (Z.land (offset_within_address_space section) (Z.shiftl 1 63) =? 0).

Definition put_container (p : Z) (c : VFIOContainer) : M unit :=
  fun w => Ret tt (set_containers (<[p := c]> (containers w)) w).

Definition set_container_error (e : Z) (c : VFIOContainer) : VFIOContainer :=
  {| container_space := container_space c; container_fd := container_fd c;
     min_iova := min_iova c; max_iova := max_iova c;
     iova_pgsizes := iova_pgsizes c; container_error := e;
     initialized := initialized c; giommu_list := giommu_list c;
     group_list := group_list c |}.

Definition set_giommu_list (l : list VFIOGuestIOMMU) (c : VFIOContainer)
  : VFIOContainer :=
  {| container_space := container_space c; container_fd := container_fd c;
     min_iova := min_iova c; max_iova := max_iova c;
     iova_pgsizes := iova_pgsizes c; container_error := container_error c;
     initialized := initialized c; giommu_list := l;
     group_list := group_list c |}.

Definition vfio_iommu_map_notify (giommu : VFIOGuestIOMMU)
    (iotlb : IOMMUTLBEntry) : M unit :=
  let container := giommu_container giommu in
  e <- get_env ;;
  let '(m, xlat, len) :=
    address_space_translate e (translated_addr iotlb)
      (wrap64 (addr_mask iotlb + 1))
      (negb (Z.land (perm iotlb) IOMMU_WO =? 0)) in
  if negb (mr_is_ram m) then ret tt
  else if negb (Z.land len (addr_mask iotlb) =? 0) then ret tt
  else if negb (Z.land (perm iotlb) IOMMU_RW =? IOMMU_NONE) then
    let vaddr := wrap64 (mr_ram_ptr m + xlat) in
    _ <- vfio_dma_map container (iova iotlb) (wrap64 (addr_mask iotlb + 1))
           vaddr
           ((Z.land (perm iotlb) IOMMU_WO =? 0) || mr_readonly m) ;;
    ret tt
  else
    _ <- vfio_dma_unmap container (iova iotlb)
           (wrap64 (addr_mask iotlb + 1)) ;;
    ret tt.

(** Modelled from the spec: [ctz64] of qemu/host-utils.h is not among the
    sources; it counts the trailing zero bits of a 64-bit value (64 for
    0), which turns the page-size bitmap into "the Container's page
    granularity" (4.4). *)
Fixpoint ctz_pos (p : positive) : Z :=
  match p with
  | xO p' => 1 + ctz_pos p'
  | _ => 0
  end.

Definition ctz64 (x : Z) : Z :=
  match wrap64 x with
  | Zpos p => ctz_pos p
  | _ => 64
  end.

Definition vfio_container_granularity (c : VFIOContainer) : Z :=
  wrap64 (Z.shiftl 1 (ctz64 (iova_pgsizes c))).

(** Modelled from the spec: memory_region_iommu_replay belongs to the
    memory API (memory.c), which is not among the sources; it makes the
    notifier "replay every translation currently valid in that guest
    IOMMU at the Container's page granularity" (4.4).  The environment
    lists these translations. *)
Fixpoint notify_all (giommu : VFIOGuestIOMMU) (l : list IOMMUTLBEntry)
  : M unit :=
  match l with
  | [] => ret tt
  | iotlb :: l' =>
      _ <- vfio_iommu_map_notify giommu iotlb ;; notify_all giommu l'
  end.

Definition memory_region_iommu_replay (giommu : VFIOGuestIOMMU)
    (granularity : Z) : M unit :=
  e <- get_env ;;
  notify_all giommu (iommu_valid_entries e (giommu_iommu giommu) granularity).

(** The [fail:] label of vfio_listener_region_add. *)
Definition region_add_fail (container : Z) (r : Z) : M unit :=
  c <- get_container container ;;
  if negb (initialized c) then
    if container_error c =? 0 then
      put_container container (set_container_error r c)
    else ret tt
  else hw_error.

(** On the skip path the arguments of the trace probe are still
    evaluated, and one of them is [int128_get64 (size - 1)]. *)
Definition vfio_listener_region_add (container : Z)
    (section : MemoryRegionSection) : M unit :=
  e <- get_env ;;
  let oas := offset_within_address_space section in
  if vfio_listener_skipped_section section then
    _ <- int128_get64 (int128_sub (size section) int128_one) ;; ret tt
  else if negb (page_offset e oas
                =? page_offset e (offset_within_region section)) then ret tt
  else
    let iova := TARGET_PAGE_ALIGN e oas in
    let llend := int128_make64 oas in
    let llend := int128_add llend (size section) in
    let llend := int128_and llend (int128_exts64 (TARGET_PAGE_MASK e)) in
    if int128_ge (int128_make64 iova) llend then ret tt
    else
      end_ <- int128_get64 llend ;;
      c <- get_container container ;;
      if (iova <? min_iova c) || (max_iova c <? wrap64 (end_ - 1)) then
        region_add_fail container (- EFAULT)
      else
        _ <- emit (memory_region_ref (mr_addr (mr section))) ;;
        if mr_is_iommu (mr section) then
          let giommu := {| giommu_container := container;
                           giommu_iommu := mr_addr (mr section) |} in
          _ <- put_container container
                 (set_giommu_list (giommu :: giommu_list c) c) ;;
          _ <- emit (memory_region_register_iommu_notifier
                       (giommu_iommu giommu)) ;;
          memory_region_iommu_replay giommu (vfio_container_granularity c)
        else
          let vaddr := wrap64 (mr_ram_ptr (mr section)
                               + offset_within_region section
                               + (iova - oas)) in
          r <- vfio_dma_map container iova (wrap64 (end_ - iova)) vaddr
                 (readonly section) ;;
          if negb (r =? 0) then region_add_fail container r
          else ret tt.

(** QLIST_FOREACH ... break: the first binding of the guest IOMMU [m]. *)
Fixpoint giommu_remove (m : Z) (l : list VFIOGuestIOMMU)
  : option (list VFIOGuestIOMMU) :=
  match l with
  | [] => None
  | g :: l' =>
      if giommu_iommu g =? m then Some l'
      else match giommu_remove m l' with
           | Some r => Some (g :: r)
           | None => None
           end
  end.

(** The block [if (memory_region_is_iommu(section->mr)) { ... }] of
    vfio_listener_region_del: the binding of the guest IOMMU is released. *)
Definition region_del_giommu (container : Z) (section : MemoryRegionSection)
  : M unit :=
  if mr_is_iommu (mr section) then
    c <- get_container container ;;
    match giommu_remove (mr_addr (mr section)) (giommu_list c) with
    | Some l =>
        _ <- emit (memory_region_unregister_iommu_notifier
                     (mr_addr (mr section))) ;;
        put_container container (set_giommu_list l c)
    | None => ret tt
    end
  else ret tt.

Definition vfio_listener_region_del (container : Z)
    (section : MemoryRegionSection) : M unit :=
  e <- get_env ;;
  let oas := offset_within_address_space section in
  if vfio_listener_skipped_section section then
    _ <- int128_get64 (int128_sub (size section) int128_one) ;; ret tt
  else if negb (page_offset e oas
                =? page_offset e (offset_within_region section)) then ret tt
  else
    _ <- region_del_giommu container section ;;
    let iova := TARGET_PAGE_ALIGN e oas in
    sz <- int128_get64 (size section) ;;
    let end_ := wrap64 (Z.land (wrap64 (oas + sz)) (TARGET_PAGE_MASK e)) in
    if end_ <=? iova then ret tt
    else
      r <- vfio_dma_unmap container iova (wrap64 (end_ - iova)) ;;
      emit (memory_region_unref (mr_addr (mr section))).

(** ** Direct mapping of a region: vfio_region_mmap *)

Definition MAP_FAILED : Z := -1.

Definition set_mmap (installed : bool) (p : Z) (m : VFIOMmap) : VFIOMmap :=
  {| mmap_mem_installed := installed; mmap_ptr := p;
     mmap_offset := mmap_offset m; mmap_size := mmap_size m |}.

Definition set_mmaps (l : list VFIOMmap) (r : VFIORegion) : VFIORegion :=
  {| vbasedev := vbasedev r; fd_offset := fd_offset r;
     region_mem := region_mem r; region_size := region_size r;
     region_flags := region_flags r; region_nr := region_nr r;
     mmaps := l |}.

(** The inner loop [for (i--; i >= 0; i--)]: windows [i-1] down to [0]
    are taken out of the container region, unmapped and cleared. *)
Fixpoint vfio_region_mmap_undo (region : VFIORegion) (i : nat)
    (ms : list VFIOMmap) : M (list VFIOMmap) :=
  match i with
  | O => ret ms
  | S j =>
      match ms !! j with
      | None => fault
      | Some m =>
          _ <- syscall (MUNMAP (mmap_ptr m) (mmap_size m)) ;;
          vfio_region_mmap_undo region j (<[j := set_mmap false NULL m]> ms)
      end
  end.

(** The outer loop, from window [i] on, with [n] windows left. *)
Fixpoint vfio_region_mmap_loop (region : VFIORegion) (prot : Z) (n i : nat)
    (ms : list VFIOMmap) : M (Z * list VFIOMmap) :=
  match n with
  | O => ret (0, ms)
  | S n' =>
      match ms !! i with
      | None => fault
      | Some m =>
          dev <- get_device (vbasedev region) ;;
          r <- syscall (MMAP (mmap_size m) prot (dev_fd dev)
                          (wrap64 (fd_offset region + mmap_offset m))) ;;
          if ret_of r =? MAP_FAILED then
            e <- get_errno ;;
            ms' <- vfio_region_mmap_undo region i
                     (<[i := set_mmap (mmap_mem_installed m) NULL m]> ms) ;;
            ret (- e, ms')
          else
            vfio_region_mmap_loop region prot n' (S i)
              (<[i := set_mmap true (ret_of r) m]> ms)
      end
  end.

Definition vfio_region_mmap (region : VFIORegion) : M (Z * VFIORegion) :=
  if negb (region_mem region) then ret (0, region)
  else
    let prot :=
      Z.lor (if Z.land (region_flags region) VFIO_REGION_INFO_FLAG_READ =? 0
             then 0 else PROT_READ)
            (if Z.land (region_flags region) VFIO_REGION_INFO_FLAG_WRITE =? 0
             then 0 else PROT_WRITE) in
    x <- vfio_region_mmap_loop region prot (length (mmaps region)) 0
           (mmaps region) ;;
    ret (fst x, set_mmaps (snd x) region).

(** ** Global reset: vfio_reset_handler *)

Fixpoint for_each {A} (f : A -> M unit) (l : list A) : M unit :=
  match l with
  | [] => ret tt
  | x :: l' => _ <- f x ;; for_each f l'
  end.

Definition get_vfio_group_list : M (list Z) :=
  fun w => Ret (vfio_group_list w) w.

(** The first pair of nested QLIST_FOREACH loops. *)
Definition reset_query_phase (gl : list Z) : M unit :=
  for_each (fun group =>
    g <- get_group group ;;
    for_each (fun vbasedev =>
      _ <- get_device vbasedev ;;
      call_op vfio_compute_needs_reset vbasedev) (device_list g)) gl.

(** The second pair. *)
Definition reset_multi_phase (gl : list Z) : M unit :=
  for_each (fun group =>
    g <- get_group group ;;
    for_each (fun vbasedev =>
      d <- get_device vbasedev ;;
      if needs_reset d then call_op vfio_hot_reset_multi vbasedev
      else ret tt) (device_list g)) gl.

Definition vfio_reset_handler : M unit :=
  gl <- get_vfio_group_list ;;
  _ <- reset_query_phase gl ;;
  reset_multi_phase gl.

(** ** EEH *)

Definition vfio_eeh_container_ok (c : VFIOContainer) : bool :=
  match group_list c with
  | [] => false
  | [_] => true
  | _ :: _ :: _ => false
  end.

Definition vfio_eeh_container_op (container op : Z) : M Z :=
  c <- get_container container ;;
  if negb (vfio_eeh_container_ok c) then ret (- EPERM)
  else
    r <- syscall (VFIO_EEH_PE_OP (container_fd c) op) ;;
    if ret_of r <? 0 then
      e <- get_errno ;; ret (- e)
    else ret 0.

(** ** The registry of address spaces *)

(** [g_malloc0] (glib): an address that holds no object and is not NULL. *)
Definition g_malloc0 : M Z :=
  fun w => Ret (fresh ({[NULL]} ∪ dom (devices w) ∪ dom (groups w)
                       ∪ dom (containers w) ∪ dom (spaces w))) w.

(** Modelled from the spec: the list macros of qemu/queue.h are not among
    the sources.  A QLIST is an "ordered set" (3) of objects linked
    through themselves: QLIST_INSERT_HEAD is a cons, QLIST_FOREACH walks
    the list from its head, QLIST_REMOVE unlinks one element. *)
Fixpoint qlist_remove (p : Z) (l : list Z) : list Z :=
  match l with
  | [] => []
  | q :: l' => if q =? p then l' else q :: qlist_remove p l'
  end.

Fixpoint find_address_space (as_ : Z) (l : list Z) : M (option Z) :=
  match l with
  | [] => ret None
  | space :: l' =>
      s <- get_space space ;;
      if space_as s =? as_ then ret (Some space)
      else find_address_space as_ l'
  end.

Definition get_vfio_address_spaces : M (list Z) :=
  fun w => Ret (vfio_address_spaces w) w.

Definition vfio_get_address_space (as_ : Z) : M Z :=
  l <- get_vfio_address_spaces ;;
  found <- find_address_space as_ l ;;
  match found with
  | Some space => ret space
  | None =>
      space <- g_malloc0 ;;
      fun w =>
        Ret space
          (set_spaces
             (<[space := {| space_as := as_; space_containers := [] |}]>
                (spaces w))
             (space :: vfio_address_spaces w) w)
  end.

Definition vfio_put_address_space (space : Z) : M unit :=
  s <- get_space space ;;
  match space_containers s with
  | [] =>
      fun w =>
        Ret tt (set_spaces (delete space (spaces w))
                  (qlist_remove space (vfio_address_spaces w)) w)
  | _ :: _ => ret tt
  end.

(** ** Groups and containers: vfio_connect_container / vfio_get_group *)

Definition VFIO_API_VERSION : Z := 0.
Definition VFIO_TYPE1_IOMMU : Z := 1.
Definition VFIO_SPAPR_TCE_IOMMU : Z := 2.
Definition VFIO_TYPE1v2_IOMMU : Z := 3.
Definition VFIO_IOMMU_INFO_PGSIZES : Z := 1.
Definition VFIO_GROUP_FLAGS_VIABLE : Z := 1.
Definition KVM_DEV_TYPE_VFIO : Z := 4.
Definition KVM_DEV_VFIO_GROUP : Z := 1.
Definition KVM_DEV_VFIO_GROUP_ADD : Z := 1.

Definition put_group (p : Z) (g : VFIOGroup) : M unit :=
  fun w => Ret tt (set_groups (<[p := g]> (groups w)) (vfio_group_list w) w).

Definition put_space (p : Z) (s : VFIOAddressSpace) : M unit :=
  fun w => Ret tt (set_spaces (<[p := s]> (spaces w))
                     (vfio_address_spaces w) w).

Definition g_free_group (p : Z) : M unit :=
  fun w => Ret tt (set_groups (delete p (groups w)) (vfio_group_list w) w).

Definition g_free_container (p : Z) : M unit :=
  fun w => Ret tt (set_containers (delete p (containers w)) w).

Definition set_group_container (c : Z) (g : VFIOGroup) : VFIOGroup :=
  {| group_fd := group_fd g; groupid := groupid g; group_container := c;
     device_list := device_list g |}.

Definition set_group_list (l : list Z) (c : VFIOContainer) : VFIOContainer :=
  {| container_space := container_space c; container_fd := container_fd c;
     min_iova := min_iova c; max_iova := max_iova c;
     iova_pgsizes := iova_pgsizes c; container_error := container_error c;
     initialized := initialized c; giommu_list := giommu_list c;
     group_list := l |}.

Definition set_iova_window (lo hi pgsizes : Z) (c : VFIOContainer)
  : VFIOContainer :=
  {| container_space := container_space c; container_fd := container_fd c;
     min_iova := lo; max_iova := hi;
     iova_pgsizes := pgsizes; container_error := container_error c;
     initialized := initialized c; giommu_list := giommu_list c;
     group_list := group_list c |}.

Definition set_initialized (b : bool) (c : VFIOContainer) : VFIOContainer :=
  {| container_space := container_space c; container_fd := container_fd c;
     min_iova := min_iova c; max_iova := max_iova c;
     iova_pgsizes := iova_pgsizes c; container_error := container_error c;
     initialized := b; giommu_list := giommu_list c;
     group_list := group_list c |}.

(** Modelled from the spec: memory_listener_register belongs to the
    memory API (memory.c), which is not among the sources; the listener
    is "invoked synchronously whenever the guest's observable physical
    memory layout changes" (4.4), and on registration it is told of every
    section that the address space has at that moment, through its
    region_add. *)
Definition do_memory_listener_register (container as_ : Z) : M unit :=
  _ <- emit (memory_listener_register container as_) ;;
  e <- get_env ;;
  for_each (vfio_listener_region_add container) (flatview e as_).

Definition vfio_listener_release (container : Z) : M unit :=
  emit (memory_listener_unregister container).

Definition vfio_kvm_device_add_group (group : Z) : M unit :=
  e <- get_env ;;
  if negb (CONFIG_KVM e) then ret tt
  else
    if negb (kvm_enabled e) then ret tt
    else
      kfd <- (fun w => Ret (vfio_kvm_device_fd w) w) ;;
      created <-
        (if kfd <? 0 then
           r <- syscall (KVM_CREATE_DEVICE KVM_DEV_TYPE_VFIO) ;;
           if negb (ret_of r =? 0) then ret false
           else
             _ <- (fun w => Ret tt (set_vfio_kvm_device_fd
                                      (nth 0 (data_of r) 0) w)) ;;
             ret true
         else ret true) ;;
      if negb created then ret tt
      else
        kfd <- (fun w => Ret (vfio_kvm_device_fd w) w) ;;
        g <- get_group group ;;
        _ <- syscall (KVM_SET_DEVICE_ATTR kfd KVM_DEV_VFIO_GROUP
                        KVM_DEV_VFIO_GROUP_ADD (group_fd g)) ;;
        ret tt.

(** The first loop of vfio_connect_container: the first container of the
    address space that accepts the group. *)
Fixpoint find_container (gfd : Z) (l : list Z) : M (option Z) :=
  match l with
  | [] => ret None
  | container :: l' =>
      c <- get_container container ;;
      r <- syscall (VFIO_GROUP_SET_CONTAINER gfd (container_fd c)) ;;
      if ret_of r =? 0 then ret (Some container)
      else find_container gfd l'
  end.

(** The IOMMU set-up of a fresh container; [inl ret] stands for
    [goto free_container_exit] with that return value. *)
Definition vfio_init_iommu (gfd fd : Z) : M (Z + Z * Z * Z) :=
  let failed : M (Z + Z * Z * Z) := (e <- get_errno ;; ret (inl (- e))) in
  t1 <- syscall (VFIO_CHECK_EXTENSION fd VFIO_TYPE1_IOMMU) ;;
  type1 <- (if negb (ret_of t1 =? 0) then ret true
            else
              t2 <- syscall (VFIO_CHECK_EXTENSION fd VFIO_TYPE1v2_IOMMU) ;;
              ret (negb (ret_of t2 =? 0))) ;;
  if type1 : bool then
    t3 <- syscall (VFIO_CHECK_EXTENSION fd VFIO_TYPE1v2_IOMMU) ;;
    let v2 := negb (ret_of t3 =? 0) in
    r <- syscall (VFIO_GROUP_SET_CONTAINER gfd fd) ;;
    if negb (ret_of r =? 0) then failed
    else
      r <- syscall (VFIO_SET_IOMMU fd
                      (if v2 then VFIO_TYPE1v2_IOMMU else VFIO_TYPE1_IOMMU)) ;;
      if negb (ret_of r =? 0) then failed
      else
        r <- syscall (VFIO_IOMMU_GET_INFO fd) ;;
        let flags := nth 0 (data_of r) 0 in
        let pgsizes := nth 1 (data_of r) 0 in
        if (ret_of r =? 0)
           && negb (Z.land flags VFIO_IOMMU_INFO_PGSIZES =? 0)
        then ret (inr (0, UINT64_MAX, pgsizes))
        else ret (inr (0, UINT64_MAX, 4096))
  else
    t <- syscall (VFIO_CHECK_EXTENSION fd VFIO_SPAPR_TCE_IOMMU) ;;
    if negb (ret_of t =? 0) then
      r <- syscall (VFIO_GROUP_SET_CONTAINER gfd fd) ;;
      if negb (ret_of r =? 0) then failed
      else
        r <- syscall (VFIO_SET_IOMMU fd VFIO_SPAPR_TCE_IOMMU) ;;
        if negb (ret_of r =? 0) then failed
        else
          r <- syscall (VFIO_IOMMU_ENABLE fd) ;;
          if negb (ret_of r =? 0) then failed
          else
            r <- syscall (VFIO_IOMMU_SPAPR_TCE_GET_INFO fd) ;;
            if negb (ret_of r =? 0) then failed
            else
              let start := nth 0 (data_of r) 0 in
              let wsize := nth 1 (data_of r) 0 in
              ret (inr (start, wrap64 (start + wsize - 1), 4096))
    else ret (inl (- EINVAL)).

Definition vfio_connect_container (group as_ : Z) : M Z :=
  space <- vfio_get_address_space as_ ;;
  s <- get_space space ;;
  g <- get_group group ;;
  found <- find_container (group_fd g) (space_containers s) ;;
  match found with
  | Some container =>
      c <- get_container container ;;
      _ <- put_group group (set_group_container container g) ;;
      _ <- put_container container (set_group_list (group :: group_list c) c) ;;
      ret 0
  | None =>
      o <- syscall OPEN_VFIO ;;
      let fd := ret_of o in
      if fd <? 0 then
        e <- get_errno ;;
        _ <- vfio_put_address_space space ;;
        ret (- e)
      else
        v <- syscall (VFIO_GET_API_VERSION fd) ;;
        if negb (ret_of v =? VFIO_API_VERSION) then
          _ <- syscall (CLOSE fd) ;;
          _ <- vfio_put_address_space space ;;
          ret (- EINVAL)
        else
          container <- g_malloc0 ;;
          _ <- put_container container
                 {| container_space := space; container_fd := fd;
                    min_iova := 0; max_iova := 0; iova_pgsizes := 0;
                    container_error := 0; initialized := false;
                    giommu_list := []; group_list := [] |} ;;
          i <- vfio_init_iommu (group_fd g) fd ;;
          match i with
          | inl r =>
              _ <- g_free_container container ;;
              _ <- syscall (CLOSE fd) ;;
              _ <- vfio_put_address_space space ;;
              ret r
          | inr (lo, hi, pgsizes) =>
              c <- get_container container ;;
              _ <- put_container container (set_iova_window lo hi pgsizes c) ;;
              s <- get_space space ;;
              _ <- do_memory_listener_register container (space_as s) ;;
              c <- get_container container ;;
              if negb (container_error c =? 0) then
                _ <- vfio_listener_release container ;;
                _ <- g_free_container container ;;
                _ <- syscall (CLOSE fd) ;;
                _ <- vfio_put_address_space space ;;
                ret (container_error c)
              else
                _ <- put_container container
                       (set_group_list [group] (set_initialized true c)) ;;
                s <- get_space space ;;
                _ <- put_space space
                       {| space_as := space_as s;
                          space_containers :=
                            container :: space_containers s |} ;;
                _ <- put_group group (set_group_container container g) ;;
                ret 0
          end
  end.

(** The lookup loop of vfio_get_group: the first registered group with
    the requested id. *)
Fixpoint find_group (id : Z) (l : list Z) : M (option Z) :=
  match l with
  | [] => ret None
  | group :: l' =>
      g <- get_group group ;;
      if groupid g =? id then ret (Some group)
      else find_group id l'
  end.

Definition vfio_get_group (id as_ : Z) : M Z :=
  gl <- get_vfio_group_list ;;
  found <- find_group id gl ;;
  match found with
  | Some group =>
      g <- get_group group ;;
      c <- get_container (group_container g) ;;
      s <- get_space (container_space c) ;;
      if space_as s =? as_ then ret group else ret NULL
  | None =>
      group <- g_malloc0 ;;
      _ <- put_group group
             {| group_fd := 0; groupid := 0; group_container := NULL;
                device_list := [] |} ;;
      o <- syscall (OPEN_GROUP id) ;;
      let fd := ret_of o in
      _ <- put_group group
             {| group_fd := fd; groupid := 0; group_container := NULL;
                device_list := [] |} ;;
      if fd <? 0 then
        _ <- g_free_group group ;; ret NULL
      else
        st <- syscall (VFIO_GROUP_GET_STATUS fd) ;;
        let flags := nth 0 (data_of st) 0 in
        if negb (ret_of st =? 0)
           || (Z.land flags VFIO_GROUP_FLAGS_VIABLE =? 0) then
          _ <- syscall (CLOSE fd) ;;
          _ <- g_free_group group ;; ret NULL
        else
          _ <- put_group group
                 {| group_fd := fd; groupid := id; group_container := NULL;
                    device_list := [] |} ;;
          r <- vfio_connect_container group as_ ;;
          if negb (r =? 0) then
            _ <- syscall (CLOSE fd) ;;
            _ <- g_free_group group ;; ret NULL
          else
            gl <- get_vfio_group_list ;;
            _ <- (match gl with
                  | [] => emit qemu_register_reset
                  | _ :: _ => ret tt
                  end) ;;
            _ <- (fun w => Ret tt (set_groups (groups w)
                                     (group :: vfio_group_list w) w)) ;;
            _ <- vfio_kvm_device_add_group group ;;
            ret group
  end.

(** ** The requests behind the operations *)

(** The positioned read and write that a trapped access issues. *)
Definition region_pread (region : VFIORegion) (dev : VFIODevice)
    (addr size : Z) : Call :=
  PREAD (dev_fd dev) size (wrap64 (fd_offset region + addr)).

Definition region_pwrite (region : VFIORegion) (dev : VFIODevice)
    (addr data size : Z) : Call :=
  PWRITE (dev_fd dev) (le_encode (Z.to_nat size) (wrap (8 * size) data)) size
    (wrap64 (fd_offset region + addr)).

(** The two host requests of vfio_dma_map. *)
Definition dma_map_call (c : VFIOContainer) (iova size vaddr : Z)
    (readonly : bool) : Call :=
  VFIO_IOMMU_MAP_DMA (container_fd c)
    (if readonly then VFIO_DMA_MAP_FLAG_READ
     else Z.lor VFIO_DMA_MAP_FLAG_READ VFIO_DMA_MAP_FLAG_WRITE)
    vaddr iova size.

Definition dma_unmap_call (c : VFIOContainer) (iova size : Z) : Call :=
  VFIO_IOMMU_UNMAP_DMA (container_fd c) 0 iova size.

(** The host request of vfio_eeh_container_op. *)
Definition eeh_call (c : VFIOContainer) (op : Z) : Call :=
  VFIO_EEH_PE_OP (container_fd c) op.

Definition region_prot (region : VFIORegion) : Z :=
  Z.lor (if Z.land (region_flags region) VFIO_REGION_INFO_FLAG_READ =? 0
         then 0 else PROT_READ)
        (if Z.land (region_flags region) VFIO_REGION_INFO_FLAG_WRITE =? 0
         then 0 else PROT_WRITE).

(** The mmap request for one window. *)
Definition mmap_call (region : VFIORegion) (dev : VFIODevice) (m : VFIOMmap)
  : Call :=
  MMAP (mmap_size m) (region_prot region) (dev_fd dev)
    (wrap64 (fd_offset region + mmap_offset m)).

(** The kernel's answers to a run of calls issued one after the other,
    starting from the history [t]. *)
Fixpoint replies (e : Env) (t : list Event) (cs : list Call) : list Reply :=
  match cs with
  | [] => []
  | c :: cs' =>
      let r := host e t c in
      r :: replies e (t ++ [Sys c r]) cs'
  end.

(** The world after one system call. *)
Definition after_syscall (c : Call) (w : World) : World :=
  let r := host (env w) (trace w) c in
  let w1 := set_trace (trace w ++ [Sys c r]) w in
  match r with Err e => set_errno e w1 | Ok _ _ => w1 end.

(** The world after one call through the behaviour table. *)
Definition after_op (h : Hook) (dev : Z) (w : World) : World :=
  set_devices (ops (env w) h dev (devices w))
    (set_trace (trace w ++ [Op h dev]) w).

(** ** Reading the trace *)

Definition hook_eqb (a b : Hook) : bool :=
  match a, b with
  | vfio_compute_needs_reset, vfio_compute_needs_reset => true
  | vfio_hot_reset_multi, vfio_hot_reset_multi => true
  | vfio_eoi, vfio_eoi => true
  | _, _ => false
  end.

Definition is_op (h : Hook) (dev : Z) (e : Event) : bool :=
  match e with
  | Op h' dev' => hook_eqb h h' && (dev =? dev')
  | _ => false
  end.

(** How many times the hook [h] of device [dev] was invoked. *)
Definition count_op (h : Hook) (dev : Z) (t : list Event) : nat :=
  length (List.filter (is_op h dev) t).

(** ** Reading the region *)

(** A window is active when it is mapped and installed in the region. *)
Definition active (m : VFIOMmap) : bool :=
  negb (mmap_ptr m =? NULL) && mmap_mem_installed m.

(** ** Invariants of the registries *)

(** Every address on the QLIST of address spaces is a live
    VFIOAddressSpace, and no entry is linked twice. *)
Definition spaces_wf (w : World) : Prop :=
  NoDup (vfio_address_spaces w)
  /\ forall p, p ∈ vfio_address_spaces w -> is_Some (spaces w !! p).

(** [p] is a registered entry for the address space [as_]. *)
Definition registered (as_ : Z) (w : World) (p : Z) : Prop :=
  p ∈ vfio_address_spaces w
  /\ exists s, spaces w !! p = Some s /\ space_as s = as_.

(** Every address on the QLIST of groups is a live VFIOGroup, and group
    ids are not registered twice. *)
Definition groups_wf (w : World) : Prop :=
  (forall p, p ∈ vfio_group_list w -> is_Some (groups w !! p))
  /\ forall p q gp gq,
       p ∈ vfio_group_list w -> q ∈ vfio_group_list w ->
       groups w !! p = Some gp -> groups w !! q = Some gq ->
       groupid gp = groupid gq -> p = q.

(** ** Reading the reset handler *)

(** The devices of all registered groups, in the order of the lists. *)
Definition devices_of (w : World) (p : Z) : list Z :=
  match groups w !! p with
  | Some g => device_list g
  | None => []
  end.

Definition all_devices (w : World) : list Z :=
  concat (map (devices_of w) (vfio_group_list w)).

(** The device store after the needs-reset query of every device. *)
Definition query_all (e : Env) (l : list Z) (ds : gmap Z VFIODevice)
  : gmap Z VFIODevice :=
  fold_left (fun ds d => ops e vfio_compute_needs_reset d ds) l ds.

Definition needs_reset_in (ds : gmap Z VFIODevice) (d : Z) : bool :=
  match ds !! d with
  | Some dev => needs_reset dev
  | None => false
  end.

(** The devices that a pass over [l] hot-resets: those whose flag is set
    when the pass reaches them, each reset acting on the store that the
    later devices are judged by. *)
Fixpoint reset_targets (e : Env) (l : list Z) (ds : gmap Z VFIODevice)
  : list Z :=
  match l with
  | [] => []
  | d :: l' =>
      if needs_reset_in ds d
      then d :: reset_targets e l' (ops e vfio_hot_reset_multi d ds)
      else reset_targets e l' ds
  end.

(** The world after the query of every device of [l], and after the
    reset pass over [l]. *)
Definition run_query (l : list Z) (w : World) : World :=
  fold_left (fun w d => after_op vfio_compute_needs_reset d w) l w.

Fixpoint run_reset (l : list Z) (w : World) : World :=
  match l with
  | [] => w
  | d :: l' =>
      if needs_reset_in (devices w) d
      then run_reset l' (after_op vfio_hot_reset_multi d w)
      else run_reset l' w
  end.

(** The hooks neither create nor destroy devices. *)
Definition hooks_keep_devices (e : Env) : Prop :=
  forall h d ds, dom (ops e h d ds) = dom ds.

(** The hot-reset hook leaves every needs_reset flag as it finds it. *)
Definition hot_reset_keeps_flags (e : Env) : Prop :=
  forall d ds d',
    needs_reset_in (ops e vfio_hot_reset_multi d ds) d' = needs_reset_in ds d'.

(** The registered groups and their devices are live objects. *)
Definition devices_wf (w : World) : Prop :=
  (forall p, p ∈ vfio_group_list w -> is_Some (groups w !! p))
  /\ forall d, d ∈ all_devices w -> is_Some (devices w !! d).

(** The per-device steps of the two passes of the reset handler. *)
Definition query_step (vbasedev : Z) : M unit :=
  _ <- get_device vbasedev ;;
  call_op vfio_compute_needs_reset vbasedev.

Definition reset_step (vbasedev : Z) : M unit :=
  d <- get_device vbasedev ;;
  if needs_reset d then call_op vfio_hot_reset_multi vbasedev
  else ret tt.

(** ** The host's DMA translations, read off the trace

    The translation table itself lives in the host kernel.  It is
    reconstructed here from the calls that succeeded: a map installs the
    translation it names, an unmap removes every translation of that
    container that lies inside its range (the Type1 behaviour that the
    comment in vfio_listener_region_del relies on), a failed call leaves
    the table as it is. *)

Record DmaMapping := {
  dm_fd : Z;
  dm_iova : Z;
  dm_size : Z;
  dm_vaddr : Z;
  dm_flags : Z;
}.

(** [m] is a translation of container [fd] inside [iova, iova + size). *)
Definition inside (fd iova size : Z) (m : DmaMapping) : bool :=
  (dm_fd m =? fd) && (iova <=? dm_iova m)
  && (dm_iova m + dm_size m <=? iova + size).

Definition apply_event (ms : list DmaMapping) (e : Event) : list DmaMapping :=
  match e with
  | Sys (VFIO_IOMMU_MAP_DMA fd flags vaddr iova size) r =>
      if ret_of r =? 0
      then ms ++ [{| dm_fd := fd; dm_iova := iova; dm_size := size;
                     dm_vaddr := vaddr; dm_flags := flags |}]
      else ms
  | Sys (VFIO_IOMMU_UNMAP_DMA fd _ iova size) r =>
      if ret_of r =? 0
      then List.filter (fun m => negb (inside fd iova size m)) ms
      else ms
  | _ => ms
  end.

Definition dma_mappings (t : list Event) : list DmaMapping :=
  fold_left apply_event t [].




(** ** Reading the listener *)

(** The world that a computation leaves behind, however it ends. *)
Definition world_after {A} (o : Outcome A) : option World :=
  match o with
  | Ret _ w => Some w
  | Abort w => Some w
  | Fault => None
  end.

(** The page-aligned interval of a section, as region_add computes it. *)
Definition section_iova (e : Env) (s : MemoryRegionSection) : Z :=
  TARGET_PAGE_ALIGN e (offset_within_address_space s).

Definition section_llend (e : Env) (s : MemoryRegionSection) : Z :=
  int128_and (int128_add (int128_make64 (offset_within_address_space s))
                (size s))
    (int128_exts64 (TARGET_PAGE_MASK e)).

(** The section is one that the listener acts on. *)
Definition section_mapped (e : Env) (s : MemoryRegionSection) : bool :=
  negb (vfio_listener_skipped_section s)
  && (page_offset e (offset_within_address_space s)
      =? page_offset e (offset_within_region s))
  && negb (int128_ge (int128_make64 (section_iova e s)) (section_llend e s)).



Definition section_unmap (e : Env) (s : MemoryRegionSection)
    (c : VFIOContainer) : Call :=
  VFIO_IOMMU_UNMAP_DMA (container_fd c) 0 (section_iova e s)
    (section_llend e s - section_iova e s).



(** ** Concrete worlds and kernels, for evaluating the code *)

Definition env0 (h : list Event -> Call -> Reply) : Env :=
  {| host := h;
     ops := fun _ _ d => d;
     TARGET_PAGE_BITS := 12;
     address_space_translate :=
       fun addr len _ =>
         ({| mr_addr := 1; mr_is_ram := true; mr_is_iommu := false;
             mr_readonly := false; mr_ram_ptr := 0 |}, addr, len);
     iommu_valid_entries := fun _ _ => [];
     flatview := fun _ => [];
     CONFIG_KVM := false;
     kvm_enabled := false |}.

Definition container0 (gl : list Z) : VFIOContainer :=
  {| container_space := 300; container_fd := 7; min_iova := 0;
     max_iova := UINT64_MAX; iova_pgsizes := 4096; container_error := 0;
     initialized := true; giommu_list := []; group_list := gl |}.

(** One device (at 100, descriptor 5) in one group (at 200, id 42) bound
    to one container (at 250, descriptor 7) of one address space (at 300,
    identity 1). *)
Definition world0 (h : list Event -> Call -> Reply) : World :=
  {| env := env0 h;
     trace := [];
     errno := 0;
     devices := {[ 100 := {| dev_fd := 5; dev_group := 200;
                             needs_reset := false |} ]};
     groups := {[ 200 := {| group_fd := 6; groupid := 42;
                            group_container := 250;
                            device_list := [100] |} ]};
     containers := {[ 250 := container0 [200] ]};
     spaces := {[ 300 := {| space_as := 1; space_containers := [250] |} ]};
     vfio_group_list := [200];
     vfio_address_spaces := [300];
     vfio_kvm_device_fd := -1 |}.

Definition region0 : VFIORegion :=
  {| vbasedev := 100; fd_offset := 4096; region_mem := true;
     region_size := 8192; region_flags := 7; region_nr := 0;
     mmaps := [ {| mmap_mem_installed := false; mmap_ptr := NULL;
                   mmap_offset := 0; mmap_size := 4096 |};
                {| mmap_mem_installed := false; mmap_ptr := NULL;
                   mmap_offset := 4096; mmap_size := 4096 |} ] |}.

(** A device whose pread stores one byte where four were asked for. *)
Definition host_short_pread : list Event -> Call -> Reply :=
  fun _ c => match c with
             | PREAD _ _ _ => Ok 1 [171]
             | _ => Ok 0 []
             end.

(** A device whose pread fails with EIO. *)
Definition host_failed_pread : list Event -> Call -> Reply :=
  fun _ c => match c with
             | PREAD _ _ _ => Err 5
             | _ => Ok 0 []
             end.

(** A kernel that is busy on the first map and then refuses the unmap. *)
Definition host_busy_unmap_fails : list Event -> Call -> Reply :=
  fun _ c => match c with
             | VFIO_IOMMU_MAP_DMA _ _ _ _ _ => Err EBUSY
             | VFIO_IOMMU_UNMAP_DMA _ _ _ _ => Err EINVAL
             | _ => Ok 0 []
             end.

(** A kernel that is busy on the first map only. *)
Definition host_busy_once : list Event -> Call -> Reply :=
  fun t c => match c with
             | VFIO_IOMMU_MAP_DMA _ _ _ _ _ =>
                 match t with
                 | [] => Err EBUSY
                 | _ :: _ => Ok 0 []
                 end
             | _ => Ok 0 []
             end.

(** The operation codes and states of linux/vfio.h that the examples
    use.  [struct vfio_eeh_pe_op] has no output field: the state that
    VFIO_EEH_PE_GET_STATE asks for is the return value of the ioctl. *)
Definition VFIO_EEH_PE_UNFREEZE_DMA : Z := 3.
Definition VFIO_EEH_PE_GET_STATE : Z := 4.
Definition VFIO_EEH_PE_STATE_NORMAL : Z := 0.
Definition VFIO_EEH_PE_STATE_STOPPED : Z := 2.

(** A kernel on which the endpoint is stopped: the state query is
    answered with VFIO_EEH_PE_STATE_STOPPED, every other EEH operation
    succeeds with 0. *)
Definition host_eeh_state : list Event -> Call -> Reply :=
  fun _ c => match c with
             | VFIO_EEH_PE_OP _ op =>
                 if op =? VFIO_EEH_PE_GET_STATE
                 then Ok VFIO_EEH_PE_STATE_STOPPED []
                 else Ok 0 []
             | _ => Ok 0 []
             end.

(** A kernel that maps the window at file offset 4096 (to 28672) and has
    no memory left for any other. *)
Definition host_mmap_second_fails : list Event -> Call -> Reply :=
  fun _ c => match c with
             | MMAP _ _ _ off => if off =? 4096 then Ok 28672 [] else Err 12
             | _ => Ok 0 []
             end.

Definition set_needs_reset (b : bool) (d : VFIODevice) : VFIODevice :=
  {| dev_fd := dev_fd d; dev_group := dev_group d; needs_reset := b |}.

(** Two functions of one card: each asks for a reset, and the hot reset
    of either resets the whole card and clears both requests. *)
Definition ops_one_card (h : Hook) (dev : Z) (ds : gmap Z VFIODevice)
  : gmap Z VFIODevice :=
  match h with
  | vfio_compute_needs_reset => alter (set_needs_reset true) dev ds
  | vfio_hot_reset_multi => set_needs_reset false <$> ds
  | vfio_eoi => ds
  end.

Definition world_one_card : World :=
  {| env := {| host := fun _ _ => Ok 0 [];
               ops := ops_one_card;
               TARGET_PAGE_BITS := 12;
               address_space_translate :=
                 fun addr len _ =>
                   ({| mr_addr := 1; mr_is_ram := true; mr_is_iommu := false;
                       mr_readonly := false; mr_ram_ptr := 0 |}, addr, len);
               iommu_valid_entries := fun _ _ => [];
               flatview := fun _ => [];
               CONFIG_KVM := false;
               kvm_enabled := false |};
     trace := [];
     errno := 0;
     devices := {[ 100 := {| dev_fd := 5; dev_group := 200;
                             needs_reset := false |};
                   101 := {| dev_fd := 8; dev_group := 200;
                             needs_reset := false |} ]};
     groups := {[ 200 := {| group_fd := 6; groupid := 42;
                            group_container := 250;
                            device_list := [100; 101] |} ]};
     containers := {[ 250 := container0 [200] ]};
     spaces := {[ 300 := {| space_as := 1; space_containers := [250] |} ]};
     vfio_group_list := [200];
     vfio_address_spaces := [300];
     vfio_kvm_device_fd := -1 |}.

Definition ram0 : MemoryRegion :=
  {| mr_addr := 1; mr_is_ram := true; mr_is_iommu := false;
     mr_readonly := false; mr_ram_ptr := 65536 |}.

(** One byte of RAM at guest address 0: neither skipped nor mappable. *)
Definition tiny_section : MemoryRegionSection :=
  {| mr := ram0; offset_within_region := 0; size := 1;
     offset_within_address_space := 0; readonly := false |}.

(** A window of device registers in the upper half of the address space. *)
Definition mmio_section : MemoryRegionSection :=
  {| mr := {| mr_addr := 2; mr_is_ram := false; mr_is_iommu := false;
              mr_readonly := false; mr_ram_ptr := 0 |};
     offset_within_region := 0; size := 4096;
     offset_within_address_space := 2 ^ 63; readonly := false |}.

(** Sixteen kilobytes of RAM at guest address 0. *)
Definition ram_section : MemoryRegionSection :=
  {| mr := ram0; offset_within_region := 0; size := 16384;
     offset_within_address_space := 0; readonly := false |}.


(** A container that is still being set up and whose window ends at
    8191, with one earlier translation inside the interval of
    [ram_section]. *)
Definition world_small_window : World :=
  {| env := env0 (fun _ _ => Ok 0 []);
     trace := [Sys (VFIO_IOMMU_MAP_DMA 7 3 131072 4096 4096) (Ok 0 [])];
     errno := 0;
     devices := ∅;
     groups := ∅;
     containers :=
       {[ 250 := {| container_space := 300; container_fd := 7;
                    min_iova := 0; max_iova := 8191; iova_pgsizes := 4096;
                    container_error := 0; initialized := false;
                    giommu_list := []; group_list := [] |} ]};
     spaces := {[ 300 := {| space_as := 1; space_containers := [] |} ]};
     vfio_group_list := [];
     vfio_address_spaces := [300];
     vfio_kvm_device_fd := -1 |}.

(** ** Kernels and worlds for the further properties *)

(** The bytes of the most recent pwrite in a history, if there is one. *)
Fixpoint last_pwrite (t : list Event) : option (list Z) :=
  match t with
  | [] => None
  | e :: t' =>
      match last_pwrite t' with
      | Some b => Some b
      | None =>
          match e with
          | Sys (PWRITE _ buf _ _) _ => Some buf
          | _ => None
          end
      end
  end.

(** A device register that reads back what was written last. *)
Definition host_register : list Event -> Call -> Reply :=
  fun t c =>
    match c with
    | PWRITE _ _ count _ => Ok count []
    | PREAD _ count _ =>
        match last_pwrite t with
        | Some b => Ok count b
        | None => Ok count []
        end
    | _ => Ok 0 []
    end.

(** ** Frames *)

(** [w'] differs from [w] in its trace and its errno at most. *)
Definition same_heap (w w' : World) : Prop :=
  env w' = env w
  /\ devices w' = devices w
  /\ groups w' = groups w
  /\ containers w' = containers w
  /\ spaces w' = spaces w
  /\ vfio_group_list w' = vfio_group_list w
  /\ vfio_address_spaces w' = vfio_address_spaces w
  /\ vfio_kvm_device_fd w' = vfio_kvm_device_fd w.

(** The events of [t] are DMA requests of container [fd] for the range
    [iova, iova + size), the first of them a map. *)
Definition is_dma_call_for (fd iova size : Z) (e : Event) : bool :=
  match e with
  | Sys (VFIO_IOMMU_MAP_DMA fd' _ _ iova' size') _
  | Sys (VFIO_IOMMU_UNMAP_DMA fd' _ iova' size') _ =>
      (fd' =? fd) && (iova' =? iova) && (size' =? size)
  | _ => false
  end.

(** ** The listener on a section that it acts on *)

(** What vfio_listener_region_add does once the section has passed the
    skip, alignment and emptiness tests and the container [c] is read:
    the window check and the two kinds of section. *)
Definition region_add_body (container : Z) (section : MemoryRegionSection)
    (e : Env) (c : VFIOContainer) : M unit :=
  let iova := section_iova e section in
  let end_ := section_llend e section in
  if (iova <? min_iova c) || (max_iova c <? wrap64 (end_ - 1)) then
    region_add_fail container (- EFAULT)
  else
    _ <- emit (memory_region_ref (mr_addr (mr section))) ;;
    if mr_is_iommu (mr section) then
      let giommu := {| giommu_container := container;
                       giommu_iommu := mr_addr (mr section) |} in
      _ <- put_container container
             (set_giommu_list (giommu :: giommu_list c) c) ;;
      _ <- emit (memory_region_register_iommu_notifier
                   (giommu_iommu giommu)) ;;
      memory_region_iommu_replay giommu (vfio_container_granularity c)
    else
      let vaddr := wrap64 (mr_ram_ptr (mr section)
                           + offset_within_region section
                           + (iova - offset_within_address_space section)) in
      r <- vfio_dma_map container iova (wrap64 (end_ - iova)) vaddr
             (readonly section) ;;
      if negb (r =? 0) then region_add_fail container r
      else ret tt.

(** The section lies inside the IOVA window of the container. *)
Definition in_window (e : Env) (s : MemoryRegionSection) (c : VFIOContainer)
  : bool :=
  negb ((section_iova e s <? min_iova c)
        || (max_iova c <? wrap64 (section_llend e s - 1))).

(** The host address that backs the first mapped byte of a RAM section. *)
Definition section_vaddr (e : Env) (s : MemoryRegionSection) : Z :=
  wrap64 (mr_ram_ptr (mr s) + offset_within_region s
          + (section_iova e s - offset_within_address_space s)).

(** The map request of the listener for a RAM section. *)
Definition section_map (e : Env) (s : MemoryRegionSection)
    (c : VFIOContainer) : Call :=
  dma_map_call c (section_iova e s) (section_llend e s - section_iova e s)
    (section_vaddr e s) (readonly s).

(** A container with a narrow window that is still being set up. *)
Definition container_setup (err : Z) : VFIOContainer :=
  {| container_space := 300; container_fd := 7; min_iova := 0;
     max_iova := 8191; iova_pgsizes := 4096; container_error := err;
     initialized := false; giommu_list := []; group_list := [] |}.

Definition world_setup (h : list Event -> Call -> Reply) (err : Z) : World :=
  {| env := env0 h;
     trace := [];
     errno := 0;
     devices := ∅;
     groups := ∅;
     containers := {[ 250 := container_setup err ]};
     spaces := {[ 300 := {| space_as := 1; space_containers := [] |} ]};
     vfio_group_list := [];
     vfio_address_spaces := [300];
     vfio_kvm_device_fd := -1 |}.

(** One page of RAM at guest address 4096. *)
Definition page_section : MemoryRegionSection :=
  {| mr := ram0; offset_within_region := 4096; size := 4096;
     offset_within_address_space := 4096; readonly := true |}.

(** Ten thousand bytes of RAM that start 100 bytes into a page, at guest
    address 4196: only the page at 8192 lies inside the section. *)
Definition ragged_section : MemoryRegionSection :=
  {| mr := ram0; offset_within_region := 100; size := 10000;
     offset_within_address_space := 4196; readonly := false |}.

(** A guest IOMMU that covers the first 64 KiB. *)
Definition iommu_section : MemoryRegionSection :=
  {| mr := {| mr_addr := 9; mr_is_ram := false; mr_is_iommu := true;
              mr_readonly := false; mr_ram_ptr := 0 |};
     offset_within_region := 0; size := 65536;
     offset_within_address_space := 0; readonly := false |}.

Definition iotlb0 : IOMMUTLBEntry :=
  {| iova := 8192; translated_addr := 4096; addr_mask := 4095; perm := 1 |}.

(** What vfio_listener_region_del does on a section that it acts on:
    the binding of a guest IOMMU is released, the page-aligned interval
    is unmapped and the reference on the region is dropped. *)
Definition region_del_body (container : Z) (section : MemoryRegionSection)
    (e : Env) : M unit :=
  _ <- region_del_giommu container section ;;
  r <- vfio_dma_unmap container (section_iova e section)
         (section_llend e section - section_iova e section) ;;
  emit (memory_region_unref (mr_addr (mr section))).

(** ** Leaving a region: vfio_region_exit / vfio_region_finalize *)

(** vfio_region_exit: memory_region_del_subregion takes every mapped
    window out of the container region; the mapping itself stays. *)
Definition vfio_region_exit (region : VFIORegion) : VFIORegion :=
  if negb (region_mem region) then region
  else
    set_mmaps
      (List.map (fun m => if negb (mmap_ptr m =? NULL)
                          then set_mmap false (mmap_ptr m) m
                          else m)
         (mmaps region))
      region.

(** vfio_region_finalize: every mapped window is unmapped; the region
    and its windows are then freed, so no region is handed back. *)
Definition vfio_region_finalize (region : VFIORegion) : M unit :=
  if negb (region_mem region) then ret tt
  else
    for_each (fun m =>
      if negb (mmap_ptr m =? NULL) then
        _ <- syscall (MUNMAP (mmap_ptr m) (mmap_size m)) ;; ret tt
      else ret tt) (mmaps region).

(** The windows that hold a mapping, and the munmap requests for them. *)
Definition mapped_windows (region : VFIORegion) : list VFIOMmap :=
  List.filter (fun m => negb (mmap_ptr m =? NULL)) (mmaps region).

Definition munmap_call (m : VFIOMmap) : Call :=
  MUNMAP (mmap_ptr m) (mmap_size m).

(** The events of a run of calls issued one after the other, starting
    from the history [t]. *)
Definition sys_events (e : Env) (t : list Event) (cs : list Call)
  : list Event :=
  zip_with Sys cs (replies e t cs).

(** ** The KVM VFIO device: vfio_kvm_device_del_group *)

Definition KVM_DEV_VFIO_GROUP_DEL : Z := 2.

Definition vfio_kvm_device_del_group (group : Z) : M unit :=
  e <- get_env ;;
  if negb (CONFIG_KVM e) then ret tt
  else
    kfd <- (fun w => Ret (vfio_kvm_device_fd w) w) ;;
    if kfd <? 0 then ret tt
    else
      g <- get_group group ;;
      _ <- syscall (KVM_SET_DEVICE_ATTR kfd KVM_DEV_VFIO_GROUP
                      KVM_DEV_VFIO_GROUP_DEL (group_fd g)) ;;
      ret tt.

(** ** Detaching a device: vfio_put_base_device *)

Definition set_dev_group (g : Z) (d : VFIODevice) : VFIODevice :=
  {| dev_fd := dev_fd d; dev_group := g; needs_reset := needs_reset d |}.

Definition set_device_list (l : list Z) (g : VFIOGroup) : VFIOGroup :=
  {| group_fd := group_fd g; groupid := groupid g;
     group_container := group_container g; device_list := l |}.

Definition put_device (p : Z) (d : VFIODevice) : M unit :=
  fun w => Ret tt (set_devices (<[p := d]> (devices w)) w).

(** QLIST_REMOVE unlinks the device from the list that holds it, the
    device list of its group. *)
Definition vfio_put_base_device (vbasedev : Z) : M unit :=
  d <- get_device vbasedev ;;
  if dev_group d =? NULL then ret tt
  else
    g <- get_group (dev_group d) ;;
    _ <- put_group (dev_group d)
           (set_device_list (qlist_remove vbasedev (device_list g)) g) ;;
    _ <- put_device vbasedev (set_dev_group NULL d) ;;
    _ <- syscall (CLOSE (dev_fd d)) ;;
    ret tt.

(** ** EEH on an address space: vfio_eeh_as_ok / vfio_eeh_as_op *)

Definition ENODEV : Z := 19.

Definition vfio_eeh_as_container (as_ : Z) : M Z :=
  space <- vfio_get_address_space as_ ;;
  s <- get_space space ;;
  let container := match space_containers s with
                   | [] => NULL
                   | [c] => c
                   | _ :: _ :: _ => NULL
                   end in
  _ <- vfio_put_address_space space ;;
  ret container.

Definition vfio_eeh_as_ok (as_ : Z) : M bool :=
  container <- vfio_eeh_as_container as_ ;;
  if container =? NULL then ret false
  else
    c <- get_container container ;;
    ret (vfio_eeh_container_ok c).

Definition vfio_eeh_as_op (as_ op : Z) : M Z :=
  container <- vfio_eeh_as_container as_ ;;
  if container =? NULL then ret (- ENODEV)
  else vfio_eeh_container_op container op.

(** ** Kernels and worlds for the registry properties *)

(** A kernel that maps every window, at 28672 plus the file offset. *)
Definition host_mmap_ok : list Event -> Call -> Reply :=
  fun _ c => match c with
             | MMAP _ _ _ off => Ok (28672 + off) []
             | _ => Ok 0 []
             end.

(** A region whose first window is mapped and installed. *)
Definition region_half_mapped : VFIORegion :=
  {| vbasedev := 100; fd_offset := 4096; region_mem := true;
     region_size := 8192; region_flags := 7; region_nr := 0;
     mmaps := [ {| mmap_mem_installed := true; mmap_ptr := 28672;
                   mmap_offset := 0; mmap_size := 4096 |};
                {| mmap_mem_installed := false; mmap_ptr := NULL;
                   mmap_offset := 4096; mmap_size := 4096 |} ] |}.

(** A kernel on which no group file can be opened. *)
Definition host_no_group : list Event -> Call -> Reply :=
  fun _ c => match c with
             | OPEN_GROUP _ => Err 2
             | _ => Ok 0 []
             end.

(** A kernel that opens group files as descriptor 9 and reports every
    group as not viable. *)
Definition host_not_viable : list Event -> Call -> Reply :=
  fun _ c => match c with
             | OPEN_GROUP _ => Ok 9 []
             | VFIO_GROUP_GET_STATUS _ => Ok 0 [0]
             | _ => Ok 0 []
             end.

(** A kernel without /dev/vfio/vfio. *)
Definition host_no_vfio : list Event -> Call -> Reply :=
  fun _ c => match c with
             | OPEN_VFIO => Err 2
             | _ => Ok 0 []
             end.

(** A kernel that speaks another version of the VFIO API. *)
Definition host_old_api : list Event -> Call -> Reply :=
  fun _ c => match c with
             | OPEN_VFIO => Ok 8 []
             | VFIO_GET_API_VERSION _ => Ok 1 []
             | _ => Ok 0 []
             end.

(** A second group, opened and not yet attached to a container. *)
Definition world_two_groups (h : list Event -> Call -> Reply) : World :=
  set_groups (<[ 210 := {| group_fd := 11; groupid := 43;
                           group_container := NULL;
                           device_list := [] |} ]>
                (groups (world0 h)))
    (vfio_group_list (world0 h)) (world0 h).

(** KVM in use; the kernel hands out descriptor 12 for the VFIO device. *)
Definition env_kvm : Env :=
  {| host := fun _ c => match c with
                        | KVM_CREATE_DEVICE _ => Ok 0 [12]
                        | _ => Ok 0 []
                        end;
     ops := fun _ _ d => d;
     TARGET_PAGE_BITS := 12;
     address_space_translate :=
       fun addr len _ =>
         ({| mr_addr := 1; mr_is_ram := true; mr_is_iommu := false;
             mr_readonly := false; mr_ram_ptr := 0 |}, addr, len);
     iommu_valid_entries := fun _ _ => [];
     flatview := fun _ => [];
     CONFIG_KVM := true;
     kvm_enabled := true |}.

Definition world_kvm : World :=
  {| env := env_kvm;
     trace := [];
     errno := 0;
     devices := devices (world0 (fun _ _ => Ok 0 []));
     groups := groups (world0 (fun _ _ => Ok 0 []));
     containers := containers (world0 (fun _ _ => Ok 0 []));
     spaces := spaces (world0 (fun _ _ => Ok 0 []));
     vfio_group_list := [200];
     vfio_address_spaces := [300];
     vfio_kvm_device_fd := -1 |}.

(** The world after a run of system calls. *)
Definition after_syscalls (cs : list Call) (w : World) : World :=
  fold_left (fun w c => after_syscall c w) cs w.

(** A kernel that opens /dev/vfio/vfio as descriptor 8 and supports no
    IOMMU model. *)
Definition host_no_iommu : list Event -> Call -> Reply :=
  fun _ c => match c with
             | OPEN_VFIO => Ok 8 []
             | _ => Ok 0 []
             end.

(** * Theorems *)

(** ** Generic facts about the monad *)

Lemma bind_Ret {A B} (m : M A) (k : A -> M B) w a w' :
  m w = Ret a w' -> bind m k w = k a w'.
Proof. unfold bind. intros ->. reflexivity. Qed.

Lemma get_device_Some p d w :
  devices w !! p = Some d -> get_device p w = Ret d w.
Proof. unfold get_device. intros ->. reflexivity. Qed.

Lemma get_container_Some p c w :
  containers w !! p = Some c -> get_container p w = Ret c w.
Proof. unfold get_container. intros ->. reflexivity. Qed.

Lemma get_group_Some p g w :
  groups w !! p = Some g -> get_group p w = Ret g w.
Proof. unfold get_group. intros ->. reflexivity. Qed.

Lemma get_space_Some p s w :
  spaces w !! p = Some s -> get_space p w = Ret s w.
Proof. unfold get_space. intros ->. reflexivity. Qed.

Lemma syscall_eq c w :
  syscall c w = Ret (host (env w) (trace w) c) (after_syscall c w).
Proof. reflexivity. Qed.

Lemma after_syscall_trace c w :
  trace (after_syscall c w)
  = trace w ++ [Sys c (host (env w) (trace w) c)].
Proof. unfold after_syscall. destruct (host _ _ _); reflexivity. Qed.

Lemma after_syscall_env c w : env (after_syscall c w) = env w.
Proof. unfold after_syscall. destruct (host _ _ _); reflexivity. Qed.

Lemma after_syscall_devices c w : devices (after_syscall c w) = devices w.
Proof. unfold after_syscall. destruct (host _ _ _); reflexivity. Qed.

Lemma after_syscall_containers c w :
  containers (after_syscall c w) = containers w.
Proof. unfold after_syscall. destruct (host _ _ _); reflexivity. Qed.

Lemma after_syscall_errno c w :
  errno (after_syscall c w)
  = match host (env w) (trace w) c with Err e => e | Ok _ _ => errno w end.
Proof. unfold after_syscall. destruct (host _ _ _); reflexivity. Qed.

(** ** Trapped access *)

(** A read whose pread does not complete [size] bytes returns all-ones
    right after the pread: nothing else is called. *)
Lemma vfio_region_read_mismatch region addr size w dev :
  devices w !! vbasedev region = Some dev ->
  ret_of (host (env w) (trace w) (region_pread region dev addr size)) <> size ->
  vfio_region_read region addr size w
  = Ret UINT64_MAX (after_syscall (region_pread region dev addr size) w).
Proof.
  intros Hdev Hr.
  unfold vfio_region_read.
  rewrite (bind_Ret _ _ _ _ _ (get_device_Some _ _ _ Hdev)).
  fold (region_pread region dev addr size).
  rewrite (bind_Ret _ _ _ _ _ (syscall_eq _ _)).
  apply Z.eqb_neq in Hr. rewrite Hr. reflexivity.
Qed.

(** C9: a trapped read of 1, 2 or 4 bytes whose pread completes fewer
    bytes than requested returns (uint64_t)-1, whatever the device holds. *)
Theorem vfio_region_read_short_all_ones region addr size w dev :
  devices w !! vbasedev region = Some dev ->
  size = 1 \/ size = 2 \/ size = 4 ->
  ret_of (host (env w) (trace w) (region_pread region dev addr size)) < size ->
  exists w', vfio_region_read region addr size w = Ret (2 ^ 64 - 1) w'.
Proof.
  intros Hdev _ Hlt. eexists.
  apply (vfio_region_read_mismatch _ _ _ _ _ Hdev). lia.
Qed.

Lemma vfio_region_read_short_all_ones_witness :
  exists w',
    vfio_region_read region0 0 4 (world0 host_short_pread)
    = Ret (2 ^ 64 - 1) w'.
Proof.
  apply (vfio_region_read_short_all_ones region0 0 4
           (world0 host_short_pread)
           {| dev_fd := 5; dev_group := 200; needs_reset := false |}).
  - reflexivity.
  - right; right; reflexivity.
  - simpl. lia.
Defined.

(** C2, at the input where the code leaves it: a four-byte read whose
    pread fails returns all-ones straight away, and the trace shows the
    pread alone, with no end-of-interrupt acknowledgment. *)
Theorem vfio_region_read_failed_pread_no_eoi :
  exists w',
    vfio_region_read region0 0 4 (world0 host_failed_pread)
    = Ret UINT64_MAX w'
    /\ trace w' = [Sys (PREAD 5 4 4096) (Err 5)]
    /\ count_op vfio_eoi 100 (trace w') = 0%nat.
Proof. eexists. split; [reflexivity | split; reflexivity]. Qed.

(** The write path does acknowledge, whether or not the pwrite went
    through: the trace grows by the pwrite and one vfio_eoi. *)
Lemma vfio_region_write_eoi region addr data size w dev :
  devices w !! vbasedev region = Some dev ->
  size = 1 \/ size = 2 \/ size = 4 ->
  exists w',
    vfio_region_write region addr data size w = Ret tt w'
    /\ trace w'
       = trace w
         ++ [Sys (region_pwrite region dev addr data size)
               (host (env w) (trace w) (region_pwrite region dev addr data size));
             Op vfio_eoi (vbasedev region)].
Proof.
  intros Hdev Hsz.
  exists (after_op vfio_eoi (vbasedev region)
            (after_syscall (region_pwrite region dev addr data size) w)).
  assert (Hw : vfio_region_write region addr data size w
               = bind (syscall (region_pwrite region dev addr data size))
                   (fun _ => call_op vfio_eoi (vbasedev region)) w).
  { unfold vfio_region_write, region_pwrite.
    destruct Hsz as [-> | [-> | ->]]; simpl;
      unfold bind at 1; simpl;
      rewrite (bind_Ret _ _ _ _ _ (get_device_Some _ _ _ Hdev));
      reflexivity. }
  rewrite Hw, (bind_Ret _ _ _ _ _ (syscall_eq _ _)).
  split; [reflexivity|].
  unfold after_op. simpl. rewrite after_syscall_trace, <- app_assoc.
  reflexivity.
Qed.

(** So does a read whose pread completes. *)
Lemma vfio_region_read_eoi region addr size w dev :
  devices w !! vbasedev region = Some dev ->
  size = 1 \/ size = 2 \/ size = 4 ->
  let r := host (env w) (trace w) (region_pread region dev addr size) in
  ret_of r = size ->
  exists w',
    vfio_region_read region addr size w
    = Ret (le_decode (take (Z.to_nat size) (data_of r))) w'
    /\ trace w'
       = trace w ++ [Sys (region_pread region dev addr size) r;
                     Op vfio_eoi (vbasedev region)].
Proof.
  intros Hdev Hsz r Hr.
  exists (after_op vfio_eoi (vbasedev region)
            (after_syscall (region_pread region dev addr size) w)).
  unfold vfio_region_read.
  rewrite (bind_Ret _ _ _ _ _ (get_device_Some _ _ _ Hdev)).
  fold (region_pread region dev addr size).
  rewrite (bind_Ret _ _ _ _ _ (syscall_eq _ _)).
  fold r. rewrite Hr, Z.eqb_refl. simpl.
  split.
  - destruct Hsz as [-> | [-> | ->]]; reflexivity.
  - unfold after_op. simpl. rewrite after_syscall_trace, <- app_assoc.
    reflexivity.
Qed.

(** ** DMA map engine *)

Lemma vfio_dma_unmap_eq container c iova size w :
  containers w !! container = Some c ->
  vfio_dma_unmap container iova size w
  = let w1 := after_syscall (dma_unmap_call c iova size) w in
    Ret (if ret_of (host (env w) (trace w) (dma_unmap_call c iova size)) =? 0
         then 0 else - errno w1) w1.
Proof.
  intros Hc. unfold vfio_dma_unmap.
  rewrite (bind_Ret _ _ _ _ _ (get_container_Some _ _ _ Hc)).
  fold (dma_unmap_call c iova size).
  rewrite (bind_Ret _ _ _ _ _ (syscall_eq _ _)).
  destruct (ret_of _ =? 0); reflexivity.
Qed.

(** C1, as the claim reads: a busy first map would always be followed by
    the unmap and by the retry.  It is not when the unmap fails: the
    engine stops after the unmap, and no second map is issued. *)
Theorem vfio_dma_map_busy_unmap_fails_no_retry :
  exists w',
    vfio_dma_map 250 4096 4096 0 false (world0 host_busy_unmap_fails)
    = Ret (- EINVAL) w'
    /\ trace w'
       = [Sys (VFIO_IOMMU_MAP_DMA 7 3 0 4096 4096) (Err EBUSY);
          Sys (VFIO_IOMMU_UNMAP_DMA 7 0 4096 4096) (Err EINVAL)]
    /\ length (trace w') <> 3%nat.
Proof.
  eexists. split; [vm_compute; reflexivity|].
  split; [reflexivity | discriminate].
Qed.

(** C1, amended: the retry protocol of vfio_dma_map, read off the trace.
    With [r1], [ru], [r2] the kernel's answers to the first map, to the
    unmap and to the second map:
    - a first map that succeeds is the only call;
    - after EBUSY exactly one unmap of the same range is issued; if it
      fails the engine returns -errno and issues nothing more; if it
      succeeds exactly one more map follows, and its outcome is the
      outcome of the operation;
    - after any other error the first map is the only call and the
      engine returns -errno. *)
Theorem vfio_dma_map_retry container c iova size vaddr readonly w :
  containers w !! container = Some c ->
  let map := dma_map_call c iova size vaddr readonly in
  let unmap := dma_unmap_call c iova size in
  let r1 := host (env w) (trace w) map in
  let t1 := trace w ++ [Sys map r1] in
  let ru := host (env w) t1 unmap in
  let t2 := t1 ++ [Sys unmap ru] in
  let r2 := host (env w) t2 map in
  let t3 := t2 ++ [Sys map r2] in
  exists r w',
    vfio_dma_map container iova size vaddr readonly w = Ret r w'
    /\ (ret_of r1 = 0 -> r = 0 /\ trace w' = t1)
    /\ (r1 = Err EBUSY -> forall eu, ru = Err eu -> eu <> 0 ->
        r = - eu /\ trace w' = t2)
    /\ (r1 = Err EBUSY -> ret_of ru = 0 ->
        trace w' = t3
        /\ (ret_of r2 = 0 -> r = 0)
        /\ forall e2, r2 = Err e2 -> r = - e2)
    /\ (forall e1, r1 = Err e1 -> e1 <> EBUSY ->
        r = - e1 /\ trace w' = t1).
Proof.
  intros Hc map unmap r1 t1 ru t2 r2 t3.
  assert (Er1 : host (env w) (trace w) map = r1) by reflexivity.
  assert (Eru : host (env w) t1 unmap = ru) by reflexivity.
  assert (Er2 : host (env w) t2 map = r2) by reflexivity.
  clearbody r2. clearbody ru. clearbody r1.
  unfold vfio_dma_map.
  rewrite (bind_Ret _ _ _ _ _ (get_container_Some _ _ _ Hc)).
  fold (dma_map_call c iova size vaddr readonly). fold map.
  rewrite (bind_Ret _ _ _ _ _ (syscall_eq _ _)). rewrite Er1.
  set (w1 := after_syscall map w).
  assert (Ht1 : trace w1 = t1).
  { unfold w1. rewrite after_syscall_trace, Er1. reflexivity. }
  assert (He1 : env w1 = env w) by apply after_syscall_env.
  assert (Hc1 : containers w1 !! container = Some c)
    by (unfold w1; rewrite after_syscall_containers; exact Hc).
  assert (Herr1 : errno w1
                  = match r1 with Err e => e | Ok _ _ => errno w end).
  { unfold w1. rewrite after_syscall_errno, Er1. reflexivity. }
  destruct (ret_of r1 =? 0) eqn:E1.
  { apply Z.eqb_eq in E1. exists 0, w1. split; [reflexivity|].
    split; [auto|].
    repeat split; intros;
      match goal with H : r1 = Err _ |- _ => rewrite H in E1 end;
      simpl in E1; lia. }
  apply Z.eqb_neq in E1.
  unfold bind at 1. unfold get_errno at 1.
  destruct (errno w1 =? EBUSY) eqn:EB.
  2: { apply Z.eqb_neq in EB. exists (- errno w1), w1.
       split; [reflexivity|].
       split; [intros; lia|].
       split; [intros H; rewrite H in Herr1; congruence|].
       split; [intros H; rewrite H in Herr1; congruence|].
       intros e1 H _. rewrite H in Herr1. rewrite Herr1. auto. }
  apply Z.eqb_eq in EB.
  rewrite (bind_Ret _ _ _ _ _ (vfio_dma_unmap_eq _ _ _ _ _ Hc1)).
  fold unmap. cbv zeta. rewrite He1, Ht1, Eru.
  set (w2 := after_syscall unmap w1).
  assert (Ht2 : trace w2 = t2).
  { unfold w2. rewrite after_syscall_trace, He1, Ht1, Eru. reflexivity. }
  assert (He2 : env w2 = env w)
    by (unfold w2; rewrite after_syscall_env; exact He1).
  assert (Herr2 : errno w2
                  = match ru with Err e => e | Ok _ _ => errno w1 end).
  { unfold w2. rewrite after_syscall_errno, He1, Ht1, Eru. reflexivity. }
  destruct (ret_of ru =? 0) eqn:EU.
  - apply Z.eqb_eq in EU. simpl.
    rewrite (bind_Ret _ _ _ _ _ (syscall_eq _ _)).
    rewrite He2, Ht2, Er2.
    set (w3 := after_syscall map w2).
    assert (Ht3 : trace w3 = t3).
    { unfold w3. rewrite after_syscall_trace, He2, Ht2, Er2. reflexivity. }
    assert (Herr3 : errno w3
                    = match r2 with Err e => e | Ok _ _ => errno w2 end).
    { unfold w3. rewrite after_syscall_errno, He2, Ht2, Er2. reflexivity. }
    destruct (ret_of r2 =? 0) eqn:E2.
    + apply Z.eqb_eq in E2. exists 0, w3. split; [reflexivity|].
      split; [intros; lia|].
      split; [intros _ eu H; rewrite H in EU; simpl in EU; lia|].
      split.
      * intros _ _. split; [exact Ht3|]. split; [auto|].
        intros e2 H. rewrite H in E2. simpl in E2. lia.
      * intros e1 H Hne. rewrite H in Herr1. congruence.
    + apply Z.eqb_neq in E2. exists (- errno w3), w3.
      split; [reflexivity|].
      split; [intros; lia|].
      split; [intros _ eu H; rewrite H in EU; simpl in EU; lia|].
      split.
      * intros _ _. split; [exact Ht3|]. split; [intros; lia|].
        intros e2 H. rewrite H in Herr3. rewrite Herr3. reflexivity.
      * intros e1 H Hne. rewrite H in Herr1. congruence.
  - apply Z.eqb_neq in EU.
    destruct (- errno w2 =? 0) eqn:EZ.
    + (* a failing unmap that leaves errno at 0 reads as a success *)
      apply Z.eqb_eq in EZ.
      rewrite (bind_Ret _ _ _ _ _ (syscall_eq _ _)).
      destruct (ret_of (host (env w2) (trace w2) map) =? 0);
        eexists _, _; (split; [reflexivity|]);
        (split; [intros; lia|]);
        (split; [|split; [intros; lia|
                          intros e1 H Hne; rewrite H in Herr1; congruence]]);
        intros _ eu H Hne; rewrite H in Herr2; lia.
    + exists (- errno w2), w2. split; [reflexivity|].
      split; [intros; lia|].
      split.
      * intros _ eu H Hne. rewrite H in Herr2. rewrite Herr2. auto.
      * split; [intros; lia|].
        intros e1 H Hne. rewrite H in Herr1. congruence.
Qed.

Lemma vfio_dma_map_retry_witness :
  exists r w',
    vfio_dma_map 250 4096 4096 0 false (world0 host_busy_once) = Ret r w'
    /\ r = 0
    /\ trace w'
       = [Sys (VFIO_IOMMU_MAP_DMA 7 3 0 4096 4096) (Err EBUSY);
          Sys (VFIO_IOMMU_UNMAP_DMA 7 0 4096 4096) (Ok 0 []);
          Sys (VFIO_IOMMU_MAP_DMA 7 3 0 4096 4096) (Ok 0 [])].
Proof.
  destruct (vfio_dma_map_retry 250 (container0 [200]) 4096 4096 0 false
              (world0 host_busy_once) eq_refl)
    as (r & w' & H & _ & _ & H3 & _).
  exists r, w'. split; [exact H|].
  destruct (H3 eq_refl eq_refl) as (Ht & H0 & _).
  split; [exact (H0 eq_refl) | exact Ht].
Defined.

(** ** EEH *)

(** C4: the claim has the operation forward the result of the host
    call.  On a container with exactly one group, the state query
    VFIO_EEH_PE_GET_STATE is issued once and the kernel answers with
    VFIO_EEH_PE_STATE_STOPPED (2); the operation returns 0, which reads
    as VFIO_EEH_PE_STATE_NORMAL: the state, which the ioctl delivers
    only as its return value, is lost in the final [return 0]. *)
Theorem vfio_eeh_container_op_drops_result :
  exists w',
    vfio_eeh_container_ok (container0 [200]) = true
    /\ vfio_eeh_container_op 250 VFIO_EEH_PE_GET_STATE
         (world0 host_eeh_state)
       = Ret VFIO_EEH_PE_STATE_NORMAL w'
    /\ trace w'
       = [Sys (VFIO_EEH_PE_OP 7 VFIO_EEH_PE_GET_STATE)
            (Ok VFIO_EEH_PE_STATE_STOPPED [])]
    /\ ret_of (host_eeh_state [] (VFIO_EEH_PE_OP 7 VFIO_EEH_PE_GET_STATE))
       = VFIO_EEH_PE_STATE_STOPPED
    /\ VFIO_EEH_PE_STATE_STOPPED <> VFIO_EEH_PE_STATE_NORMAL.
Proof.
  eexists. split; [reflexivity|].
  split; [vm_compute; reflexivity|].
  split; [reflexivity|]. split; [reflexivity | discriminate].
Qed.

Lemma vfio_eeh_container_ok_length c :
  vfio_eeh_container_ok c = true <-> length (group_list c) = 1%nat.
Proof.
  unfold vfio_eeh_container_ok.
  destruct (group_list c) as [|g [|g' l]]; simpl; split;
    intros H; try reflexivity; try discriminate.
Qed.

(** What the operation does on every container: when the group list
    does not hold exactly one group it returns -EPERM and the world is
    untouched (no host call); with exactly one group it issues the host
    call once, returns -errno when the call fails and 0 otherwise. *)
Lemma vfio_eeh_container_op_spec container c op w :
  containers w !! container = Some c ->
  let r := host (env w) (trace w) (eeh_call c op) in
  exists v w',
    vfio_eeh_container_op container op w = Ret v w'
    /\ (length (group_list c) <> 1%nat -> v = - EPERM /\ w' = w)
    /\ (length (group_list c) = 1%nat ->
        trace w' = trace w ++ [Sys (eeh_call c op) r]
        /\ (0 <= ret_of r -> v = 0)
        /\ (forall e, r = Err e -> v = - e)).
Proof.
  intros Hc r.
  assert (Er : host (env w) (trace w) (eeh_call c op) = r) by reflexivity.
  clearbody r.
  unfold vfio_eeh_container_op.
  rewrite (bind_Ret _ _ _ _ _ (get_container_Some _ _ _ Hc)).
  destruct (vfio_eeh_container_ok c) eqn:Hok; simpl.
  - apply vfio_eeh_container_ok_length in Hok.
    fold (eeh_call c op).
    rewrite (bind_Ret _ _ _ _ _ (syscall_eq _ _)). rewrite Er.
    pose proof (after_syscall_trace (eeh_call c op) w) as Ht.
    pose proof (after_syscall_errno (eeh_call c op) w) as He.
    rewrite Er in Ht, He.
    destruct (ret_of r <? 0) eqn:Hneg.
    + apply Z.ltb_lt in Hneg.
      eexists _, _. split; [reflexivity|].
      split; [intros; congruence|]. intros _.
      split; [exact Ht|]. split; [intros; lia|].
      intros e Hr. rewrite Hr in He. rewrite He. reflexivity.
    + apply Z.ltb_ge in Hneg.
      eexists _, _. split; [reflexivity|].
      split; [intros; congruence|]. intros _.
      split; [exact Ht|]. split; [auto|].
      intros e Hr. rewrite Hr in Hneg. simpl in Hneg. lia.
  - eexists _, _. split; [reflexivity|].
    split; [auto|].
    intros Hone. apply vfio_eeh_container_ok_length in Hone. congruence.
Qed.

Lemma vfio_eeh_container_op_spec_witness :
  exists v w',
    vfio_eeh_container_op 250 VFIO_EEH_PE_GET_STATE
      (world0 (fun _ _ => Err 5)) = Ret v w'
    /\ v = - 5
    /\ trace w' = [Sys (VFIO_EEH_PE_OP 7 VFIO_EEH_PE_GET_STATE) (Err 5)].
Proof.
  destruct (vfio_eeh_container_op_spec 250 (container0 [200])
              VFIO_EEH_PE_GET_STATE (world0 (fun _ _ => Err 5)) eq_refl)
    as (v & w' & H & _ & H1).
  exists v, w'. split; [exact H|].
  destruct (H1 eq_refl) as (Ht & _ & He).
  split; [exact (He 5 eq_refl) | exact Ht].
Defined.

(** ** Direct mapping of a region *)

(** C3, as the claim reads: with two windows of which the second fails,
    window 0 would stay active.  The call unmaps it again: no window is
    active afterwards. *)
Theorem vfio_region_mmap_second_fails_none_active :
  exists region' w',
    vfio_region_mmap region0 (world0 host_mmap_second_fails)
    = Ret (- 12, region') w'
    /\ map active (mmaps region') = [false; false]
    /\ trace w' = [Sys (MMAP 4096 3 5 4096) (Ok 28672 []);
                   Sys (MMAP 4096 3 5 8192) (Err 12);
                   Sys (MUNMAP 28672 4096) (Ok 0 [])].
Proof.
  eexists _, _. split; [vm_compute; reflexivity|].
  split; reflexivity.
Qed.

(** The inner loop clears the windows below [i] and leaves the others. *)
Lemma vfio_region_mmap_undo_spec region i : forall ms w,
  (i <= length ms)%nat ->
  exists ms' w',
    vfio_region_mmap_undo region i ms w = Ret ms' w'
    /\ length ms' = length ms
    /\ (forall j m', (j < i)%nat -> ms' !! j = Some m' ->
        mmap_ptr m' = NULL /\ mmap_mem_installed m' = false)
    /\ (forall j, (i <= j)%nat -> ms' !! j = ms !! j).
Proof.
  induction i as [|i IH]; intros ms w Hi; simpl.
  - exists ms, w. repeat split; auto; intros; lia.
  - destruct (ms !! i) as [m|] eqn:Hm.
    2: { apply lookup_ge_None in Hm. lia. }
    rewrite (bind_Ret _ _ _ _ _ (syscall_eq _ _)).
    destruct (IH (<[i := set_mmap false NULL m]> ms)
                (after_syscall (MUNMAP (mmap_ptr m) (mmap_size m)) w))
      as (ms' & w' & H & Hl & Hlt & Hge).
    { rewrite length_insert. lia. }
    exists ms', w'. split; [exact H|].
    split; [rewrite Hl, length_insert; reflexivity|].
    split.
    + intros j m' Hj Hm'. destruct (decide (j = i)) as [->|Hne].
      * rewrite Hge in Hm' by lia.
        rewrite list_lookup_insert_eq in Hm' by lia.
        inversion Hm'. simpl. auto.
      * apply (Hlt j m'); [lia | exact Hm'].
    + intros j Hj. rewrite Hge by lia. apply list_lookup_insert_ne. lia.
Qed.

(** The outer loop, when the [k]-th of the remaining windows is the first
    whose mmap fails. *)
Lemma vfio_region_mmap_loop_fails region dev k : forall n i ms w rk,
  devices w !! vbasedev region = Some dev ->
  length ms = (i + n)%nat ->
  (k < n)%nat ->
  (forall j r, (j < k)%nat ->
     replies (env w) (trace w) (map (mmap_call region dev) (drop i ms)) !! j
     = Some r ->
     ret_of r <> MAP_FAILED) ->
  replies (env w) (trace w) (map (mmap_call region dev) (drop i ms)) !! k
  = Some rk ->
  ret_of rk = MAP_FAILED ->
  exists v ms' w',
    vfio_region_mmap_loop region (region_prot region) n i ms w
    = Ret (v, ms') w'
    /\ (forall e, rk = Err e -> v = - e)
    /\ length ms' = length ms
    /\ (forall j m', (j <= i + k)%nat -> ms' !! j = Some m' ->
        mmap_ptr m' = NULL /\ active m' = false
        /\ ((j < i + k)%nat -> mmap_mem_installed m' = false))
    /\ (forall j, (i + k < j)%nat -> ms' !! j = ms !! j).
Proof.
  induction k as [|k IH]; intros n i ms w rk Hdev Hlen Hk Hok Hrk Hfail.
  - destruct n as [|n]; [lia|]. simpl.
    destruct (ms !! i) as [m|] eqn:Hm.
    2: { apply lookup_ge_None in Hm. lia. }
    rewrite (drop_S _ _ _ Hm) in Hrk. simpl in Hrk. inversion Hrk as [Erk].
    rewrite (bind_Ret _ _ _ _ _ (get_device_Some _ _ _ Hdev)).
    fold (region_prot region). fold (mmap_call region dev m).
    rewrite (bind_Ret _ _ _ _ _ (syscall_eq _ _)).
    rewrite Erk, Hfail, Z.eqb_refl.
    unfold bind at 1. unfold get_errno at 1.
    set (w1 := after_syscall (mmap_call region dev m) w).
    destruct (vfio_region_mmap_undo_spec region i
                (<[i := set_mmap (mmap_mem_installed m) NULL m]> ms) w1)
      as (ms' & w' & H & Hl & Hlt & Hge).
    { rewrite length_insert. lia. }
    exists (- errno w1), ms', w'.
    split; [rewrite (bind_Ret _ _ _ _ _ H); reflexivity|].
    split.
    { intros e He. unfold w1. rewrite after_syscall_errno, Erk, He.
      reflexivity. }
    split; [rewrite Hl, length_insert; reflexivity|].
    split.
    + intros j m' Hj Hm'. destruct (decide (j = i)) as [->|Hne].
      * rewrite Hge in Hm' by lia.
        rewrite list_lookup_insert_eq in Hm' by lia.
        inversion Hm'. simpl. repeat split; auto. lia.
      * destruct (Hlt j m') as [Hp Hi]; [lia | exact Hm' |].
        split; [exact Hp|]. unfold active. rewrite Hi.
        split; [apply andb_false_r | reflexivity].
    + intros j Hj. rewrite Hge by lia. apply list_lookup_insert_ne. lia.
  - destruct n as [|n]; [lia|]. simpl.
    destruct (ms !! i) as [m|] eqn:Hm.
    2: { apply lookup_ge_None in Hm. lia. }
    rewrite (drop_S _ _ _ Hm) in Hrk, Hok. simpl in Hrk, Hok.
    rewrite (bind_Ret _ _ _ _ _ (get_device_Some _ _ _ Hdev)).
    fold (region_prot region). fold (mmap_call region dev m).
    rewrite (bind_Ret _ _ _ _ _ (syscall_eq _ _)).
    set (r0 := host (env w) (trace w) (mmap_call region dev m)) in *.
    assert (Hr0 : ret_of r0 <> MAP_FAILED)
      by (apply (Hok 0%nat r0); [lia | reflexivity]).
    apply Z.eqb_neq in Hr0. rewrite Hr0.
    set (w1 := after_syscall (mmap_call region dev m) w).
    set (ms1 := <[i := set_mmap true (ret_of r0) m]> ms).
    assert (Hdrop : drop (S i) ms1 = drop (S i) ms).
    { unfold ms1. apply drop_insert_lt. lia. }
    destruct (IH n (S i) ms1 w1 rk) as (v & ms' & w' & H & Hv & Hl & Hle & Hgt).
    + unfold w1. rewrite after_syscall_devices. exact Hdev.
    + unfold ms1. rewrite length_insert. lia.
    + lia.
    + intros j r Hj Hr. apply (Hok (S j) r); [lia|].
      unfold w1 in Hr. rewrite after_syscall_env, after_syscall_trace in Hr.
      rewrite Hdrop in Hr. exact Hr.
    + unfold w1. rewrite after_syscall_env, after_syscall_trace, Hdrop.
      exact Hrk.
    + exact Hfail.
    + exists v, ms', w'. split; [exact H|]. split; [exact Hv|].
      split; [rewrite Hl; unfold ms1; apply length_insert|].
      split.
      * intros j m' Hj Hm'.
        destruct (Hle j m') as (Hp & Ha & Hi); [lia | exact Hm' |].
        split; [exact Hp|]. split; [exact Ha|]. intros Hlt. apply Hi. lia.
      * intros j Hj. rewrite Hgt by lia. unfold ms1.
        apply list_lookup_insert_ne. lia.
Qed.

(** C3, amended: when the mmap of window [k] is the first to fail, the
    call returns -errno and rolls back completely: every window up to and
    including [k] is left with a NULL mapping (so none of them is
    active), the windows before [k] are no longer installed in the
    region, and the windows after [k] are as they were before the call. *)
Theorem vfio_region_mmap_rollback region dev w k rk :
  region_mem region = true ->
  devices w !! vbasedev region = Some dev ->
  (k < length (mmaps region))%nat ->
  (forall j r, (j < k)%nat ->
     replies (env w) (trace w) (map (mmap_call region dev) (mmaps region))
       !! j = Some r ->
     ret_of r <> MAP_FAILED) ->
  replies (env w) (trace w) (map (mmap_call region dev) (mmaps region)) !! k
  = Some rk ->
  ret_of rk = MAP_FAILED ->
  exists v region' w',
    vfio_region_mmap region w = Ret (v, region') w'
    /\ (forall e, rk = Err e -> v = - e)
    /\ length (mmaps region') = length (mmaps region)
    /\ (forall j m', (j <= k)%nat -> mmaps region' !! j = Some m' ->
        mmap_ptr m' = NULL /\ active m' = false
        /\ ((j < k)%nat -> mmap_mem_installed m' = false))
    /\ (forall j, (k < j)%nat -> mmaps region' !! j = mmaps region !! j).
Proof.
  intros Hmem Hdev Hk Hok Hrk Hfail.
  destruct (vfio_region_mmap_loop_fails region dev k
              (length (mmaps region)) 0 (mmaps region) w rk)
    as (v & ms' & w' & H & Hv & Hl & Hle & Hgt); auto.
  unfold vfio_region_mmap. rewrite Hmem. simpl.
  fold (region_prot region).
  rewrite (bind_Ret _ _ _ _ _ H). simpl.
  exists v, (set_mmaps ms' region), w'.
  split; [reflexivity|]. split; [exact Hv|]. split; [exact Hl|].
  split; [exact Hle | exact Hgt].
Qed.

Lemma vfio_region_mmap_rollback_witness :
  exists v region' w',
    vfio_region_mmap region0 (world0 host_mmap_second_fails)
    = Ret (v, region') w'
    /\ v = - 12
    /\ forall j m', (j <= 1)%nat -> mmaps region' !! j = Some m' ->
       mmap_ptr m' = NULL /\ active m' = false
       /\ ((j < 1)%nat -> mmap_mem_installed m' = false).
Proof.
  destruct (vfio_region_mmap_rollback region0
              {| dev_fd := 5; dev_group := 200; needs_reset := false |}
              (world0 host_mmap_second_fails) 1 (Err 12))
    as (v & region' & w' & H & Hv & _ & Hle & _).
  - reflexivity.
  - reflexivity.
  - simpl. lia.
  - intros j r Hj. destruct j as [|j]; [|lia].
    simpl. intros Hr. inversion Hr. discriminate.
  - reflexivity.
  - reflexivity.
  - exists v, region', w'. split; [exact H|].
    split; [exact (Hv 12 eq_refl) | exact Hle].
Defined.

(** ** The registry of address spaces *)

Lemma find_address_space_spec as_ l : forall w,
  (forall p, p ∈ l -> is_Some (spaces w !! p)) ->
  exists o,
    find_address_space as_ l w = Ret o w
    /\ match o with
       | Some p => p ∈ l /\ exists s, spaces w !! p = Some s /\ space_as s = as_
       | None => forall p s, p ∈ l -> spaces w !! p = Some s -> space_as s <> as_
       end.
Proof.
  induction l as [|q l IH]; intros w Hlive; simpl.
  - exists None. split; [reflexivity|]. intros p s Hp. inversion Hp.
  - destruct (Hlive q) as [s Hs]; [left|].
    rewrite (bind_Ret _ _ _ _ _ (get_space_Some _ _ _ Hs)).
    destruct (space_as s =? as_) eqn:E.
    + apply Z.eqb_eq in E. exists (Some q). split; [reflexivity|].
      split; [left | eauto].
    + apply Z.eqb_neq in E.
      destruct (IH w) as (o & Ho & Hspec).
      { intros p Hp. apply Hlive. right. exact Hp. }
      exists o. split; [exact Ho|].
      destruct o as [p|].
      * destruct Hspec as [Hp Hs']. split; [right; exact Hp | exact Hs'].
      * intros p s' Hp Hs'. inversion Hp; subst.
        -- congruence.
        -- eapply Hspec; eauto.
Qed.

Lemma g_malloc0_fresh w :
  let p := fresh ({[NULL]} ∪ dom (devices w) ∪ dom (groups w)
                  ∪ dom (containers w) ∪ dom (spaces w)) in
  p <> NULL /\ devices w !! p = None /\ groups w !! p = None
  /\ containers w !! p = None /\ spaces w !! p = None.
Proof.
  intros p.
  pose proof (is_fresh ({[NULL]} ∪ dom (devices w) ∪ dom (groups w)
                        ∪ dom (containers w) ∪ dom (spaces w))) as Hf.
  fold p in Hf.
  repeat split.
  - intros E. apply Hf. rewrite E. set_solver.
  - apply not_elem_of_dom. set_solver.
  - apply not_elem_of_dom. set_solver.
  - apply not_elem_of_dom. set_solver.
  - apply not_elem_of_dom. set_solver.
Qed.

Lemma qlist_remove_NoDup p l : NoDup l -> p ∉ qlist_remove p l.
Proof.
  induction l as [|q l IH]; intros Hnd; simpl.
  - apply not_elem_of_nil.
  - inversion Hnd as [|? ? Hq Hl]; subst.
    destruct (q =? p) eqn:E.
    + apply Z.eqb_eq in E. subst. exact Hq.
    + apply Z.eqb_neq in E. intros Hin. inversion Hin; subst.
      * congruence.
      * apply IH; assumption.
Qed.

(** C7: vfio_get_address_space returns the registered entry for [as_]
    when there is one, leaving the registry as it is, and otherwise
    allocates a fresh entry with no containers and links it at the head
    of the registry; calling it again returns the same entry and changes
    nothing.  vfio_put_address_space unlinks and frees the entry when its
    container list is empty, and does nothing at all when it is not. *)
Theorem vfio_address_space_get_put as_ w :
  spaces_wf w ->
  (exists space w1,
     vfio_get_address_space as_ w = Ret space w1
     /\ ((exists p, registered as_ w p) -> w1 = w /\ registered as_ w space)
     /\ ((forall p, ~ registered as_ w p) ->
         space <> NULL /\ spaces w !! space = None
         /\ spaces w1
            = <[space := {| space_as := as_; space_containers := [] |}]>
                (spaces w)
         /\ vfio_address_spaces w1 = space :: vfio_address_spaces w)
     /\ vfio_get_address_space as_ w1 = Ret space w1)
  /\ (forall space s,
        spaces w !! space = Some s ->
        exists w',
          vfio_put_address_space space w = Ret tt w'
          /\ (space_containers s = [] ->
              spaces w' = delete space (spaces w)
              /\ vfio_address_spaces w'
                 = qlist_remove space (vfio_address_spaces w)
              /\ spaces w' !! space = None
              /\ space ∉ vfio_address_spaces w')
          /\ (space_containers s <> [] -> w' = w)).
Proof.
  intros [Hnd Hlive]. split.
  - destruct (find_address_space_spec as_ (vfio_address_spaces w) w Hlive)
      as (o & Ho & Hspec).
    unfold vfio_get_address_space.
    unfold bind at 1. unfold get_vfio_address_spaces at 1.
    rewrite (bind_Ret _ _ _ _ _ Ho).
    destruct o as [p|].
    + exists p, w. split; [reflexivity|].
      split; [intros _; split; [reflexivity | exact Hspec]|].
      split.
      * intros Hnone. exfalso. exact (Hnone p Hspec).
      * unfold bind at 1. unfold get_vfio_address_spaces at 1.
        rewrite (bind_Ret _ _ _ _ _ Ho). reflexivity.
    + unfold bind, g_malloc0.
      destruct (g_malloc0_fresh w) as (Hnull & _ & _ & _ & Hfresh).
      set (space := fresh _) in *.
      eexists space, _. split; [reflexivity|].
      split.
      * intros [p [Hp (s & Hs & Has)]]. exfalso.
        exact (Hspec p s Hp Hs Has).
      * split; [intros _; repeat split; assumption|].
        unfold get_vfio_address_spaces. simpl. unfold bind, get_space. simpl.
        rewrite lookup_insert_eq. simpl. rewrite Z.eqb_refl. reflexivity.
  - intros space s Hs. unfold vfio_put_address_space.
    rewrite (bind_Ret _ _ _ _ _ (get_space_Some _ _ _ Hs)).
    destruct (space_containers s) as [|c cs].
    + eexists. split; [reflexivity|].
      split; [|intros H; congruence].
      intros _. simpl. repeat split.
      * apply lookup_delete_eq.
      * apply qlist_remove_NoDup. exact Hnd.
    + exists w. split; [reflexivity|]. split; [discriminate | reflexivity].
Qed.

Lemma world0_spaces_wf h : spaces_wf (world0 h).
Proof.
  split; simpl.
  - apply NoDup_singleton.
  - intros p Hp. apply list_elem_of_singleton in Hp. subst p.
    eexists. reflexivity.
Qed.

Lemma vfio_address_space_get_put_witness :
  exists space w1,
    vfio_get_address_space 2 (world0 (fun _ _ => Ok 0 [])) = Ret space w1
    /\ vfio_address_spaces w1 = [space; 300]
    /\ vfio_get_address_space 2 w1 = Ret space w1.
Proof.
  destruct (vfio_address_space_get_put 2 (world0 (fun _ _ => Ok 0 []))
              (world0_spaces_wf _))
    as [(space & w1 & H & _ & Hnew & Hagain) _].
  exists space, w1. split; [exact H|]. split; [|exact Hagain].
  apply Hnew. intros p [Hp (s & Hs & Has)]. simpl in Hp.
  apply list_elem_of_singleton in Hp. subst p.
  simpl in Hs. rewrite lookup_singleton_eq in Hs. inversion Hs; subst s.
  discriminate.
Defined.

(** ** Groups *)

Lemma find_group_spec id l : forall w,
  (forall p, p ∈ l -> is_Some (groups w !! p)) ->
  exists o,
    find_group id l w = Ret o w
    /\ match o with
       | Some p => p ∈ l /\ exists g, groups w !! p = Some g /\ groupid g = id
       | None => forall p g, p ∈ l -> groups w !! p = Some g -> groupid g <> id
       end.
Proof.
  induction l as [|q l IH]; intros w Hlive; simpl.
  - exists None. split; [reflexivity|]. intros p g Hp. inversion Hp.
  - destruct (Hlive q) as [g Hg]; [left|].
    rewrite (bind_Ret _ _ _ _ _ (get_group_Some _ _ _ Hg)).
    destruct (groupid g =? id) eqn:E.
    + apply Z.eqb_eq in E. exists (Some q). split; [reflexivity|].
      split; [left | eauto].
    + apply Z.eqb_neq in E.
      destruct (IH w) as (o & Ho & Hspec).
      { intros p Hp. apply Hlive. right. exact Hp. }
      exists o. split; [exact Ho|].
      destruct o as [p|].
      * destruct Hspec as [Hp Hg']. split; [right; exact Hp | exact Hg'].
      * intros p g' Hp Hg'. inversion Hp; subst.
        -- congruence.
        -- eapply Hspec; eauto.
Qed.

(** C10: for a group id that is already registered, vfio_get_group
    returns the registered group when its container sits in the requested
    address space and NULL when it sits in another one; in both cases the
    world after the call is the world before it: nothing is created, no
    registry changes and the kernel is not called. *)
Theorem vfio_get_group_registered id as_ w group g c s :
  groups_wf w ->
  group ∈ vfio_group_list w ->
  groups w !! group = Some g ->
  groupid g = id ->
  containers w !! group_container g = Some c ->
  spaces w !! container_space c = Some s ->
  (space_as s = as_ -> vfio_get_group id as_ w = Ret group w)
  /\ (space_as s <> as_ -> vfio_get_group id as_ w = Ret NULL w).
Proof.
  intros [Hlive Huniq] Hin Hg Hid Hc Hs.
  destruct (find_group_spec id (vfio_group_list w) w Hlive)
    as (o & Ho & Hspec).
  assert (Hw : vfio_get_group id as_ w
               = Ret (if space_as s =? as_ then group else NULL) w).
  { unfold vfio_get_group.
    unfold bind at 1. unfold get_vfio_group_list at 1.
    rewrite (bind_Ret _ _ _ _ _ Ho).
    destruct o as [p|].
    - destruct Hspec as (Hp & g' & Hg' & Hid').
      assert (p = group)
        by (apply (Huniq p group g' g); auto; congruence).
      subst p.
      rewrite (bind_Ret _ _ _ _ _ (get_group_Some _ _ _ Hg)).
      rewrite (bind_Ret _ _ _ _ _ (get_container_Some _ _ _ Hc)).
      rewrite (bind_Ret _ _ _ _ _ (get_space_Some _ _ _ Hs)).
      destruct (space_as s =? as_); reflexivity.
    - exfalso. exact (Hspec group g Hin Hg Hid). }
  rewrite Hw. split; intros H.
  - apply Z.eqb_eq in H. rewrite H. reflexivity.
  - apply Z.eqb_neq in H. rewrite H. reflexivity.
Qed.

Lemma world0_groups_wf h : groups_wf (world0 h).
Proof.
  split; simpl.
  - intros p Hp. apply list_elem_of_singleton in Hp. subst p.
    eexists. reflexivity.
  - intros p q gp gq Hp Hq _ _ _.
    apply list_elem_of_singleton in Hp, Hq. congruence.
Qed.

Lemma vfio_get_group_registered_witness :
  vfio_get_group 42 1 (world0 (fun _ _ => Ok 0 []))
  = Ret 200 (world0 (fun _ _ => Ok 0 []))
  /\ vfio_get_group 42 2 (world0 (fun _ _ => Ok 0 []))
     = Ret NULL (world0 (fun _ _ => Ok 0 [])).
Proof.
  split.
  - apply (vfio_get_group_registered 42 1 (world0 (fun _ _ => Ok 0 [])) 200
             {| group_fd := 6; groupid := 42; group_container := 250;
                device_list := [100] |}
             (container0 [200])
             {| space_as := 1; space_containers := [250] |}
             (world0_groups_wf _)); try reflexivity.
    simpl. apply list_elem_of_singleton. reflexivity.
  - assert (H : 1 <> 2) by discriminate.
    revert H.
    apply (vfio_get_group_registered 42 2 (world0 (fun _ _ => Ok 0 [])) 200
             {| group_fd := 6; groupid := 42; group_container := 250;
                device_list := [100] |}
             (container0 [200])
             {| space_as := 1; space_containers := [250] |}
             (world0_groups_wf _)); try reflexivity.
    simpl. apply list_elem_of_singleton. reflexivity.
Defined.

(** ** Global reset *)

(** C8, as the claim reads: every device whose needs_reset flag is set
    after the query phase would be hot-reset.  With two functions of one
    card both flags are set after the queries, the hot reset of the first
    clears the flag of the second, and the second is never hot-reset. *)
Theorem vfio_reset_handler_skips_cleared_device :
  exists w1 w',
    reset_query_phase [200] world_one_card = Ret tt w1
    /\ needs_reset_in (devices w1) 101 = true
    /\ vfio_reset_handler world_one_card = Ret tt w'
    /\ trace w' = [Op vfio_compute_needs_reset 100;
                   Op vfio_compute_needs_reset 101;
                   Op vfio_hot_reset_multi 100]
    /\ count_op vfio_hot_reset_multi 101 (trace w') = 0%nat.
Proof.
  eexists _, _. split; [vm_compute; reflexivity|].
  split; [vm_compute; reflexivity|].
  split; [vm_compute; reflexivity|].
  split; reflexivity.
Qed.

Lemma after_op_dom h d w :
  hooks_keep_devices (env w) ->
  dom (devices (after_op h d w)) = dom (devices w).
Proof. intros H. simpl. apply H. Qed.

Lemma live_dom (ds ds' : gmap Z VFIODevice) d :
  dom ds' = dom ds -> is_Some (ds !! d) -> is_Some (ds' !! d).
Proof. intros E H. apply elem_of_dom. rewrite E. apply elem_of_dom. exact H. Qed.

Lemma run_query_app l1 l2 w :
  run_query (l1 ++ l2) w = run_query l2 (run_query l1 w).
Proof. apply fold_left_app. Qed.

Lemma run_reset_app l1 : forall l2 w,
  run_reset (l1 ++ l2) w = run_reset l2 (run_reset l1 w).
Proof.
  induction l1 as [|d l1 IH]; intros l2 w; simpl; [reflexivity|].
  destruct (needs_reset_in (devices w) d); apply IH.
Qed.

Lemma run_query_inv l : forall w,
  hooks_keep_devices (env w) ->
  env (run_query l w) = env w
  /\ groups (run_query l w) = groups w
  /\ dom (devices (run_query l w)) = dom (devices w)
  /\ devices (run_query l w) = query_all (env w) l (devices w)
  /\ trace (run_query l w)
     = trace w ++ map (Op vfio_compute_needs_reset) l.
Proof.
  induction l as [|d l IH]; intros w Hk; simpl.
  - rewrite app_nil_r. auto.
  - destruct (IH (after_op vfio_compute_needs_reset d w) Hk)
      as (He & Hg & Hd & Hq & Ht).
    unfold run_query in *. simpl.
    rewrite He, Hg, Hd, Hq, Ht. simpl.
    repeat split; auto.
    rewrite <- app_assoc. reflexivity.
Qed.

Lemma run_query_group_list l : forall w,
  vfio_group_list (run_query l w) = vfio_group_list w.
Proof.
  induction l as [|d l IH]; intros w; [reflexivity|].
  unfold run_query in *. simpl. rewrite IH. reflexivity.
Qed.

Lemma run_reset_inv l : forall w,
  hooks_keep_devices (env w) ->
  env (run_reset l w) = env w
  /\ groups (run_reset l w) = groups w
  /\ dom (devices (run_reset l w)) = dom (devices w)
  /\ trace (run_reset l w)
     = trace w
       ++ map (Op vfio_hot_reset_multi)
            (reset_targets (env w) l (devices w)).
Proof.
  induction l as [|d l IH]; intros w Hk; simpl.
  - rewrite app_nil_r. auto.
  - destruct (needs_reset_in (devices w) d).
    + destruct (IH (after_op vfio_hot_reset_multi d w) Hk)
        as (He & Hg & Hd & Ht).
      rewrite He, Hg, Hd, Ht. simpl.
      repeat split; auto.
      rewrite <- app_assoc. reflexivity.
    + apply IH. exact Hk.
Qed.

Lemma query_steps_eq l : forall w,
  hooks_keep_devices (env w) ->
  (forall d, d ∈ l -> is_Some (devices w !! d)) ->
  for_each query_step l w = Ret tt (run_query l w).
Proof.
  induction l as [|d l IH]; intros w Hk Hlive; simpl; [reflexivity|].
  destruct (Hlive d) as [dev Hdev]; [left|].
  unfold query_step at 1.
  rewrite (bind_Ret _ _ _ tt (after_op vfio_compute_needs_reset d w)).
  2: { rewrite (bind_Ret _ _ _ _ _ (get_device_Some _ _ _ Hdev)).
       reflexivity. }
  apply IH; [exact Hk|].
  intros d' Hd'. eapply live_dom; [apply after_op_dom; exact Hk|].
  apply Hlive. right. exact Hd'.
Qed.

Lemma reset_steps_eq l : forall w,
  hooks_keep_devices (env w) ->
  (forall d, d ∈ l -> is_Some (devices w !! d)) ->
  for_each reset_step l w = Ret tt (run_reset l w).
Proof.
  induction l as [|d l IH]; intros w Hk Hlive; simpl; [reflexivity|].
  destruct (Hlive d) as [dev Hdev]; [left|].
  assert (Hstep : reset_step d w
                  = Ret tt (if needs_reset dev
                            then after_op vfio_hot_reset_multi d w else w)).
  { unfold reset_step.
    rewrite (bind_Ret _ _ _ _ _ (get_device_Some _ _ _ Hdev)).
    destruct (needs_reset dev); reflexivity. }
  rewrite (bind_Ret _ _ _ _ _ Hstep).
  unfold needs_reset_in. rewrite Hdev.
  destruct (needs_reset dev).
  - apply IH; [exact Hk|].
    intros d' Hd'. eapply live_dom; [apply after_op_dom; exact Hk|].
    apply Hlive. right. exact Hd'.
  - apply IH; [exact Hk|].
    intros d' Hd'. apply Hlive. right. exact Hd'.
Qed.

Section GroupLoop.
Variable step : Z -> M unit.
Variable run : list Z -> World -> World.
Hypothesis run_app : forall l1 l2 w, run (l1 ++ l2) w = run l2 (run l1 w).
Hypothesis run_inv : forall l w,
  hooks_keep_devices (env w) ->
  env (run l w) = env w /\ groups (run l w) = groups w
  /\ dom (devices (run l w)) = dom (devices w).
Hypothesis steps_eq : forall l w,
  hooks_keep_devices (env w) ->
  (forall d, d ∈ l -> is_Some (devices w !! d)) ->
  for_each step l w = Ret tt (run l w).

Lemma for_each_group_eq gl : forall w,
  hooks_keep_devices (env w) ->
  (forall p, p ∈ gl -> is_Some (groups w !! p)) ->
  (forall d, d ∈ concat (map (devices_of w) gl) ->
     is_Some (devices w !! d)) ->
  for_each (fun group =>
              g <- get_group group ;; for_each step (device_list g)) gl w
  = Ret tt (run (concat (map (devices_of w) gl)) w).
Proof.
  induction gl as [|p gl IH]; intros w Hk Hg Hd; simpl.
  - change (for_each step [] w = Ret tt (run [] w)).
    apply steps_eq; [exact Hk|]. intros d Hin. inversion Hin.
  - destruct (Hg p) as [g Hp]; [left|].
    assert (Hdo : devices_of w p = device_list g)
      by (unfold devices_of; rewrite Hp; reflexivity).
    simpl in Hd. rewrite Hdo in Hd |- *.
    rewrite (bind_Ret _ _ _ tt (run (device_list g) w)).
    2: { rewrite (bind_Ret _ _ _ _ _ (get_group_Some _ _ _ Hp)).
         apply steps_eq; [exact Hk|].
         intros d Hin. apply Hd. apply elem_of_app. left. exact Hin. }
    destruct (run_inv (device_list g) w Hk) as (He & Hgr & Hdom).
    assert (Hmap : map (devices_of (run (device_list g) w)) gl
                   = map (devices_of w) gl).
    { apply map_ext. intros q. unfold devices_of. rewrite Hgr.
      reflexivity. }
    rewrite run_app, <- Hmap.
    apply IH.
    + rewrite He. exact Hk.
    + intros q Hq. rewrite Hgr. apply Hg. right. exact Hq.
    + intros d Hin. rewrite Hmap in Hin.
      eapply live_dom; [exact Hdom|].
      apply Hd. apply elem_of_app. right. exact Hin.
Qed.
End GroupLoop.

Lemma reset_targets_filter e :
  hot_reset_keeps_flags e ->
  forall l ds, reset_targets e l ds = List.filter (needs_reset_in ds) l.
Proof.
  intros Hkeep l. induction l as [|d l IH]; intros ds; simpl; [reflexivity|].
  destruct (needs_reset_in ds d).
  - rewrite IH. f_equal. apply List.filter_ext. intros d'. apply Hkeep.
  - apply IH.
Qed.

(** C8, amended: the handler runs two complete passes.  The first
    invokes the needs-reset query on every device of every registered
    group; only then does the second invoke the hot reset, on the devices
    whose needs_reset flag is set when the pass reaches them.  These are
    exactly the devices whose flag is set after the query phase provided
    that the hot-reset hook leaves the flags alone. *)
Theorem vfio_reset_handler_two_phases w :
  devices_wf w ->
  hooks_keep_devices (env w) ->
  exists w1 w',
    reset_query_phase (vfio_group_list w) w = Ret tt w1
    /\ devices w1 = query_all (env w) (all_devices w) (devices w)
    /\ trace w1
       = trace w ++ map (Op vfio_compute_needs_reset) (all_devices w)
    /\ vfio_reset_handler w = Ret tt w'
    /\ trace w'
       = trace w1
         ++ map (Op vfio_hot_reset_multi)
              (reset_targets (env w) (all_devices w) (devices w1))
    /\ (hot_reset_keeps_flags (env w) ->
        reset_targets (env w) (all_devices w) (devices w1)
        = List.filter (needs_reset_in (devices w1)) (all_devices w)).
Proof.
  intros [Hg Hd] Hk.
  set (devs := all_devices w) in *.
  assert (Hq : reset_query_phase (vfio_group_list w) w
               = Ret tt (run_query devs w)).
  { unfold reset_query_phase.
    apply (for_each_group_eq query_step run_query); auto.
    - apply run_query_app.
    - intros l w0 Hk0. destruct (run_query_inv l w0 Hk0) as (? & ? & ? & _).
      auto.
    - apply query_steps_eq. }
  destruct (run_query_inv devs w Hk) as (He & Hgr & Hdom & Hds & Ht).
  set (w1 := run_query devs w) in *.
  assert (Hk1 : hooks_keep_devices (env w1)) by (rewrite He; exact Hk).
  assert (Hgl : vfio_group_list w1 = vfio_group_list w)
    by apply run_query_group_list.
  assert (Hmap : map (devices_of w1) (vfio_group_list w)
                 = map (devices_of w) (vfio_group_list w)).
  { apply map_ext. intros q. unfold devices_of. rewrite Hgr. reflexivity. }
  assert (Hr : reset_multi_phase (vfio_group_list w) w1
               = Ret tt (run_reset devs w1)).
  { unfold reset_multi_phase, devs, all_devices. rewrite <- Hmap.
    apply (for_each_group_eq reset_step run_reset); auto.
    - apply run_reset_app.
    - intros l w0 Hk0. destruct (run_reset_inv l w0 Hk0) as (? & ? & ? & _).
      auto.
    - apply reset_steps_eq.
    - intros q Hq'. rewrite Hgr. apply Hg. exact Hq'.
    - rewrite Hmap. intros d Hin. eapply live_dom; [exact Hdom|].
      apply Hd. exact Hin. }
  destruct (run_reset_inv devs w1 Hk1) as (_ & _ & _ & Ht').
  exists w1, (run_reset devs w1).
  split; [exact Hq|]. split; [exact Hds|]. split; [exact Ht|].
  split.
  { unfold vfio_reset_handler.
    unfold bind at 1. unfold get_vfio_group_list at 1.
    rewrite (bind_Ret _ _ _ _ _ Hq). exact Hr. }
  rewrite He in Ht'. split; [exact Ht'|].
  intros Hkeep. apply reset_targets_filter. exact Hkeep.
Qed.

Lemma ops_one_card_keep : hooks_keep_devices (env world_one_card).
Proof.
  intros h d ds. simpl. destruct h; simpl.
  - apply dom_alter_L.
  - apply dom_fmap_L.
  - reflexivity.
Qed.

Lemma world_one_card_wf : devices_wf world_one_card.
Proof.
  split.
  - intros p Hp. simpl in Hp. apply list_elem_of_singleton in Hp. subst p.
    eexists. reflexivity.
  - intros d Hd.
    change (all_devices world_one_card) with [100; 101] in Hd.
    apply elem_of_cons in Hd. destruct Hd as [-> | Hd].
    + eexists. reflexivity.
    + apply list_elem_of_singleton in Hd. subst d. eexists. reflexivity.
Qed.

Lemma vfio_reset_handler_two_phases_witness :
  exists w1 w',
    reset_query_phase [200] world_one_card = Ret tt w1
    /\ trace w1 = [Op vfio_compute_needs_reset 100;
                   Op vfio_compute_needs_reset 101]
    /\ vfio_reset_handler world_one_card = Ret tt w'
    /\ trace w'
       = trace w1
         ++ map (Op vfio_hot_reset_multi)
              (reset_targets (env world_one_card) [100; 101] (devices w1)).
Proof.
  destruct (vfio_reset_handler_two_phases world_one_card
              world_one_card_wf ops_one_card_keep)
    as (w1 & w' & Hq & _ & Ht & Hh & Ht' & _).
  exists w1, w'. split; [exact Hq|]. split; [exact Ht|].
  split; [exact Hh | exact Ht'].
Defined.

(** ** Memory listener: the skip test *)

Lemma land_pow2_eqb a n :
  0 <= n -> (Z.land a (2 ^ n) =? 0) = negb (Z.testbit a n).
Proof.
  intros Hn. destruct (Z.testbit a n) eqn:Hb; simpl.
  - apply Z.eqb_neq. intros H0.
    assert (Hbit : Z.testbit (Z.land a (2 ^ n)) n = true)
      by (rewrite Z.land_spec, Hb, Z.pow2_bits_true; auto).
    rewrite H0, Z.bits_0 in Hbit. discriminate.
  - apply Z.eqb_eq. apply Z.bits_inj'. intros m Hm.
    rewrite Z.land_spec, Z.bits_0, Z.pow2_bits_eqb by exact Hn.
    destruct (Z.eqb_spec n m) as [->|Hne].
    + rewrite Hb. reflexivity.
    + apply andb_false_r.
Qed.

Lemma vfio_listener_skipped_section_spec section :
  vfio_listener_skipped_section section = true
  <-> (mr_is_ram (mr section) = false /\ mr_is_iommu (mr section) = false)
      \/ Z.testbit (offset_within_address_space section) 63 = true.
Proof.
  unfold vfio_listener_skipped_section.
  rewrite Z.shiftl_1_l, land_pow2_eqb by lia.
  rewrite negb_involutive.
  rewrite orb_true_iff, andb_true_iff, !negb_true_iff. reflexivity.
Qed.

(** C6, as the claim reads: a section would be left alone exactly when
    the skip test holds.  One byte of RAM at address 0 passes the skip
    test and is left alone all the same: its page-aligned interval is
    empty, so neither notification maps, unmaps or changes anything. *)
Theorem vfio_listener_ignores_unskipped_section :
  vfio_listener_skipped_section tiny_section = false
  /\ vfio_listener_region_add 250 tiny_section (world0 (fun _ _ => Ok 0 []))
     = Ret tt (world0 (fun _ _ => Ok 0 []))
  /\ vfio_listener_region_del 250 tiny_section (world0 (fun _ _ => Ok 0 []))
     = Ret tt (world0 (fun _ _ => Ok 0 [])).
Proof. split; [reflexivity|]. split; reflexivity. Qed.

(** A section whose offsets within the address space and within its
    region differ below the page size is reported and left alone. *)
Lemma vfio_listener_unaligned_noop section container w :
  vfio_listener_skipped_section section = false ->
  page_offset (env w) (offset_within_address_space section)
  <> page_offset (env w) (offset_within_region section) ->
  vfio_listener_region_add container section w = Ret tt w
  /\ vfio_listener_region_del container section w = Ret tt w.
Proof.
  intros Hskip Hne. apply Z.eqb_neq in Hne.
  unfold vfio_listener_region_add, vfio_listener_region_del.
  rewrite Hskip. unfold bind, get_env. rewrite Hne. split; reflexivity.
Qed.

(** C6, amended: the skip test holds exactly when the section's region is
    neither RAM nor a guest IOMMU, or bit 63 of its offset within the
    address space is set; and a section for which it holds is ignored by
    both notifications: the world is left as it was (no mapping, no
    unmapping, no state change), and for a section of a size between 1
    and 2^64 both return normally. *)
Theorem vfio_listener_skip section container w :
  (vfio_listener_skipped_section section = true
   <-> (mr_is_ram (mr section) = false /\ mr_is_iommu (mr section) = false)
       \/ Z.testbit (offset_within_address_space section) 63 = true)
  /\ (vfio_listener_skipped_section section = true ->
      world_after (vfio_listener_region_add container section w) = Some w
      /\ world_after (vfio_listener_region_del container section w) = Some w
      /\ (1 <= size section <= 2 ^ 64 ->
          vfio_listener_region_add container section w = Ret tt w
          /\ vfio_listener_region_del container section w = Ret tt w)).
Proof.
  split; [apply vfio_listener_skipped_section_spec|].
  intros Hskip.
  unfold vfio_listener_region_add, vfio_listener_region_del.
  unfold bind at 1 3 5 7. unfold get_env at 1 2 3 4. rewrite Hskip.
  unfold bind, int128_get64.
  destruct ((0 <=? int128_sub (size section) int128_one)
            && (int128_sub (size section) int128_one <? 2 ^ 64)) eqn:E.
  - repeat split; reflexivity.
  - split; [reflexivity|]. split; [reflexivity|].
    intros Hsz. exfalso.
    unfold int128_sub, int128_wrap, int128_one in E.
    rewrite (Z.mod_small (size section - 1 + 2 ^ 127) (2 ^ 128)) in E by lia.
    apply andb_false_iff in E. destruct E as [E|E].
    + apply Z.leb_gt in E. lia.
    + apply Z.ltb_ge in E. lia.
Qed.

Lemma vfio_listener_skip_witness :
  vfio_listener_skipped_section mmio_section = true
  /\ vfio_listener_region_add 250 mmio_section (world0 (fun _ _ => Ok 0 []))
     = Ret tt (world0 (fun _ _ => Ok 0 []))
  /\ vfio_listener_region_del 250 mmio_section (world0 (fun _ _ => Ok 0 []))
     = Ret tt (world0 (fun _ _ => Ok 0 [])).
Proof.
  destruct (vfio_listener_skip mmio_section 250 (world0 (fun _ _ => Ok 0 [])))
    as [_ H].
  assert (Hs : vfio_listener_skipped_section mmio_section = true)
    by reflexivity.
  split; [exact Hs|].
  destruct (H Hs) as (_ & _ & Hret).
  apply Hret. simpl. lia.
Defined.

(** ** Memory listener: region_add followed by region_del *)


(** The proviso on earlier translations cannot be dropped either: a
    section that exceeds the window of its container is not mapped by
    region_add, region_del unmaps its whole interval all the same, and a
    translation that lay inside the interval is gone. *)
Example vfio_listener_del_unmaps_unmapped_section :
  exists w1 w2,
    vfio_listener_region_add 250 ram_section world_small_window = Ret tt w1
    /\ trace w1 = trace world_small_window
    /\ vfio_listener_region_del 250 ram_section w1 = Ret tt w2
    /\ dma_mappings (trace world_small_window)
       = [{| dm_fd := 7; dm_iova := 4096; dm_size := 4096;
             dm_vaddr := 131072; dm_flags := 3 |}]
    /\ dma_mappings (trace w2) = [].
Proof.
  eexists _, _. split; [vm_compute; reflexivity|].
  split; [reflexivity|].
  split; [vm_compute; reflexivity|].
  split; reflexivity.
Qed.

(** *** The translations after a run of events *)









(** *** What a computation adds to the trace *)

Section Preserves.
Variable P : Event -> bool.
Variables container fd : Z.
Variable ev : Env.
















End Preserves.

(** *** Page arithmetic *)

Lemma land_page_mask x b :
  0 <= b -> Z.land x (- 2 ^ b) = 2 ^ b * (x / 2 ^ b).
Proof.
  intros Hb.
  replace (- 2 ^ b) with (Z.lnot (Z.ones b))
    by (rewrite Z.ones_equiv; unfold Z.lnot; lia).
  rewrite <- Z.ldiff_land, Z.ldiff_ones_r by exact Hb.
  rewrite Z.shiftl_mul_pow2, Z.shiftr_div_pow2 by exact Hb. lia.
Qed.

Lemma section_iova_range e s : 0 <= section_iova e s < 2 ^ 64.
Proof.
  unfold section_iova, TARGET_PAGE_ALIGN, wrap64, wrap.
  apply Z.mod_pos_bound. lia.
Qed.

(** When the 128-bit end of the section fits 64 bits, the 64-bit
    computation of region_del finds the same end. *)
Lemma section_end_agree e s :
  0 <= TARGET_PAGE_BITS e <= 64 ->
  0 <= offset_within_address_space s < 2 ^ 64 ->
  0 <= size s <= 2 ^ 64 ->
  section_llend e s < 2 ^ 64 ->
  0 <= section_llend e s
  /\ offset_within_address_space s + size s < 2 ^ 64
  /\ wrap64 (Z.land (wrap64 (offset_within_address_space s + size s))
               (TARGET_PAGE_MASK e))
     = section_llend e s.
Proof.
  intros Hb Ho Hs Hl.
  unfold section_llend, int128_and, int128_add, int128_make64, int128_exts64,
    int128_wrap, TARGET_PAGE_MASK, TARGET_PAGE_SIZE in *.
  set (x := offset_within_address_space s + size s) in *.
  assert (Hx : 0 <= x < 2 ^ 65) by (unfold x; lia).
  rewrite (Z.mod_small (x + 2 ^ 127) (2 ^ 128)) in * by lia.
  replace (x + 2 ^ 127 - 2 ^ 127) with x in * by lia.
  rewrite land_page_mask in * by lia.
  set (b := TARGET_PAGE_BITS e) in *.
  assert (Hp : 0 < 2 ^ b) by (apply Z.pow_pos_nonneg; lia).
  assert (H64 : 2 ^ 64 = 2 ^ b * 2 ^ (64 - b)).
  { rewrite <- Z.pow_add_r by lia. f_equal. lia. }
  assert (Hq : 0 < 2 ^ (64 - b)) by (apply Z.pow_pos_nonneg; lia).
  assert (Hdiv : 0 <= x / 2 ^ b) by (apply Z.div_pos; lia).
  assert (Hle : 2 ^ b * (x / 2 ^ b) <= x)
    by (apply Z.mul_div_le; lia).
  assert (Hx64 : x < 2 ^ 64).
  { destruct (Z_lt_ge_dec x (2 ^ 64)) as [|Hge]; [assumption|].
    exfalso.
    assert (2 ^ (64 - b) <= x / 2 ^ b).
    { apply Z.div_le_lower_bound; lia. }
    nia. }
  split; [nia|]. split; [exact Hx64|].
  unfold wrap64, wrap. rewrite (Z.mod_small x) by lia.
  rewrite land_page_mask by lia.
  apply Z.mod_small. nia.
Qed.

(** *** The trace of region_add *)




(** *** The trace of region_del *)






(** * Further properties of the code *)

(** ** Trapped access: widths and byte order *)

Lemma le_decode_encode n : forall x,
  le_decode (le_encode n x) = x mod 256 ^ Z.of_nat n.
Proof.
  induction n as [|n IH]; intros x.
  - simpl. rewrite Z.mod_1_r. reflexivity.
  - cbn [le_encode le_decode]. rewrite IH, Z.mod_mod by lia.
    rewrite Nat2Z.inj_succ, Z.pow_succ_r by lia.
    rewrite Z.rem_mul_r by lia. reflexivity.
Qed.

Lemma le_decode_bound bs :
  0 <= le_decode bs < 256 ^ Z.of_nat (length bs).
Proof.
  induction bs as [|b bs IH].
  - simpl. lia.
  - cbn [le_decode length]. rewrite Nat2Z.inj_succ, Z.pow_succ_r by lia.
    pose proof (Z.mod_pos_bound b 256). lia.
Qed.

Lemma vfio_region_write_eq region addr data size w dev :
  devices w !! vbasedev region = Some dev ->
  size = 1 \/ size = 2 \/ size = 4 ->
  vfio_region_write region addr data size w
  = Ret tt (after_op vfio_eoi (vbasedev region)
              (after_syscall (region_pwrite region dev addr data size) w)).
Proof.
  intros Hdev Hsz.
  unfold vfio_region_write, region_pwrite.
  destruct Hsz as [-> | [-> | ->]]; simpl;
    unfold bind at 1; simpl;
    rewrite (bind_Ret _ _ _ _ _ (get_device_Some _ _ _ Hdev));
    rewrite (bind_Ret _ _ _ _ _ (syscall_eq _ _));
    reflexivity.
Qed.

Lemma vfio_region_read_eq region addr size w dev :
  devices w !! vbasedev region = Some dev ->
  size = 1 \/ size = 2 \/ size = 4 ->
  ret_of (host (env w) (trace w) (region_pread region dev addr size)) = size ->
  vfio_region_read region addr size w
  = Ret (le_decode
           (take (Z.to_nat size)
              (data_of (host (env w) (trace w)
                          (region_pread region dev addr size)))))
      (after_op vfio_eoi (vbasedev region)
         (after_syscall (region_pread region dev addr size) w)).
Proof.
  intros Hdev Hsz Hr.
  unfold vfio_region_read.
  rewrite (bind_Ret _ _ _ _ _ (get_device_Some _ _ _ Hdev)).
  fold (region_pread region dev addr size).
  rewrite (bind_Ret _ _ _ _ _ (syscall_eq _ _)).
  rewrite Hr, Z.eqb_refl. simpl.
  destruct Hsz as [-> | [-> | ->]]; reflexivity.
Qed.

Lemma pow256 n : 0 <= n -> 256 ^ n = 2 ^ (8 * n).
Proof. intros Hn. rewrite Z.pow_mul_r by lia. reflexivity. Qed.

(** X1: a trapped read of 1, 2 or 4 bytes always returns, and what the
    guest reads is either all-ones or a value that fits the width of the
    access. *)
Theorem vfio_region_read_fits_width region addr size w dev :
  devices w !! vbasedev region = Some dev ->
  size = 1 \/ size = 2 \/ size = 4 ->
  exists v w',
    vfio_region_read region addr size w = Ret v w'
    /\ (v = UINT64_MAX \/ 0 <= v < 2 ^ (8 * size)).
Proof.
  intros Hdev Hsz.
  destruct (Z.eq_dec
              (ret_of (host (env w) (trace w)
                         (region_pread region dev addr size))) size)
    as [Hr | Hr].
  - rewrite (vfio_region_read_eq _ _ _ _ _ Hdev Hsz Hr).
    eexists _, _. split; [reflexivity|]. right.
    match goal with |- 0 <= le_decode ?bs < _ =>
      pose proof (le_decode_bound bs) as Hb;
      assert (Hlen : (length bs <= Z.to_nat size)%nat)
        by (rewrite length_take; lia)
    end.
    rewrite <- pow256 by lia.
    split; [lia|].
    eapply Z.lt_le_trans; [apply Hb|].
    apply Z.pow_le_mono_r; lia.
  - rewrite (vfio_region_read_mismatch _ _ _ _ _ Hdev Hr).
    eexists _, _. split; [reflexivity|]. left. reflexivity.
Qed.

Lemma vfio_region_read_fits_width_witness :
  exists v w',
    vfio_region_read region0 0 4 (world0 host_short_pread) = Ret v w'
    /\ (v = UINT64_MAX \/ 0 <= v < 2 ^ (8 * 4)).
Proof.
  apply (vfio_region_read_fits_width region0 0 4 (world0 host_short_pread)
           {| dev_fd := 5; dev_group := 200; needs_reset := false |}).
  - reflexivity.
  - right; right; reflexivity.
Defined.

(** X2: a value written through a trapped access and read back from a
    device that returns the bytes it was given comes back truncated to
    the width of the access, whatever the byte order of the host. *)
Theorem vfio_region_write_read_roundtrip region addr data size w dev :
  devices w !! vbasedev region = Some dev ->
  size = 1 \/ size = 2 \/ size = 4 ->
  ops (env w) vfio_eoi (vbasedev region) (devices w) !! vbasedev region
  = Some dev ->
  (forall t buf count off,
     host (env w) (t ++ [Sys (PWRITE (dev_fd dev) buf count off)
                           (host (env w) t
                              (PWRITE (dev_fd dev) buf count off));
                         Op vfio_eoi (vbasedev region)])
       (PREAD (dev_fd dev) count off)
     = Ok count buf) ->
  exists w1 w2,
    vfio_region_write region addr data size w = Ret tt w1
    /\ vfio_region_read region addr size w1 = Ret (data mod 2 ^ (8 * size)) w2.
Proof.
  intros Hdev Hsz Hkeep Hecho.
  rewrite (vfio_region_write_eq _ _ _ _ _ _ Hdev Hsz).
  eexists _, _. split; [reflexivity|].
  set (w1 := after_op vfio_eoi (vbasedev region)
               (after_syscall (region_pwrite region dev addr data size) w)).
  assert (Hdev1 : devices w1 !! vbasedev region = Some dev).
  { unfold w1, after_op. simpl.
    rewrite after_syscall_env, after_syscall_devices. exact Hkeep. }
  assert (Hreply : host (env w1) (trace w1) (region_pread region dev addr size)
                   = Ok size (le_encode (Z.to_nat size)
                                (wrap (8 * size) data))).
  { unfold w1, after_op. simpl.
    rewrite after_syscall_env, after_syscall_trace, <- app_assoc. simpl.
    unfold region_pwrite, region_pread. apply Hecho. }
  rewrite (vfio_region_read_eq _ _ _ _ _ Hdev1 Hsz)
    by (rewrite Hreply; reflexivity).
  rewrite Hreply. simpl data_of.
  assert (Htake : forall n x, take n (le_encode n x) = le_encode n x).
  { intros n x. apply take_ge.
    clear. revert x. induction n; intros x; simpl; [lia|].
    specialize (IHn (x / 256)). lia. }
  rewrite Htake, le_decode_encode.
  rewrite Z2Nat.id by lia.
  rewrite pow256 by lia. unfold wrap.
  rewrite Z.mod_mod by (apply Z.pow_nonzero; lia).
  reflexivity.
Qed.

Lemma vfio_region_write_read_roundtrip_witness :
  exists w1 w2,
    vfio_region_write region0 16 74565 2 (world0 host_register) = Ret tt w1
    /\ vfio_region_read region0 16 2 w1 = Ret (74565 mod 2 ^ (8 * 2)) w2.
Proof.
  apply (vfio_region_write_read_roundtrip region0 16 74565 2
           (world0 host_register)
           {| dev_fd := 5; dev_group := 200; needs_reset := false |}).
  - reflexivity.
  - right; left; reflexivity.
  - reflexivity.
  - intros t buf count off. simpl.
    assert (H : forall t', last_pwrite
                  (t' ++ [Sys (PWRITE 5 buf count off) (Ok count []);
                          Op vfio_eoi 100]) = Some buf).
    { induction t' as [|e t' IH]; simpl; [reflexivity|].
      rewrite IH. reflexivity. }
    rewrite H. reflexivity.
Defined.

(** X3: an access of a width other than 1, 2 or 4 bytes (of at most the
    8 bytes of the buffer).  A write aborts before the device is
    touched.  A read issues its pread first: it aborts when the pread
    completes, and returns all-ones, as for any failed read, when it
    does not.  Whatever happens, the end-of-interrupt hook is not
    invoked. *)
Theorem vfio_region_unsupported_width region addr data size w dev :
  devices w !! vbasedev region = Some dev ->
  0 <= size <= 8 ->
  size <> 1 -> size <> 2 -> size <> 4 ->
  let r := host (env w) (trace w) (region_pread region dev addr size) in
  let w1 := after_syscall (region_pread region dev addr size) w in
  vfio_region_write region addr data size w = Abort w
  /\ (ret_of r = size -> vfio_region_read region addr size w = Abort w1)
  /\ (ret_of r <> size ->
      vfio_region_read region addr size w = Ret UINT64_MAX w1)
  /\ trace w1 = trace w ++ [Sys (region_pread region dev addr size) r].
Proof.
  intros Hdev _ H1 H2 H4 r w1.
  apply Z.eqb_neq in H1, H2, H4.
  split.
  { unfold vfio_region_write. rewrite H1, H2, H4. reflexivity. }
  split.
  { intros Hr. unfold vfio_region_read.
    rewrite (bind_Ret _ _ _ _ _ (get_device_Some _ _ _ Hdev)).
    fold (region_pread region dev addr size).
    rewrite (bind_Ret _ _ _ _ _ (syscall_eq _ _)).
    fold r. rewrite Hr, Z.eqb_refl, H1, H2, H4. reflexivity. }
  split.
  { intros Hr. apply vfio_region_read_mismatch; assumption. }
  apply after_syscall_trace.
Qed.

Lemma vfio_region_unsupported_width_witness :
  vfio_region_write region0 0 7 8 (world0 host_register)
  = Abort (world0 host_register)
  /\ exists w1, vfio_region_read region0 0 8 (world0 host_register) = Abort w1.
Proof.
  destruct (vfio_region_unsupported_width region0 0 7 8 (world0 host_register)
              {| dev_fd := 5; dev_group := 200; needs_reset := false |})
    as (Hw & Hr & _); try reflexivity; try discriminate; [lia|].
  split; [exact Hw|]. eexists. apply Hr. reflexivity.
Defined.

(** ** The DMA engine and the guest-IOMMU bridge *)

Lemma same_heap_refl w : same_heap w w.
Proof. repeat split. Qed.

Lemma same_heap_trans w1 w2 w3 :
  same_heap w1 w2 -> same_heap w2 w3 -> same_heap w1 w3.
Proof.
  unfold same_heap. intros H1 H2.
  destruct H1 as (?&?&?&?&?&?&?&?), H2 as (?&?&?&?&?&?&?&?).
  repeat split; congruence.
Qed.

Lemma same_heap_after_syscall c w : same_heap w (after_syscall c w).
Proof.
  unfold after_syscall. destruct (host _ _ _); repeat split.
Qed.

Lemma vfio_dma_unmap_frame container c iova size w :
  containers w !! container = Some c ->
  exists r w',
    vfio_dma_unmap container iova size w = Ret r w'
    /\ same_heap w w'
    /\ trace w'
       = trace w ++ [Sys (dma_unmap_call c iova size)
                       (host (env w) (trace w) (dma_unmap_call c iova size))].
Proof.
  intros Hc. rewrite (vfio_dma_unmap_eq _ _ _ _ _ Hc). cbv zeta.
  eexists _, _. split; [reflexivity|].
  split; [apply same_heap_after_syscall | apply after_syscall_trace].
Qed.

Lemma vfio_dma_map_frame container c iova size vaddr readonly w :
  containers w !! container = Some c ->
  exists r w' t,
    vfio_dma_map container iova size vaddr readonly w = Ret r w'
    /\ same_heap w w'
    /\ trace w'
       = trace w
         ++ Sys (dma_map_call c iova size vaddr readonly)
              (host (env w) (trace w)
                 (dma_map_call c iova size vaddr readonly)) :: t
    /\ (length t <= 2)%nat
    /\ Forall (fun e => is_dma_call_for (container_fd c) iova size e = true) t.
Proof.
  intros Hc. unfold vfio_dma_map.
  rewrite (bind_Ret _ _ _ _ _ (get_container_Some _ _ _ Hc)).
  fold (dma_map_call c iova size vaddr readonly).
  set (map := dma_map_call c iova size vaddr readonly).
  rewrite (bind_Ret _ _ _ _ _ (syscall_eq _ _)).
  set (w1 := after_syscall map w).
  pose proof (same_heap_after_syscall map w) as Hs1. fold w1 in Hs1.
  pose proof (after_syscall_trace map w) as Ht1. fold w1 in Ht1.
  assert (Hc1 : containers w1 !! container = Some c).
  { destruct Hs1 as (_&_&_&E&_). rewrite E. exact Hc. }
  assert (Hin : forall r, is_dma_call_for (container_fd c) iova size
                            (Sys map r) = true /\
                          is_dma_call_for (container_fd c) iova size
                            (Sys (dma_unmap_call c iova size) r) = true).
  { intros r. unfold map, dma_map_call, dma_unmap_call. simpl.
    rewrite !Z.eqb_refl. auto. }
  destruct (ret_of (host (env w) (trace w) map) =? 0).
  { exists 0, w1, []. repeat split; try apply Hs1; auto; simpl; lia. }
  unfold bind at 1. unfold get_errno at 1.
  destruct (errno w1 =? EBUSY).
  2: { eexists _, w1, []. split; [reflexivity|].
       repeat split; try apply Hs1; auto; simpl; lia. }
  destruct (vfio_dma_unmap_frame container c iova size w1 Hc1)
    as (u & w2 & Hu & Hs2 & Ht2).
  rewrite (bind_Ret _ _ _ _ _ Hu).
  pose proof (same_heap_trans _ _ _ Hs1 Hs2) as Hs12.
  destruct (u =? 0).
  - rewrite (bind_Ret _ _ _ _ _ (syscall_eq _ _)).
    pose proof (same_heap_trans _ _ _ Hs12
                  (same_heap_after_syscall map w2)) as Hs3.
    destruct (ret_of (host (env w2) (trace w2) map) =? 0);
      eexists _, _, [_; _]; (split; [reflexivity|]);
      (split; [exact Hs3|]);
      (split; [rewrite after_syscall_trace, Ht2, Ht1, <- !app_assoc;
               reflexivity|]);
      (split; [simpl; lia|]);
      repeat constructor; apply Hin.
  - eexists _, _, [_]. split; [reflexivity|].
    split; [exact Hs12|].
    split; [rewrite Ht2, Ht1, <- !app_assoc; reflexivity|].
    split; [simpl; lia|].
    repeat constructor; apply Hin.
Qed.

(** X4: the guest-IOMMU bridge.  A notification whose target is not RAM,
    or whose translation the address space truncates below the guest's
    page, is dropped without any host call.  Otherwise a notification
    without access rights issues exactly one unmap of the guest page, and
    one with access rights maps it (with the retry protocol of the DMA
    engine), read-only unless the guest grants write access and the
    backing region is writable.  The bridge never changes the registries. *)
Theorem vfio_iommu_map_notify_spec giommu iotlb w c m xlat len :
  containers w !! giommu_container giommu = Some c ->
  address_space_translate (env w) (translated_addr iotlb)
    (wrap64 (addr_mask iotlb + 1))
    (negb (Z.land (perm iotlb) IOMMU_WO =? 0))
  = (m, xlat, len) ->
  let sz := wrap64 (addr_mask iotlb + 1) in
  let ro := (Z.land (perm iotlb) IOMMU_WO =? 0) || mr_readonly m in
  exists w',
    vfio_iommu_map_notify giommu iotlb w = Ret tt w'
    /\ same_heap w w'
    /\ (mr_is_ram m = false \/ Z.land len (addr_mask iotlb) <> 0 -> w' = w)
    /\ (mr_is_ram m = true -> Z.land len (addr_mask iotlb) = 0 ->
        Z.land (perm iotlb) IOMMU_RW = IOMMU_NONE ->
        trace w'
        = trace w ++ [Sys (dma_unmap_call c (iova iotlb) sz)
                        (host (env w) (trace w)
                           (dma_unmap_call c (iova iotlb) sz))])
    /\ (mr_is_ram m = true -> Z.land len (addr_mask iotlb) = 0 ->
        Z.land (perm iotlb) IOMMU_RW <> IOMMU_NONE ->
        exists t,
          trace w'
          = trace w
            ++ Sys (dma_map_call c (iova iotlb) sz
                      (wrap64 (mr_ram_ptr m + xlat)) ro)
                 (host (env w) (trace w)
                    (dma_map_call c (iova iotlb) sz
                       (wrap64 (mr_ram_ptr m + xlat)) ro)) :: t
          /\ (length t <= 2)%nat
          /\ Forall (fun e => is_dma_call_for (container_fd c) (iova iotlb)
                                sz e = true) t).
Proof.
  intros Hc Htr sz ro.
  unfold vfio_iommu_map_notify.
  unfold bind at 1. unfold get_env at 1. rewrite Htr.
  destruct (mr_is_ram m) eqn:Hram; cbn [negb]; cbv beta iota.
  2: { exists w. split; [reflexivity|]. split; [apply same_heap_refl|].
       repeat split; intros; congruence. }
  destruct (Z.land len (addr_mask iotlb) =? 0) eqn:Hlen; cbn [negb]; cbv beta iota.
  2: { apply Z.eqb_neq in Hlen.
       exists w. split; [reflexivity|]. split; [apply same_heap_refl|].
       repeat split; intros; congruence. }
  apply Z.eqb_eq in Hlen.
  destruct (Z.land (perm iotlb) IOMMU_RW =? IOMMU_NONE) eqn:Hp;
    cbn [negb]; cbv beta iota.
  - apply Z.eqb_eq in Hp.
    destruct (vfio_dma_unmap_frame _ c (iova iotlb) sz w Hc)
      as (r & w' & Hu & Hs & Ht).
    exists w'. cbv zeta. fold sz. rewrite (bind_Ret _ _ _ _ _ Hu).
    split; [reflexivity|]. split; [exact Hs|].
    split; [intros [H|H]; congruence|].
    split; [intros; exact Ht|]. intros; congruence.
  - apply Z.eqb_neq in Hp.
    destruct (vfio_dma_map_frame _ c (iova iotlb) sz
                (wrap64 (mr_ram_ptr m + xlat)) ro w Hc)
      as (r & w' & t & Hm & Hs & Ht & Hl & Hf).
    exists w'. cbv zeta. fold sz. fold ro. rewrite (bind_Ret _ _ _ _ _ Hm).
    split; [reflexivity|]. split; [exact Hs|].
    split; [intros [H|H]; congruence|].
    split; [intros; congruence|].
    intros _ _ _. exists t. auto.
Qed.

Lemma vfio_iommu_map_notify_spec_witness :
  exists w',
    vfio_iommu_map_notify {| giommu_container := 250; giommu_iommu := 9 |}
      iotlb0 (world0 (fun _ _ => Ok 0 []))
    = Ret tt w'
    /\ exists t,
         trace w' = Sys (VFIO_IOMMU_MAP_DMA 7 1 4096 8192 4096) (Ok 0 []) :: t.
Proof.
  destruct (vfio_iommu_map_notify_spec
              {| giommu_container := 250; giommu_iommu := 9 |} iotlb0
              (world0 (fun _ _ => Ok 0 [])) (container0 [200])
              {| mr_addr := 1; mr_is_ram := true; mr_is_iommu := false;
                 mr_readonly := false; mr_ram_ptr := 0 |}
              4096 4096 eq_refl eq_refl)
    as (w' & H & _ & _ & _ & Hmap).
  exists w'. split; [exact H|].
  destruct Hmap as (t & Ht & _); try reflexivity; [discriminate|].
  exists t. rewrite Ht. reflexivity.
Defined.

(** ** The page granularity of a container *)

Lemma ctz_pos_spec p :
  0 <= ctz_pos p
  /\ 2 ^ ctz_pos p <= Zpos p
  /\ Z.testbit (Zpos p) (ctz_pos p) = true
  /\ forall j, 0 <= j < ctz_pos p -> Z.testbit (Zpos p) j = false.
Proof.
  induction p as [p IH | p IH |].
  - cbn [ctz_pos]. split; [lia|].
    split; [change (2 ^ 0) with 1; pose proof (Pos2Z.is_pos p~1); lia|].
    split; [reflexivity | intros; lia].
  - destruct IH as (H0 & Hle & Hbit & Hlow). cbn [ctz_pos].
    split; [lia|].
    change (Z.pos p~0) with (2 * Z.pos p).
    split.
    { replace (1 + ctz_pos p) with (Z.succ (ctz_pos p)) by lia.
      rewrite Z.pow_succ_r by lia. lia. }
    split.
    { replace (1 + ctz_pos p) with (Z.succ (ctz_pos p)) by lia.
      rewrite Z.testbit_even_succ by lia. exact Hbit. }
    intros j Hj. destruct (Z.eq_dec j 0) as [->|Hne].
    + apply Z.testbit_even_0.
    + replace j with (Z.succ (j - 1)) by lia.
      rewrite Z.testbit_even_succ by lia. apply Hlow. lia.
  - cbn [ctz_pos]. split; [lia|]. split; [simpl; lia|].
    split; [reflexivity | intros; lia].
Qed.

(** X5: the granularity of a container is the smallest page size of its
    page-size bitmap: a power of two whose bit is set in the bitmap while
    no lower bit is. *)
Theorem vfio_container_granularity_lowest c :
  0 < iova_pgsizes c < 2 ^ 64 ->
  exists k,
    0 <= k < 64
    /\ vfio_container_granularity c = 2 ^ k
    /\ Z.testbit (iova_pgsizes c) k = true
    /\ forall j, 0 <= j < k -> Z.testbit (iova_pgsizes c) j = false.
Proof.
  intros Hx. unfold vfio_container_granularity, ctz64, wrap64, wrap.
  rewrite (Z.mod_small (iova_pgsizes c)) by lia.
  destruct (iova_pgsizes c) as [|p|p] eqn:E; try lia.
  destruct (ctz_pos_spec p) as (H0 & Hle & Hbit & Hlow).
  assert (Hk : ctz_pos p < 64).
  { destruct (Z_lt_ge_dec (ctz_pos p) 64) as [|Hge]; [assumption|].
    exfalso.
    assert (2 ^ 64 <= 2 ^ ctz_pos p) by (apply Z.pow_le_mono_r; lia).
    lia. }
  exists (ctz_pos p). split; [lia|].
  split.
  { rewrite Z.shiftl_1_l. apply Z.mod_small.
    split; [apply Z.pow_nonneg; lia|].
    apply Z.pow_lt_mono_r; lia. }
  split; assumption.
Qed.

Lemma vfio_container_granularity_lowest_witness :
  exists k,
    0 <= k < 64
    /\ vfio_container_granularity (container0 []) = 2 ^ k
    /\ Z.testbit 4096 k = true.
Proof.
  destruct (vfio_container_granularity_lowest (container0 []))
    as (k & Hk & Hg & Hb & _).
  - simpl. lia.
  - exists k. auto.
Defined.

(** ** Memory listener: the interval of a section *)

(** The arithmetic of the interval: in the lower half of the address
    space both ends are multiples of the page size, the start is rounded
    up by less than a page and the end is rounded down by less than a
    page. *)
Lemma section_interval_bounds e s :
  0 <= TARGET_PAGE_BITS e <= 62 ->
  0 <= offset_within_address_space s < 2 ^ 63 ->
  0 <= size s <= 2 ^ 64 ->
  let page := 2 ^ TARGET_PAGE_BITS e in
  let oas := offset_within_address_space s in
  section_iova e s mod page = 0
  /\ section_llend e s mod page = 0
  /\ oas <= section_iova e s < oas + page
  /\ oas + size s - page < section_llend e s <= oas + size s.
Proof.
  intros Hb Ho Hs page oas.
  assert (Hp : 0 < page) by (apply Z.pow_pos_nonneg; lia).
  assert (Hp62 : page <= 2 ^ 62) by (apply Z.pow_le_mono_r; lia).
  unfold section_iova, section_llend, TARGET_PAGE_ALIGN, TARGET_PAGE_MASK,
    TARGET_PAGE_SIZE, int128_and, int128_add, int128_make64, int128_exts64,
    int128_wrap, wrap64, wrap.
  fold oas. fold page.
  rewrite (Z.mod_small (oas + size s + 2 ^ 127) (2 ^ 128)) by lia.
  replace (oas + size s + 2 ^ 127 - 2 ^ 127) with (oas + size s) by lia.
  unfold page. rewrite !land_page_mask by lia. fold page.
  pose proof (Z.div_mod (oas + page - 1) page ltac:(lia)) as Hd1.
  pose proof (Z.mod_pos_bound (oas + page - 1) page Hp) as Hm1.
  pose proof (Z.div_mod (oas + size s) page ltac:(lia)) as Hd2.
  pose proof (Z.mod_pos_bound (oas + size s) page Hp) as Hm2.
  rewrite (Z.mod_small (page * ((oas + page - 1) / page)) (2 ^ 64)) by lia.
  rewrite !(Z.mul_comm page), !Z.mod_mul by lia.
  repeat split; lia.
Qed.

(** ** Memory listener: region_add on a section that it acts on *)

Lemma section_mapped_true e s :
  section_mapped e s = true ->
  vfio_listener_skipped_section s = false
  /\ (page_offset e (offset_within_address_space s)
      =? page_offset e (offset_within_region s)) = true
  /\ section_iova e s < section_llend e s.
Proof.
  unfold section_mapped. intros H.
  apply andb_true_iff in H. destruct H as [H H3].
  apply andb_true_iff in H. destruct H as [H1 H2].
  apply negb_true_iff in H1, H3.
  unfold int128_ge, int128_make64 in H3. apply Z.leb_gt in H3. auto.
Qed.

Lemma region_add_mapped_eq container c s w :
  section_mapped (env w) s = true ->
  section_llend (env w) s < 2 ^ 64 ->
  containers w !! container = Some c ->
  vfio_listener_region_add container s w
  = region_add_body container s (env w) c w.
Proof.
  intros Hm Hl Hc.
  destruct (section_mapped_true _ _ Hm) as (Hskip & Hal & Hlt).
  pose proof (section_iova_range (env w) s) as Hiova.
  unfold vfio_listener_region_add.
  unfold bind at 1. unfold get_env at 1.
  rewrite Hskip, Hal. cbn [negb]. cbv beta iota zeta.
  fold (section_iova (env w) s). fold (section_llend (env w) s).
  assert (Hge : int128_ge (int128_make64 (section_iova (env w) s))
                  (section_llend (env w) s) = false)
    by (unfold int128_ge, int128_make64; apply Z.leb_gt; exact Hlt).
  rewrite Hge.
  unfold bind at 1. unfold int128_get64 at 1.
  assert (Hr : (0 <=? section_llend (env w) s)
               && (section_llend (env w) s <? 2 ^ 64) = true).
  { apply andb_true_iff. split; [apply Z.leb_le | apply Z.ltb_lt]; lia. }
  rewrite Hr. unfold ret at 1. cbv beta iota.
  rewrite (bind_Ret _ _ _ _ _ (get_container_Some _ _ _ Hc)).
  reflexivity.
Qed.

Lemma section_len_wrap e s :
  section_iova e s < section_llend e s ->
  section_llend e s < 2 ^ 64 ->
  wrap64 (section_llend e s - section_iova e s)
  = section_llend e s - section_iova e s.
Proof.
  intros H1 H2. pose proof (section_iova_range e s).
  unfold wrap64, wrap. apply Z.mod_small. lia.
Qed.

Lemma vfio_dma_map_first_ok container c iova size vaddr readonly w :
  containers w !! container = Some c ->
  ret_of (host (env w) (trace w) (dma_map_call c iova size vaddr readonly))
  = 0 ->
  vfio_dma_map container iova size vaddr readonly w
  = Ret 0 (after_syscall (dma_map_call c iova size vaddr readonly) w).
Proof.
  intros Hc Hok. unfold vfio_dma_map.
  rewrite (bind_Ret _ _ _ _ _ (get_container_Some _ _ _ Hc)).
  fold (dma_map_call c iova size vaddr readonly).
  rewrite (bind_Ret _ _ _ _ _ (syscall_eq _ _)).
  rewrite Hok. reflexivity.
Qed.

Lemma vfio_dma_map_first_err container c iova size vaddr readonly w e :
  containers w !! container = Some c ->
  host (env w) (trace w) (dma_map_call c iova size vaddr readonly) = Err e ->
  e <> EBUSY ->
  vfio_dma_map container iova size vaddr readonly w
  = Ret (- e) (after_syscall (dma_map_call c iova size vaddr readonly) w).
Proof.
  intros Hc Herr He. unfold vfio_dma_map.
  rewrite (bind_Ret _ _ _ _ _ (get_container_Some _ _ _ Hc)).
  fold (dma_map_call c iova size vaddr readonly).
  rewrite (bind_Ret _ _ _ _ _ (syscall_eq _ _)).
  rewrite Herr. cbn [ret_of]. change (-1 =? 0) with false. cbv iota.
  unfold bind at 1. unfold get_errno at 1.
  assert (Hen : errno (after_syscall (dma_map_call c iova size vaddr readonly)
                         w) = e).
  { unfold after_syscall. rewrite Herr. reflexivity. }
  rewrite Hen. apply Z.eqb_neq in He. rewrite He.
  unfold bind, get_errno, ret. rewrite Hen. reflexivity.
Qed.

Lemma region_add_fail_eq container c r w :
  containers w !! container = Some c ->
  region_add_fail container r w
  = if initialized c then Abort w
    else if container_error c =? 0
         then Ret tt (set_containers
                        (<[container := set_container_error r c]>
                           (containers w)) w)
         else Ret tt w.
Proof.
  intros Hc. unfold region_add_fail.
  rewrite (bind_Ret _ _ _ _ _ (get_container_Some _ _ _ Hc)).
  destruct (initialized c); [reflexivity|]. cbn [negb]. cbv iota.
  destruct (container_error c =? 0); reflexivity.
Qed.

(** X7: region_add of a RAM section inside the window of its container,
    when the kernel accepts the map at once: the section's region is
    referenced and exactly one map is issued, for the page-aligned
    interval of the section, at the host address that backs its first
    mapped byte, writable unless the section is read-only; nothing else
    changes. *)
Theorem vfio_listener_region_add_ram container c s w :
  section_mapped (env w) s = true ->
  section_llend (env w) s < 2 ^ 64 ->
  containers w !! container = Some c ->
  in_window (env w) s c = true ->
  mr_is_iommu (mr s) = false ->
  ret_of (host (env w)
            (trace w ++ [memory_region_ref (mr_addr (mr s))])
            (section_map (env w) s c)) = 0 ->
  exists w',
    vfio_listener_region_add container s w = Ret tt w'
    /\ same_heap w w'
    /\ trace w'
       = trace w
         ++ [memory_region_ref (mr_addr (mr s));
             Sys (section_map (env w) s c)
               (host (env w)
                  (trace w ++ [memory_region_ref (mr_addr (mr s))])
                  (section_map (env w) s c))].
Proof.
  intros Hm Hl Hc Hwin Hio Hok.
  destruct (section_mapped_true _ _ Hm) as (_ & _ & Hlt).
  rewrite (region_add_mapped_eq _ _ _ _ Hm Hl Hc).
  unfold region_add_body. cbv zeta.
  unfold in_window in Hwin. apply negb_true_iff in Hwin. rewrite Hwin, Hio.
  rewrite (section_len_wrap _ _ Hlt Hl).
  fold (section_vaddr (env w) s).
  unfold bind at 1. unfold emit at 1.
  set (w0 := set_trace (trace w ++ [memory_region_ref (mr_addr (mr s))]) w).
  assert (Hc0 : containers w0 !! container = Some c) by exact Hc.
  fold (section_map (env w) s c) in Hok.
  rewrite (bind_Ret _ _ _ _ _
             (vfio_dma_map_first_ok _ _ _ _ _ _ w0 Hc0 Hok)).
  change (negb (0 =? 0)) with false. cbv iota.
  eexists. split; [reflexivity|].
  split.
  - apply (same_heap_trans w w0); [|apply same_heap_after_syscall].
    unfold same_heap, w0. simpl. repeat split.
  - rewrite after_syscall_trace. unfold w0. simpl.
    rewrite <- app_assoc. reflexivity.
Qed.

Lemma vfio_listener_region_add_ram_witness :
  exists w',
    vfio_listener_region_add 250 page_section
      (world0 (fun _ _ => Ok 0 [])) = Ret tt w'
    /\ trace w'
       = [memory_region_ref 1;
          Sys (VFIO_IOMMU_MAP_DMA 7 VFIO_DMA_MAP_FLAG_READ
                 (mr_ram_ptr ram0 + 4096) 4096 4096) (Ok 0 [])].
Proof.
  destruct (vfio_listener_region_add_ram 250 (container0 [200]) page_section
              (world0 (fun _ _ => Ok 0 [])))
    as (w' & Hr & _ & Ht); try reflexivity.
  exists w'. split; [exact Hr|]. rewrite Ht. reflexivity.
Defined.

(** X8: region_add of a section that reaches outside the IOVA window of
    the container never calls the kernel and takes no reference: while
    the container is being set up it records -EFAULT in the container's
    error slot if the slot is empty and leaves a recorded error alone;
    on a container in use it aborts. *)
Theorem vfio_listener_region_add_outside_window container c s w :
  section_mapped (env w) s = true ->
  section_llend (env w) s < 2 ^ 64 ->
  containers w !! container = Some c ->
  in_window (env w) s c = false ->
  vfio_listener_region_add container s w
  = if initialized c then Abort w
    else if container_error c =? 0
         then Ret tt (set_containers
                        (<[container := set_container_error (- EFAULT) c]>
                           (containers w)) w)
         else Ret tt w.
Proof.
  intros Hm Hl Hc Hwin.
  rewrite (region_add_mapped_eq _ _ _ _ Hm Hl Hc).
  unfold region_add_body. cbv zeta.
  unfold in_window in Hwin. apply negb_false_iff in Hwin. rewrite Hwin.
  apply region_add_fail_eq. exact Hc.
Qed.

Lemma vfio_listener_region_add_outside_window_witness :
  vfio_listener_region_add 250 ram_section
    (world_setup (fun _ _ => Ok 0 []) 0)
  = Ret tt (world_setup (fun _ _ => Ok 0 []) (- EFAULT))
  /\ vfio_listener_region_add 250 ram_section
       (world_setup (fun _ _ => Ok 0 []) (- EINVAL))
     = Ret tt (world_setup (fun _ _ => Ok 0 []) (- EINVAL)).
Proof.
  split.
  - rewrite (vfio_listener_region_add_outside_window 250 (container_setup 0));
      reflexivity.
  - rewrite (vfio_listener_region_add_outside_window 250
               (container_setup (- EINVAL))); reflexivity.
Defined.

(** X9: region_add of a RAM section whose map the kernel refuses with an
    error other than EBUSY and 0: one map is tried and the reference
    taken on the section's region is kept; while the container is being
    set up the negated error code is recorded in the container's error
    slot if the slot is empty, and a recorded error is left alone; on a
    container in use the failure aborts. *)
Theorem vfio_listener_region_add_map_fails container c s w e :
  section_mapped (env w) s = true ->
  section_llend (env w) s < 2 ^ 64 ->
  containers w !! container = Some c ->
  in_window (env w) s c = true ->
  mr_is_iommu (mr s) = false ->
  host (env w) (trace w ++ [memory_region_ref (mr_addr (mr s))])
    (section_map (env w) s c) = Err e ->
  e <> EBUSY -> e <> 0 ->
  let w1 := after_syscall (section_map (env w) s c)
              (set_trace (trace w ++ [memory_region_ref (mr_addr (mr s))])
                 w) in
  trace w1 = trace w ++ [memory_region_ref (mr_addr (mr s));
                         Sys (section_map (env w) s c) (Err e)]
  /\ containers w1 = containers w
  /\ vfio_listener_region_add container s w
     = if initialized c then Abort w1
       else if container_error c =? 0
            then Ret tt (set_containers
                           (<[container := set_container_error (- e) c]>
                              (containers w)) w1)
            else Ret tt w1.
Proof.
  intros Hm Hl Hc Hwin Hio Herr He He0 w1.
  destruct (section_mapped_true _ _ Hm) as (_ & _ & Hlt).
  set (w0 := set_trace (trace w ++ [memory_region_ref (mr_addr (mr s))]) w)
    in *.
  assert (Hc0 : containers w0 !! container = Some c) by exact Hc.
  assert (Ht1 : trace w1 = trace w ++ [memory_region_ref (mr_addr (mr s));
                                       Sys (section_map (env w) s c) (Err e)]).
  { unfold w1. rewrite after_syscall_trace. unfold w0. simpl.
    rewrite <- app_assoc. simpl. change (env (set_trace _ w)) with (env w).
    rewrite Herr. reflexivity. }
  assert (Hc1 : containers w1 = containers w).
  { unfold w1. rewrite after_syscall_containers. reflexivity. }
  split; [exact Ht1|]. split; [exact Hc1|].
  rewrite (region_add_mapped_eq _ _ _ _ Hm Hl Hc).
  unfold region_add_body. cbv zeta.
  unfold in_window in Hwin. apply negb_true_iff in Hwin. rewrite Hwin, Hio.
  rewrite (section_len_wrap _ _ Hlt Hl).
  fold (section_vaddr (env w) s).
  unfold bind at 1. unfold emit at 1. fold w0.
  rewrite (bind_Ret _ _ _ _ _
             (vfio_dma_map_first_err _ _ _ _ _ _ w0 e Hc0 Herr He)).
  fold (section_map (env w) s c). fold w1.
  assert (Hne : (- e =? 0) = false) by (apply Z.eqb_neq; lia).
  rewrite Hne. cbn [negb]. cbv iota.
  rewrite (region_add_fail_eq container c (- e) w1) by (rewrite Hc1; exact Hc).
  rewrite Hc1. reflexivity.
Qed.

Lemma vfio_listener_region_add_map_fails_witness :
  exists w1,
    vfio_listener_region_add 250 page_section
      (world_setup (fun _ _ => Err EINVAL) 0)
    = Ret tt (set_containers {[ 250 := container_setup (- EINVAL) ]} w1)
    /\ trace w1
       = [memory_region_ref 1;
          Sys (VFIO_IOMMU_MAP_DMA 7 VFIO_DMA_MAP_FLAG_READ
                 (mr_ram_ptr ram0 + 4096) 4096 4096) (Err EINVAL)].
Proof.
  destruct (vfio_listener_region_add_map_fails 250 (container_setup 0)
              page_section (world_setup (fun _ _ => Err EINVAL) 0) EINVAL)
    as (Ht & _ & Hr); try reflexivity; try discriminate.
  eexists. split; [rewrite Hr; reflexivity|]. exact Ht.
Defined.

(** ** Memory listener: sections of a guest IOMMU *)

Lemma vfio_iommu_map_notify_frame giommu iotlb w c :
  containers w !! giommu_container giommu = Some c ->
  exists w' t,
    vfio_iommu_map_notify giommu iotlb w = Ret tt w'
    /\ same_heap w w'
    /\ trace w' = trace w ++ t.
Proof.
  intros Hc. unfold vfio_iommu_map_notify.
  unfold bind at 1. unfold get_env at 1.
  destruct (address_space_translate _ _ _ _) as [[m xlat] len].
  destruct (mr_is_ram m); cbn [negb]; cbv beta iota.
  2: { exists w, []. split; [reflexivity|]. split; [apply same_heap_refl|].
       symmetry; apply app_nil_r. }
  destruct (Z.land len (addr_mask iotlb) =? 0); cbn [negb]; cbv beta iota.
  2: { exists w, []. split; [reflexivity|]. split; [apply same_heap_refl|].
       symmetry; apply app_nil_r. }
  destruct (Z.land (perm iotlb) IOMMU_RW =? IOMMU_NONE);
    cbn [negb]; cbv beta iota.
  - destruct (vfio_dma_unmap_frame _ c (iova iotlb)
                (wrap64 (addr_mask iotlb + 1)) w Hc)
      as (r & w' & Hu & Hs & Ht).
    exists w'. eexists. cbv zeta. rewrite (bind_Ret _ _ _ _ _ Hu).
    split; [reflexivity|]. split; [exact Hs | exact Ht].
  - destruct (vfio_dma_map_frame _ c (iova iotlb)
                (wrap64 (addr_mask iotlb + 1))
                (wrap64 (mr_ram_ptr m + xlat))
                ((Z.land (perm iotlb) IOMMU_WO =? 0) || mr_readonly m) w Hc)
      as (r & w' & t & Hm & Hs & Ht & _).
    exists w'. eexists. cbv zeta. rewrite (bind_Ret _ _ _ _ _ Hm).
    split; [reflexivity|]. split; [exact Hs | exact Ht].
Qed.

Lemma notify_all_frame giommu l : forall w c,
  containers w !! giommu_container giommu = Some c ->
  exists w' t,
    notify_all giommu l w = Ret tt w'
    /\ same_heap w w'
    /\ trace w' = trace w ++ t.
Proof.
  induction l as [|iotlb l IH]; intros w c Hc.
  - exists w, []. split; [reflexivity|]. split; [apply same_heap_refl|].
    symmetry; apply app_nil_r.
  - destruct (vfio_iommu_map_notify_frame giommu iotlb w c Hc)
      as (w1 & t1 & H1 & Hs1 & Ht1).
    assert (Hc1 : containers w1 !! giommu_container giommu = Some c).
    { destruct Hs1 as (_&_&_&E&_). rewrite E. exact Hc. }
    destruct (IH w1 c Hc1) as (w2 & t2 & H2 & Hs2 & Ht2).
    exists w2, (t1 ++ t2). cbn [notify_all].
    rewrite (bind_Ret _ _ _ _ _ H1).
    split; [exact H2|]. split; [exact (same_heap_trans _ _ _ Hs1 Hs2)|].
    rewrite Ht2, Ht1, app_assoc. reflexivity.
Qed.

Lemma region_del_mapped_eq container s w :
  0 <= TARGET_PAGE_BITS (env w) <= 64 ->
  0 <= offset_within_address_space s < 2 ^ 64 ->
  0 <= size s < 2 ^ 64 ->
  section_mapped (env w) s = true ->
  section_llend (env w) s < 2 ^ 64 ->
  vfio_listener_region_del container s w
  = region_del_body container s (env w) w.
Proof.
  intros Hb Ho Hs Hm Hl.
  destruct (section_mapped_true _ _ Hm) as (Hskip & Hal & Hlt).
  destruct (section_end_agree (env w) s Hb Ho ltac:(lia) Hl)
    as (_ & _ & Hend).
  unfold vfio_listener_region_del, region_del_body.
  unfold bind at 1. unfold get_env at 1.
  rewrite Hskip, Hal. cbn [negb]. cbv beta iota zeta.
  fold (section_iova (env w) s).
  unfold bind at 1. unfold bind at 3.
  destruct (region_del_giommu container s w) as [[] w1| |]; try reflexivity.
  unfold bind at 1. unfold int128_get64 at 1.
  assert (Hr : (0 <=? size s) && (size s <? 2 ^ 64) = true).
  { apply andb_true_iff. split; [apply Z.leb_le | apply Z.ltb_lt]; lia. }
  rewrite Hr. unfold ret at 1. cbv beta iota.
  rewrite Hend.
  assert (Hle : (section_llend (env w) s <=? section_iova (env w) s) = false)
    by (apply Z.leb_gt; exact Hlt).
  rewrite Hle. rewrite (section_len_wrap _ _ Hlt Hl). reflexivity.
Qed.

Lemma set_giommu_list_undo g c :
  set_giommu_list (giommu_list c)
    (set_giommu_list (g :: giommu_list c) c) = c.
Proof. destruct c. reflexivity. Qed.

(** X10: adding a section of a guest IOMMU and removing it again leaves
    the container as it was.  region_add references the region, binds
    the guest IOMMU at the head of the container's list, registers the
    notifier and replays the valid translations; region_del then
    unregisters the notifier, drops that binding, unmaps the whole
    page-aligned interval of the section once and drops the reference. *)
Theorem vfio_listener_iommu_add_del container c s w :
  0 <= TARGET_PAGE_BITS (env w) <= 64 ->
  0 <= offset_within_address_space s < 2 ^ 64 ->
  0 <= size s < 2 ^ 64 ->
  section_mapped (env w) s = true ->
  section_llend (env w) s < 2 ^ 64 ->
  containers w !! container = Some c ->
  in_window (env w) s c = true ->
  mr_is_iommu (mr s) = true ->
  let giommu := {| giommu_container := container;
                   giommu_iommu := mr_addr (mr s) |} in
  exists w1 w2 t,
    vfio_listener_region_add container s w = Ret tt w1
    /\ containers w1
       = <[container := set_giommu_list (giommu :: giommu_list c) c]>
           (containers w)
    /\ trace w1
       = trace w
         ++ memory_region_ref (mr_addr (mr s))
            :: memory_region_register_iommu_notifier (mr_addr (mr s)) :: t
    /\ vfio_listener_region_del container s w1 = Ret tt w2
    /\ same_heap w w2
    /\ trace w2
       = trace w1
         ++ [memory_region_unregister_iommu_notifier (mr_addr (mr s));
             Sys (section_unmap (env w) s c)
               (host (env w)
                  (trace w1
                   ++ [memory_region_unregister_iommu_notifier
                         (mr_addr (mr s))])
                  (section_unmap (env w) s c));
             memory_region_unref (mr_addr (mr s))].
Proof.
  intros Hb Ho Hs Hm Hl Hc Hwin Hio giommu.
  rewrite (region_add_mapped_eq _ _ _ _ Hm Hl Hc).
  unfold region_add_body. cbv zeta.
  unfold in_window in Hwin. apply negb_true_iff in Hwin. rewrite Hwin, Hio.
  fold giommu.
  unfold bind at 1. unfold emit at 1.
  unfold bind at 1. unfold put_container at 1.
  unfold bind at 1. unfold emit at 1.
  unfold memory_region_iommu_replay.
  unfold bind at 1. unfold get_env at 1.
  set (c' := set_giommu_list (giommu :: giommu_list c) c).
  set (w0 := set_trace _ (set_containers _ _)).
  assert (Hc0 : containers w0 !! giommu_container giommu = Some c').
  { unfold w0. simpl. apply lookup_insert_eq. }
  destruct (notify_all_frame giommu
              (iommu_valid_entries (env w0) (giommu_iommu giommu)
                 (vfio_container_granularity c)) w0 c' Hc0)
    as (w1 & t & Hn & Hs1 & Ht1).
  exists w1. eexists. exists t.
  split; [exact Hn|].
  destruct Hs1 as (He1 & Hd1 & Hg1 & Hcs1 & Hsp1 & Hgl1 & Has1 & Hk1).
  split; [rewrite Hcs1; reflexivity|].
  split.
  { rewrite Ht1. unfold w0. simpl. rewrite <- !app_assoc. reflexivity. }
  assert (Hm1 : section_mapped (env w1) s = true) by (rewrite He1; exact Hm).
  assert (Hl1 : section_llend (env w1) s < 2 ^ 64) by (rewrite He1; exact Hl).
  assert (Hb1 : 0 <= TARGET_PAGE_BITS (env w1) <= 64)
    by (rewrite He1; exact Hb).
  rewrite (region_del_mapped_eq container s w1 Hb1 Ho Hs Hm1 Hl1).
  unfold region_del_body, region_del_giommu. rewrite Hio.
  assert (Hc1 : containers w1 !! container = Some c').
  { rewrite Hcs1. exact Hc0. }
  unfold bind at 1.
  rewrite (bind_Ret _ _ _ _ _ (get_container_Some _ _ _ Hc1)).
  assert (Hrm : giommu_remove (mr_addr (mr s)) (giommu_list c')
                = Some (giommu_list c)).
  { destruct c. simpl. rewrite Z.eqb_refl. reflexivity. }
  rewrite Hrm.
  unfold bind at 1. unfold emit at 1. unfold put_container at 1.
  set (w2 := set_containers _ _).
  assert (Hcs2 : containers w2 = containers w).
  { unfold w2. simpl. rewrite Hcs1. unfold w0. simpl.
    unfold c'. rewrite set_giommu_list_undo.
    rewrite insert_insert_eq. apply insert_id. exact Hc. }
  assert (Hc2 : containers w2 !! container = Some c)
    by (rewrite Hcs2; exact Hc).
  rewrite He1. change (env w0) with (env w).
  rewrite (bind_Ret _ _ _ _ _ (vfio_dma_unmap_eq _ _ _ _ _ Hc2)).
  cbv zeta. unfold emit.
  split; [reflexivity|].
  split.
  - unfold same_heap. simpl.
    rewrite after_syscall_env, after_syscall_devices,
      after_syscall_containers.
    unfold after_syscall. simpl.
    destruct (host _ _ _); simpl;
      rewrite ?He1, ?Hd1, ?Hg1, ?Hsp1, ?Hgl1, ?Has1, ?Hk1, ?Hcs2;
      repeat split; exact Hcs2.
  - rewrite after_syscall_trace. unfold w2. simpl.
    rewrite He1. change (env w0) with (env w).
    rewrite <- !app_assoc. reflexivity.
Qed.

Lemma vfio_listener_iommu_add_del_witness :
  exists w1 w2,
    vfio_listener_region_add 250 iommu_section
      (world0 (fun _ _ => Ok 0 [])) = Ret tt w1
    /\ vfio_listener_region_del 250 iommu_section w1 = Ret tt w2
    /\ same_heap (world0 (fun _ _ => Ok 0 [])) w2.
Proof.
  destruct (vfio_listener_iommu_add_del 250 (container0 [200]) iommu_section
              (world0 (fun _ _ => Ok 0 []))
              ltac:(vm_compute; intuition congruence)
              ltac:(vm_compute; intuition congruence)
              ltac:(vm_compute; intuition congruence)
              ltac:(reflexivity) ltac:(reflexivity) ltac:(reflexivity)
              ltac:(reflexivity) ltac:(reflexivity))
    as (w1 & w2 & t & Ha & _ & _ & Hd & Hs & _).
  exists w1, w2. split; [exact Ha|]. split; [exact Hd | exact Hs].
Defined.

(** ** Memory listener: the interval of a RAM section *)

Lemma not_skipped_lower_half s :
  0 <= offset_within_address_space s < 2 ^ 64 ->
  vfio_listener_skipped_section s = false ->
  offset_within_address_space s < 2 ^ 63.
Proof.
  intros Ho Hskip. unfold vfio_listener_skipped_section in Hskip.
  apply orb_false_iff in Hskip. destruct Hskip as [_ Hbit].
  apply negb_false_iff in Hbit.
  change (Z.shiftl 1 63) with (2 ^ 63) in Hbit.
  rewrite land_pow2_eqb in Hbit by lia.
  apply negb_true_iff in Hbit.
  destruct (Z_lt_ge_dec (offset_within_address_space s) (2 ^ 63))
    as [Hlt|Hge]; [exact Hlt|].
  exfalso.
  rewrite Z.testbit_false in Hbit by lia.
  assert (Hq : offset_within_address_space s / 2 ^ 63 = 1).
  { symmetry.
    apply Z.div_unique with (r := offset_within_address_space s - 2 ^ 63);
      lia. }
  rewrite Hq in Hbit. discriminate.
Qed.

(** X6: the listener maps and unmaps the largest page-aligned interval
    inside a RAM section.  For a mappable RAM section that ends below
    2^64 and lies inside the window of its container, when the kernel
    accepts the map: region_add issues its one map, and region_del
    afterwards its one unmap, for the same (iova, len); both iova and
    len are multiples of the page size, len is positive, the interval
    starts less than a page after the start of the section and ends less
    than a page before its end. *)
Theorem vfio_listener_maps_aligned_interval container c s w :
  0 <= TARGET_PAGE_BITS (env w) <= 62 ->
  0 <= offset_within_address_space s ->
  0 <= size s ->
  offset_within_address_space s + size s < 2 ^ 64 ->
  section_mapped (env w) s = true ->
  containers w !! container = Some c ->
  in_window (env w) s c = true ->
  mr_is_iommu (mr s) = false ->
  ret_of (host (env w)
            (trace w ++ [memory_region_ref (mr_addr (mr s))])
            (section_map (env w) s c)) = 0 ->
  let page := 2 ^ TARGET_PAGE_BITS (env w) in
  let oas := offset_within_address_space s in
  let iova := section_iova (env w) s in
  let len := section_llend (env w) s - iova in
  let map := section_map (env w) s c in
  let unmap := VFIO_IOMMU_UNMAP_DMA (container_fd c) 0 iova len in
  let t0 := trace w ++ [memory_region_ref (mr_addr (mr s))] in
  let t1 := t0 ++ [Sys map (host (env w) t0 map)] in
  exists w1 w2 flags vaddr,
    map = VFIO_IOMMU_MAP_DMA (container_fd c) flags vaddr iova len
    /\ vfio_listener_region_add container s w = Ret tt w1
    /\ trace w1 = t1
    /\ vfio_listener_region_del container s w1 = Ret tt w2
    /\ trace w2
       = t1 ++ [Sys unmap (host (env w) t1 unmap);
                memory_region_unref (mr_addr (mr s))]
    /\ iova mod page = 0 /\ len mod page = 0 /\ 0 < len
    /\ oas <= iova < oas + page
    /\ oas + size s - page < iova + len <= oas + size s.
Proof.
  intros Hb Ho Hs Hend Hm Hc Hwin Hio Hok page oas iova len map unmap t0 t1.
  destruct (section_mapped_true _ _ Hm) as (Hskip & _ & Hlt).
  assert (Ho63 : offset_within_address_space s < 2 ^ 63)
    by (apply not_skipped_lower_half; [lia | exact Hskip]).
  destruct (section_interval_bounds (env w) s Hb ltac:(lia) ltac:(lia))
    as (Hi0 & Hl0 & Hi & Hl).
  fold page in Hi0, Hl0, Hi, Hl. fold oas in Hi, Hl. fold iova in Hi0, Hi, Hlt.
  assert (Hl64 : section_llend (env w) s < 2 ^ 64) by (unfold oas in Hl; lia).
  assert (Hp : 0 < page) by (apply Z.pow_pos_nonneg; lia).
  (* region_add *)
  pose proof (region_add_mapped_eq _ _ _ _ Hm Hl64 Hc) as Hadd.
  unfold region_add_body in Hadd. cbv zeta in Hadd.
  pose proof Hwin as Hwin'.
  unfold in_window in Hwin'. apply negb_true_iff in Hwin'.
  rewrite Hwin', Hio in Hadd.
  rewrite (section_len_wrap _ _ Hlt Hl64) in Hadd.
  fold (section_vaddr (env w) s) in Hadd.
  unfold bind at 1 in Hadd. unfold emit at 1 in Hadd.
  set (w0 := set_trace (trace w ++ [memory_region_ref (mr_addr (mr s))]) w)
    in Hadd.
  assert (Hc0 : containers w0 !! container = Some c) by exact Hc.
  rewrite (bind_Ret _ _ _ _ _
             (vfio_dma_map_first_ok _ _ _ _ _ _ w0 Hc0 Hok)) in Hadd.
  change (negb (0 =? 0)) with false in Hadd. cbv iota in Hadd.
  fold (section_map (env w) s c) in Hadd. fold map in Hadd.
  destruct (same_heap_after_syscall map w0)
    as (He1 & _ & _ & Hc1 & _).
  pose proof (after_syscall_trace map w0) as Ht1.
  change (env w0) with (env w) in He1, Ht1.
  change (trace w0) with t0 in Ht1. fold t1 in Ht1.
  change (containers w0) with (containers w) in Hc1.
  set (w1 := after_syscall map w0) in *. clearbody w1.
  (* region_del *)
  assert (Hdel : vfio_listener_region_del container s w1
                 = region_del_body container s (env w1) w1).
  { apply region_del_mapped_eq; rewrite ?He1; try assumption; lia. }
  unfold region_del_body, region_del_giommu in Hdel.
  rewrite Hio, He1 in Hdel.
  unfold bind at 1 in Hdel. unfold ret at 1 in Hdel.
  assert (Hc1' : containers w1 !! container = Some c)
    by (rewrite Hc1; exact Hc).
  rewrite (bind_Ret _ _ _ _ _ (vfio_dma_unmap_eq _ _ _ _ _ Hc1')) in Hdel.
  cbv zeta in Hdel. unfold emit in Hdel.
  exists w1. eexists.
  exists (if readonly s then VFIO_DMA_MAP_FLAG_READ
          else Z.lor VFIO_DMA_MAP_FLAG_READ VFIO_DMA_MAP_FLAG_WRITE),
    (section_vaddr (env w) s).
  split; [reflexivity|].
  split; [exact Hadd|]. split; [exact Ht1|].
  split; [exact Hdel|].
  split.
  { cbn [trace set_trace]. rewrite after_syscall_trace, Ht1, He1.
    rewrite <- app_assoc. reflexivity. }
  split; [exact Hi0|].
  split.
  { unfold len. rewrite Zminus_mod, Hl0, Hi0. reflexivity. }
  split; [unfold len; lia|].
  split; [exact Hi|].
  unfold len. replace (iova + (section_llend (env w) s - iova))
    with (section_llend (env w) s) by lia. exact Hl.
Qed.

Lemma vfio_listener_maps_aligned_interval_witness :
  exists w1 w2,
    vfio_listener_region_add 250 ragged_section
      (world0 (fun _ _ => Ok 0 [])) = Ret tt w1
    /\ trace w1
       = [memory_region_ref 1;
          Sys (VFIO_IOMMU_MAP_DMA 7 3 (mr_ram_ptr ram0 + 100 + 3996)
                 8192 4096) (Ok 0 [])]
    /\ vfio_listener_region_del 250 ragged_section w1 = Ret tt w2
    /\ trace w2
       = trace w1 ++ [Sys (VFIO_IOMMU_UNMAP_DMA 7 0 8192 4096) (Ok 0 []);
                      memory_region_unref 1].
Proof.
  destruct (vfio_listener_maps_aligned_interval 250 (container0 [200])
              ragged_section (world0 (fun _ _ => Ok 0 []))
              ltac:(vm_compute; intuition congruence)
              ltac:(vm_compute; intuition congruence)
              ltac:(vm_compute; intuition congruence)
              ltac:(reflexivity) ltac:(reflexivity) ltac:(reflexivity)
              ltac:(reflexivity) ltac:(reflexivity) ltac:(reflexivity))
    as (w1 & w2 & flags & vaddr & _ & Ha & Ht1 & Hd & Ht2 & _).
  exists w1, w2. split; [exact Ha|].
  split; [rewrite Ht1; reflexivity|].
  split; [exact Hd|].
  rewrite Ht2, Ht1. reflexivity.
Defined.

(** ** Direct mapping of a region: success, exit and finalize *)

Lemma vfio_region_mmap_loop_ok region dev : forall n i ms w,
  devices w !! vbasedev region = Some dev ->
  length ms = (i + n)%nat ->
  Forall (fun r => ret_of r <> MAP_FAILED)
    (replies (env w) (trace w) (map (mmap_call region dev) (drop i ms))) ->
  exists w',
    vfio_region_mmap_loop region (region_prot region) n i ms w
    = Ret (0, take i ms
              ++ zip_with (fun m r => set_mmap true (ret_of r) m)
                   (drop i ms)
                   (replies (env w) (trace w)
                      (map (mmap_call region dev) (drop i ms)))) w'
    /\ same_heap w w'
    /\ trace w'
       = trace w
         ++ sys_events (env w) (trace w)
              (map (mmap_call region dev) (drop i ms)).
Proof.
  induction n as [|n IH]; intros i ms w Hdev Hlen Hok.
  - rewrite drop_ge by lia. simpl. rewrite take_ge by lia.
    exists w. rewrite !app_nil_r. split; [reflexivity|].
    split; [apply same_heap_refl | reflexivity].
  - simpl.
    destruct (ms !! i) as [m|] eqn:Hm.
    2: { apply lookup_ge_None in Hm. lia. }
    rewrite (drop_S _ _ _ Hm) in *. simpl in Hok |- *.
    inversion Hok as [|r rs Hr Hrs]; subst.
    rewrite (bind_Ret _ _ _ _ _ (get_device_Some _ _ _ Hdev)).
    fold (region_prot region). fold (mmap_call region dev m).
    rewrite (bind_Ret _ _ _ _ _ (syscall_eq _ _)).
    apply Z.eqb_neq in Hr. rewrite Hr.
    set (c := mmap_call region dev m) in *.
    set (w1 := after_syscall c w).
    set (ms1 := <[i := set_mmap true (ret_of (host (env w) (trace w) c)) m]>
                  ms).
    assert (Hd1 : drop (S i) ms1 = drop (S i) ms)
      by (unfold ms1; apply drop_insert_lt; lia).
    assert (Ht1 : trace w1 = trace w ++ [Sys c (host (env w) (trace w) c)])
      by apply after_syscall_trace.
    assert (He1 : env w1 = env w) by apply after_syscall_env.
    destruct (IH (S i) ms1 w1) as (w' & H & Hs & Ht).
    { unfold w1. rewrite after_syscall_devices. exact Hdev. }
    { unfold ms1. rewrite length_insert. lia. }
    { rewrite Hd1, He1, Ht1. exact Hrs. }
    exists w'. rewrite H, Hd1, He1, Ht1.
    split.
    { f_equal. f_equal.
      assert (Hi : (i < length ms)%nat) by lia.
      unfold ms1. rewrite take_S_r with (x := set_mmap true
        (ret_of (host (env w) (trace w) c)) m)
        by (apply list_lookup_insert_eq; exact Hi).
      rewrite take_insert_ge by lia.
      rewrite <- app_assoc. reflexivity. }
    split.
    { apply (same_heap_trans _ w1); [apply same_heap_after_syscall|exact Hs]. }
    rewrite Ht, Hd1, He1, Ht1. unfold sys_events. simpl.
    rewrite <- app_assoc. reflexivity.
Qed.

(** X11: vfio_region_mmap on a region whose every window the kernel maps:
    it returns 0; one mmap is issued per window, in order, for the
    window's size at the region's file offset plus the window's offset,
    with the protection that the region's flags allow; every window ends
    installed in the region with the address the kernel returned. *)
Theorem vfio_region_mmap_all_mapped region dev w :
  region_mem region = true ->
  devices w !! vbasedev region = Some dev ->
  let calls := map (mmap_call region dev) (mmaps region) in
  Forall (fun r => ret_of r <> MAP_FAILED)
    (replies (env w) (trace w) calls) ->
  exists w',
    vfio_region_mmap region w
    = Ret (0, set_mmaps
                (zip_with (fun m r => set_mmap true (ret_of r) m)
                   (mmaps region) (replies (env w) (trace w) calls))
                region) w'
    /\ same_heap w w'
    /\ trace w' = trace w ++ sys_events (env w) (trace w) calls.
Proof.
  intros Hmem Hdev calls Hok.
  unfold vfio_region_mmap. rewrite Hmem. cbn [negb]. cbv iota.
  fold (region_prot region).
  destruct (vfio_region_mmap_loop_ok region dev (length (mmaps region)) 0
              (mmaps region) w Hdev eq_refl Hok) as (w' & H & Hs & Ht).
  exists w'. rewrite (bind_Ret _ _ _ _ _ H).
  split; [reflexivity|]. split; [exact Hs | exact Ht].
Qed.

Lemma vfio_region_mmap_all_mapped_witness :
  exists w',
    vfio_region_mmap region0 (world0 host_mmap_ok)
    = Ret (0, set_mmaps
                [ {| mmap_mem_installed := true; mmap_ptr := 32768;
                     mmap_offset := 0; mmap_size := 4096 |};
                  {| mmap_mem_installed := true; mmap_ptr := 36864;
                     mmap_offset := 4096; mmap_size := 4096 |} ]
                region0) w'
    /\ trace w' = [Sys (MMAP 4096 3 5 4096) (Ok 32768 []);
                   Sys (MMAP 4096 3 5 8192) (Ok 36864 [])].
Proof.
  destruct (vfio_region_mmap_all_mapped region0
              {| dev_fd := 5; dev_group := 200; needs_reset := false |}
              (world0 host_mmap_ok) eq_refl eq_refl)
    as (w' & H & _ & Ht).
  { repeat constructor; discriminate. }
  exists w'. split; [exact H | exact Ht].
Defined.

Lemma for_each_munmap_eq (ms : list VFIOMmap) : forall w,
  exists w',
    for_each (fun m =>
      if negb (mmap_ptr m =? NULL) then
        _ <- syscall (MUNMAP (mmap_ptr m) (mmap_size m)) ;; ret tt
      else ret tt) ms w = Ret tt w'
    /\ same_heap w w'
    /\ errno w' = errno (fold_left (fun w c => after_syscall c w)
                           (map munmap_call
                              (List.filter
                                 (fun m => negb (mmap_ptr m =? NULL)) ms)) w)
    /\ trace w'
       = trace w
         ++ sys_events (env w) (trace w)
              (map munmap_call
                 (List.filter (fun m => negb (mmap_ptr m =? NULL)) ms)).
Proof.
  induction ms as [|m ms IH]; intros w.
  - exists w. simpl. rewrite app_nil_r.
    split; [reflexivity|]. split; [apply same_heap_refl|]. auto.
  - simpl. destruct (negb (mmap_ptr m =? NULL)).
    + assert (Hin : (_ <- syscall (MUNMAP (mmap_ptr m) (mmap_size m)) ;;
                     ret tt) w
                    = Ret tt (after_syscall
                                (MUNMAP (mmap_ptr m) (mmap_size m)) w))
        by (rewrite (bind_Ret _ _ _ _ _ (syscall_eq _ _)); reflexivity).
      rewrite (bind_Ret _ _ _ _ _ Hin).
      destruct (IH (after_syscall (MUNMAP (mmap_ptr m) (mmap_size m)) w))
        as (w' & H & Hs & He & Ht).
      exists w'. split; [exact H|].
      split.
      { apply (same_heap_trans _ _ _ (same_heap_after_syscall _ w) Hs). }
      split; [exact He|].
      rewrite Ht, after_syscall_trace, after_syscall_env.
      unfold sys_events. simpl. rewrite <- app_assoc. reflexivity.
    + unfold bind at 1. unfold ret at 1. apply IH.
Qed.

(** X12: vfio_region_finalize unmaps exactly the windows that hold a
    mapping, each once and in order, with the address and size of the
    window; windows that were never mapped, or whose mapping was rolled
    back, are not touched, and nothing but the trace and errno changes. *)
Theorem vfio_region_finalize_unmaps_mapped region w :
  region_mem region = true ->
  exists w',
    vfio_region_finalize region w = Ret tt w'
    /\ same_heap w w'
    /\ trace w'
       = trace w
         ++ sys_events (env w) (trace w)
              (map munmap_call (mapped_windows region)).
Proof.
  intros Hmem. unfold vfio_region_finalize. rewrite Hmem.
  cbn [negb]. cbv iota.
  destruct (for_each_munmap_eq (mmaps region) w) as (w' & H & Hs & _ & Ht).
  exists w'. split; [exact H|]. split; [exact Hs | exact Ht].
Qed.

Lemma vfio_region_finalize_unmaps_mapped_witness :
  exists w',
    vfio_region_finalize region_half_mapped (world0 (fun _ _ => Ok 0 []))
    = Ret tt w'
    /\ trace w' = [Sys (MUNMAP 28672 4096) (Ok 0 [])].
Proof.
  destruct (vfio_region_finalize_unmaps_mapped region_half_mapped
              (world0 (fun _ _ => Ok 0 [])) eq_refl) as (w' & H & _ & Ht).
  exists w'. split; [exact H | exact Ht].
Defined.

Lemma vfio_region_exit_windows region :
  region_mem region = true ->
  mmaps (vfio_region_exit region)
  = List.map (fun m => if negb (mmap_ptr m =? NULL)
                       then set_mmap false (mmap_ptr m) m else m)
      (mmaps region).
Proof. intros H. unfold vfio_region_exit. rewrite H. reflexivity. Qed.

(** X13: vfio_region_exit leaves no window of the region active and
    keeps every mapping: the windows keep their address, offset and
    size, so that vfio_region_finalize afterwards unmaps the same
    windows as it would have before. *)
Theorem vfio_region_exit_detaches region :
  region_mem region = true ->
  Forall (fun m => active m = false) (mmaps (vfio_region_exit region))
  /\ List.map (fun m => (mmap_ptr m, mmap_offset m, mmap_size m))
       (mmaps (vfio_region_exit region))
     = List.map (fun m => (mmap_ptr m, mmap_offset m, mmap_size m))
         (mmaps region)
  /\ vfio_region_finalize (vfio_region_exit region)
     = vfio_region_finalize region.
Proof.
  intros Hmem.
  assert (Hmem' : region_mem (vfio_region_exit region) = true).
  { unfold vfio_region_exit. rewrite Hmem. exact Hmem. }
  unfold vfio_region_finalize. rewrite Hmem', Hmem.
  rewrite (vfio_region_exit_windows _ Hmem).
  cbn [negb]. cbv iota.
  induction (mmaps region) as [|m ms IH]; simpl.
  - repeat split. constructor.
  - destruct IH as (IH1 & IH2 & IH3).
    destruct (mmap_ptr m =? NULL) eqn:E; cbn [negb]; cbv iota.
    + split.
      { constructor; [|exact IH1]. unfold active. rewrite E. reflexivity. }
      split; [f_equal; exact IH2|].
      rewrite E. cbn [negb]. cbv iota. rewrite IH3. reflexivity.
    + split.
      { constructor; [|exact IH1]. unfold active. simpl.
        apply andb_false_r. }
      split; [simpl; f_equal; exact IH2|].
      simpl. rewrite E. cbn [negb]. cbv iota. rewrite IH3. reflexivity.
Qed.

Lemma vfio_region_exit_detaches_witness :
  mmaps (vfio_region_exit region_half_mapped)
  = [ {| mmap_mem_installed := false; mmap_ptr := 28672;
         mmap_offset := 0; mmap_size := 4096 |};
      {| mmap_mem_installed := false; mmap_ptr := NULL;
         mmap_offset := 4096; mmap_size := 4096 |} ]
  /\ vfio_region_finalize (vfio_region_exit region_half_mapped)
     = vfio_region_finalize region_half_mapped.
Proof.
  split; [reflexivity|].
  apply (vfio_region_exit_detaches region_half_mapped eq_refl).
Defined.

Lemma vfio_region_mmap_loop_error region prot : forall n i ms w v ms' w',
  length ms = (i + n)%nat ->
  (forall j m, (i <= j)%nat -> ms !! j = Some m -> mmap_ptr m = NULL) ->
  vfio_region_mmap_loop region prot n i ms w = Ret (v, ms') w' ->
  v <> 0 ->
  forall j m, ms' !! j = Some m -> mmap_ptr m = NULL.
Proof.
  induction n as [|n IH]; intros i ms w v ms' w' Hlen Hnull H Hv.
  - simpl in H. inversion H. congruence.
  - simpl in H.
    destruct (ms !! i) as [m|] eqn:Hm.
    2: { apply lookup_ge_None in Hm. lia. }
    unfold bind at 1 in H.
    destruct (get_device (vbasedev region) w) as [dev w0| |] eqn:Hd;
      try discriminate.
    assert (w0 = w) as ->.
    { unfold get_device in Hd. destruct (devices w !! _); inversion Hd.
      reflexivity. }
    rewrite (bind_Ret _ _ _ _ _ (syscall_eq _ _)) in H.
    set (c := MMAP _ _ _ _) in H.
    destruct (ret_of (host (env w) (trace w) c) =? MAP_FAILED).
    + unfold bind at 1 in H. unfold get_errno at 1 in H.
      destruct (vfio_region_mmap_undo_spec region i
                  (<[i := set_mmap (mmap_mem_installed m) NULL m]> ms)
                  (after_syscall c w))
        as (ms2 & w2 & H2 & Hl2 & Hlt & Hge).
      { rewrite length_insert. lia. }
      rewrite (bind_Ret _ _ _ _ _ H2) in H. inversion H; subst.
      intros j m' Hj.
      destruct (Nat.lt_ge_cases j i) as [Hlt'|Hge'].
      * exact (proj1 (Hlt j m' Hlt' Hj)).
      * rewrite Hge in Hj by exact Hge'.
        destruct (decide (j = i)) as [->|Hne].
        -- rewrite list_lookup_insert_eq in Hj by lia.
           inversion Hj. reflexivity.
        -- rewrite list_lookup_insert_ne in Hj by lia.
           exact (Hnull j m' Hge' Hj).
    + apply (IH _ _ _ _ _ _) with (3 := H); [rewrite length_insert; lia| |exact Hv].
      intros j m' Hj Hm'.
      rewrite list_lookup_insert_ne in Hm' by lia.
      apply (Hnull j m'); [lia | exact Hm'].
Qed.

(** X14: when vfio_region_mmap fails on a region none of whose windows
    was mapped before, no window is left holding a mapping, so that
    vfio_region_finalize afterwards issues no munmap at all: what the
    rollback has unmapped is not unmapped a second time. *)
Theorem vfio_region_mmap_failed_then_finalize region w v region' w' :
  Forall (fun m => mmap_ptr m = NULL) (mmaps region) ->
  vfio_region_mmap region w = Ret (v, region') w' ->
  v <> 0 ->
  mapped_windows region' = []
  /\ vfio_region_finalize region' w' = Ret tt w'.
Proof.
  intros Hnull H Hv.
  unfold vfio_region_mmap in H.
  destruct (region_mem region) eqn:Hmem; cbn [negb] in H; cbv iota in H.
  2: { inversion H. congruence. }
  unfold bind in H.
  destruct (vfio_region_mmap_loop _ _ _ _ _ _) as [[v0 ms'] w0| |] eqn:Hl;
    try discriminate.
  inversion H; subst. simpl in *.
  assert (Hall : forall j m, ms' !! j = Some m -> mmap_ptr m = NULL).
  { eapply (vfio_region_mmap_loop_error _ _ (length (mmaps region)) 0%nat
              (mmaps region) w v ms' w' eq_refl);
      [|exact Hl|exact Hv].
    intros j m _ Hm. rewrite Forall_lookup in Hnull. exact (Hnull j m Hm). }
  assert (Hnone : List.filter (fun m => negb (mmap_ptr m =? NULL)) ms' = []).
  { clear - Hall. induction ms' as [|m ms IH]; [reflexivity|]. simpl.
    rewrite (Hall 0%nat m eq_refl). simpl. apply IH.
    intros j m' Hj. exact (Hall (S j) m' Hj). }
  split; [exact Hnone|].
  destruct (for_each_munmap_eq ms' w') as (w2 & H2 & _ & _ & _).
  unfold vfio_region_finalize. simpl. rewrite Hmem. cbn [negb]. cbv iota.
  clear - Hall. induction ms' as [|m ms IH]; [reflexivity|]. simpl.
  rewrite (Hall 0%nat m eq_refl). simpl. unfold bind, ret. simpl.
  apply IH. intros j m' Hj. exact (Hall (S j) m' Hj).
Qed.

Lemma vfio_region_mmap_failed_then_finalize_witness :
  exists region' w',
    vfio_region_mmap region0 (world0 host_mmap_second_fails)
    = Ret (- 12, region') w'
    /\ mapped_windows region' = []
    /\ vfio_region_finalize region' w' = Ret tt w'.
Proof.
  eexists _, _. split; [vm_compute; reflexivity|].
  eapply (vfio_region_mmap_failed_then_finalize region0
            (world0 host_mmap_second_fails) (- 12)).
  - repeat constructor.
  - vm_compute. reflexivity.
  - discriminate.
Defined.

(** ** EEH on an address space *)

Lemma set_spaces_id w :
  set_spaces (spaces w) (vfio_address_spaces w) w = w.
Proof. destruct w. reflexivity. Qed.

Lemma vfio_get_put_fresh as_ w :
  spaces_wf w ->
  (forall p, ~ registered as_ w p) ->
  exists space w1,
    vfio_get_address_space as_ w = Ret space w1
    /\ spaces w1 !! space
       = Some {| space_as := as_; space_containers := [] |}
    /\ env w1 = env w /\ trace w1 = trace w /\ errno w1 = errno w
    /\ devices w1 = devices w /\ groups w1 = groups w
    /\ containers w1 = containers w
    /\ vfio_group_list w1 = vfio_group_list w
    /\ vfio_kvm_device_fd w1 = vfio_kvm_device_fd w
    /\ vfio_put_address_space space w1 = Ret tt w.
Proof.
  intros [Hnd Hlive] Hnone.
  destruct (find_address_space_spec as_ (vfio_address_spaces w) w Hlive)
    as (o & Ho & Hspec).
  unfold vfio_get_address_space.
  unfold bind at 1. unfold get_vfio_address_spaces at 1.
  rewrite (bind_Ret _ _ _ _ _ Ho).
  destruct o as [p|]; [exfalso; exact (Hnone p Hspec)|].
  unfold bind, g_malloc0.
  destruct (g_malloc0_fresh w) as (_ & _ & _ & _ & Hfresh).
  set (space := fresh _) in *.
  eexists space, _. split; [reflexivity|].
  split; [simpl; apply lookup_insert_eq|].
  repeat (split; [reflexivity|]).
  unfold vfio_put_address_space, bind, get_space. simpl.
  rewrite lookup_insert_eq. simpl. rewrite Z.eqb_refl.
  rewrite delete_insert_id by exact Hfresh.
  unfold set_spaces. simpl. destruct w. reflexivity.
Qed.

Lemma vfio_eeh_as_container_fresh as_ w :
  spaces_wf w ->
  (forall p, ~ registered as_ w p) ->
  vfio_eeh_as_container as_ w = Ret NULL w.
Proof.
  intros Hwf Hnone.
  destruct (vfio_get_put_fresh as_ w Hwf Hnone)
    as (space & w1 & Hg & Hs & _ & _ & _ & _ & _ & _ & _ & _ & Hp).
  unfold vfio_eeh_as_container.
  rewrite (bind_Ret _ _ _ _ _ Hg).
  rewrite (bind_Ret _ _ _ _ _ (get_space_Some _ _ _ Hs)).
  simpl. rewrite (bind_Ret _ _ _ _ _ Hp). reflexivity.
Qed.

Lemma vfio_eeh_as_container_registered as_ w p s :
  spaces_wf w ->
  registered as_ w p ->
  (forall q, registered as_ w q -> q = p) ->
  spaces w !! p = Some s ->
  space_containers s <> [] ->
  vfio_eeh_as_container as_ w
  = Ret (match space_containers s with
         | [c] => c
         | _ => NULL
         end) w.
Proof.
  intros [Hnd Hlive] Hreg Huniq Hs Hne.
  destruct (find_address_space_spec as_ (vfio_address_spaces w) w Hlive)
    as (o & Ho & Hspec).
  unfold vfio_eeh_as_container, vfio_get_address_space.
  unfold bind at 2. unfold get_vfio_address_spaces at 1.
  unfold bind at 1. unfold bind at 1. rewrite Ho.
  destruct o as [q|].
  2: { exfalso. destruct Hreg as [Hin (s' & Hs' & Has)].
       exact (Hspec p s' Hin Hs' Has). }
  rewrite (Huniq q Hspec). unfold ret at 1.
  rewrite (bind_Ret _ _ _ _ _ (get_space_Some _ _ _ Hs)).
  unfold vfio_put_address_space.
  unfold bind at 1.
  rewrite (bind_Ret _ _ _ _ _ (get_space_Some _ _ _ Hs)).
  destruct (space_containers s) as [|c [|c' cs]]; [congruence| |];
    reflexivity.
Qed.

(** X15: an EEH request on an address space that VFIO has nothing to act
    on, because the address space has no entry in the registry or its
    entry holds two or more containers: vfio_eeh_as_op returns -ENODEV
    and vfio_eeh_as_ok returns false, the kernel is not called, and the
    entry that the lookup creates for an unknown address space is
    released again, so that the world is exactly as before. *)
Theorem vfio_eeh_as_nothing_to_act_on as_ op w :
  spaces_wf w ->
  (forall p, ~ registered as_ w p)
  \/ (exists p s c1 c2 cs,
        registered as_ w p
        /\ (forall q, registered as_ w q -> q = p)
        /\ spaces w !! p = Some s
        /\ space_containers s = c1 :: c2 :: cs) ->
  vfio_eeh_as_op as_ op w = Ret (- ENODEV) w
  /\ vfio_eeh_as_ok as_ w = Ret false w.
Proof.
  intros Hwf H.
  assert (Hc : vfio_eeh_as_container as_ w = Ret NULL w).
  { destruct H as [Hnone | (p & s & c1 & c2 & cs & Hreg & Huniq & Hs & Hl)].
    - apply vfio_eeh_as_container_fresh; assumption.
    - rewrite (vfio_eeh_as_container_registered as_ w p s Hwf Hreg Huniq Hs)
        by (rewrite Hl; discriminate).
      rewrite Hl. reflexivity. }
  unfold vfio_eeh_as_op, vfio_eeh_as_ok.
  rewrite !(bind_Ret _ _ _ _ _ Hc). split; reflexivity.
Qed.

Lemma vfio_eeh_as_nothing_to_act_on_witness :
  vfio_eeh_as_op 2 VFIO_EEH_PE_GET_STATE (world0 host_eeh_state)
  = Ret (- ENODEV) (world0 host_eeh_state)
  /\ vfio_eeh_as_ok 2 (world0 host_eeh_state)
     = Ret false (world0 host_eeh_state).
Proof.
  apply vfio_eeh_as_nothing_to_act_on.
  - split.
    + repeat constructor. apply not_elem_of_nil.
    + intros p Hp. apply list_elem_of_singleton in Hp. subst.
      eexists. reflexivity.
  - left. intros p [Hp (s & Hs & Has)].
    apply list_elem_of_singleton in Hp. subst.
    vm_compute in Hs. inversion Hs; subst. discriminate.
Defined.

(** X16: an EEH request on an address space whose registry entry holds
    exactly one container is the request on that container:
    vfio_eeh_as_op behaves as vfio_eeh_container_op on it, and
    vfio_eeh_as_ok says whether the container has exactly one group;
    the registry is left alone. *)
Theorem vfio_eeh_as_single_container as_ op w p s container c :
  spaces_wf w ->
  registered as_ w p ->
  (forall q, registered as_ w q -> q = p) ->
  spaces w !! p = Some s ->
  space_containers s = [container] ->
  container <> NULL ->
  containers w !! container = Some c ->
  vfio_eeh_as_op as_ op w = vfio_eeh_container_op container op w
  /\ vfio_eeh_as_ok as_ w = Ret (vfio_eeh_container_ok c) w.
Proof.
  intros Hwf Hreg Huniq Hs Hl Hnn Hc.
  pose proof (vfio_eeh_as_container_registered as_ w p s Hwf Hreg Huniq Hs)
    as Hcont.
  rewrite Hl in Hcont. specialize (Hcont ltac:(discriminate)).
  unfold vfio_eeh_as_op, vfio_eeh_as_ok.
  rewrite !(bind_Ret _ _ _ _ _ Hcont).
  apply Z.eqb_neq in Hnn. rewrite Hnn.
  split; [reflexivity|].
  rewrite (bind_Ret _ _ _ _ _ (get_container_Some _ _ _ Hc)). reflexivity.
Qed.

Lemma vfio_eeh_as_single_container_witness :
  vfio_eeh_as_op 1 VFIO_EEH_PE_GET_STATE (world0 host_eeh_state)
  = vfio_eeh_container_op 250 VFIO_EEH_PE_GET_STATE (world0 host_eeh_state)
  /\ vfio_eeh_as_ok 1 (world0 host_eeh_state)
     = Ret true (world0 host_eeh_state).
Proof.
  apply (vfio_eeh_as_single_container 1 VFIO_EEH_PE_GET_STATE
           (world0 host_eeh_state) 300
           {| space_as := 1; space_containers := [250] |} 250
           (container0 [200])).
  - split.
    + repeat constructor. apply not_elem_of_nil.
    + intros p Hp. apply list_elem_of_singleton in Hp. subst.
      eexists. reflexivity.
  - split; [apply list_elem_of_singleton; reflexivity|].
    eexists. split; reflexivity.
  - intros q [Hq _]. apply list_elem_of_singleton in Hq. exact Hq.
  - reflexivity.
  - reflexivity.
  - discriminate.
  - reflexivity.
Defined.

(** ** Probing a group: the failure paths of vfio_get_group *)

Lemma set_groups_fresh_id w p (g1 g2 : VFIOGroup) :
  groups w !! p = None ->
  delete p (<[p := g2]> (<[p := g1]> (groups w))) = groups w.
Proof.
  intros H. rewrite delete_insert_eq, delete_insert_eq.
  apply delete_id. exact H.
Qed.

(** X17: vfio_get_group for a group that is not registered yet, when the
    probe fails.  If the group file cannot be opened, nothing is closed;
    if it opens and the status query fails or reports the group as not
    viable, the descriptor is closed again.  Either way NULL is
    returned, the record allocated for the group is freed, and the
    registries are as before. *)
Theorem vfio_get_group_probe_fails id as_ w :
  (forall p, p ∈ vfio_group_list w -> is_Some (groups w !! p)) ->
  (forall p g, p ∈ vfio_group_list w -> groups w !! p = Some g ->
               groupid g <> id) ->
  let o := host (env w) (trace w) (OPEN_GROUP id) in
  let fd := ret_of o in
  let t1 := trace w ++ [Sys (OPEN_GROUP id) o] in
  let st := host (env w) t1 (VFIO_GROUP_GET_STATUS fd) in
  let t2 := t1 ++ [Sys (VFIO_GROUP_GET_STATUS fd) st] in
  (fd < 0 ->
   exists w', vfio_get_group id as_ w = Ret NULL w'
              /\ same_heap w w' /\ trace w' = t1)
  /\ (0 <= fd ->
      ret_of st <> 0
      \/ Z.land (nth 0 (data_of st) 0) VFIO_GROUP_FLAGS_VIABLE = 0 ->
      exists w', vfio_get_group id as_ w = Ret NULL w'
                 /\ same_heap w w'
                 /\ trace w' = t2 ++ [Sys (CLOSE fd) (host (env w) t2
                                                        (CLOSE fd))]).
Proof.
  intros Hlive Hnone o fd t1 st t2.
  destruct (find_group_spec id (vfio_group_list w) w Hlive)
    as (f & Hf & Hspec).
  destruct f as [p|].
  { exfalso. destruct Hspec as (Hp & g & Hg & Hid).
    exact (Hnone p g Hp Hg Hid). }
  destruct (g_malloc0_fresh w) as (_ & _ & Hfresh & _).
  set (group := fresh _) in *.
  assert (Hopen :
    vfio_get_group id as_ w
    = (_ <- put_group group
              {| group_fd := fd; groupid := 0; group_container := NULL;
                 device_list := [] |} ;;
       if fd <? 0 then _ <- g_free_group group ;; ret NULL
       else
         st <- syscall (VFIO_GROUP_GET_STATUS fd) ;;
         let flags := nth 0 (data_of st) 0 in
         if negb (ret_of st =? 0)
            || (Z.land flags VFIO_GROUP_FLAGS_VIABLE =? 0) then
           _ <- syscall (CLOSE fd) ;;
           _ <- g_free_group group ;; ret NULL
         else
           _ <- put_group group
                  {| group_fd := fd; groupid := id; group_container := NULL;
                     device_list := [] |} ;;
           r <- vfio_connect_container group as_ ;;
           if negb (r =? 0) then
             _ <- syscall (CLOSE fd) ;;
             _ <- g_free_group group ;; ret NULL
           else
             gl <- get_vfio_group_list ;;
             _ <- (match gl with
                   | [] => emit qemu_register_reset
                   | _ :: _ => ret tt
                   end) ;;
             _ <- (fun w => Ret tt (set_groups (groups w)
                                      (group :: vfio_group_list w) w)) ;;
             _ <- vfio_kvm_device_add_group group ;;
             ret group)
        (after_syscall (OPEN_GROUP id)
           (set_groups (<[group := {| group_fd := 0; groupid := 0;
                                      group_container := NULL;
                                      device_list := [] |}]> (groups w))
              (vfio_group_list w) w))).
  { unfold vfio_get_group.
    unfold bind at 1. unfold get_vfio_group_list at 1.
    rewrite (bind_Ret _ _ _ _ _ Hf).
    unfold bind at 1. unfold g_malloc0 at 1. fold group.
    unfold bind at 1. unfold put_group at 1.
    rewrite (bind_Ret _ _ _ _ _ (syscall_eq _ _)).
    reflexivity. }
  rewrite Hopen. clear Hopen.
  set (w0 := set_groups _ (vfio_group_list w) w).
  assert (Hs0 : same_heap w0 (after_syscall (OPEN_GROUP id) w0))
    by apply same_heap_after_syscall.
  assert (Ht0 : trace (after_syscall (OPEN_GROUP id) w0) = t1)
    by apply after_syscall_trace.
  set (w1 := after_syscall (OPEN_GROUP id) w0) in *.
  destruct Hs0 as (He1 & Hd1 & Hg1 & Hc1 & Hsp1 & Hgl1 & Has1 & Hk1).
  set (w2 := set_groups
               (<[group := {| group_fd := fd; groupid := 0;
                              group_container := NULL;
                              device_list := [] |}]> (groups w1))
               (vfio_group_list w1) w1).
  assert (Hput : forall k : M Z,
            (_ <- put_group group
                    {| group_fd := fd; groupid := 0; group_container := NULL;
                       device_list := [] |} ;; k) w1 = k w2)
    by reflexivity.
  rewrite !Hput. clear Hput.
  assert (Hg2 : delete group (groups w2) = groups w).
  { unfold w2. simpl. rewrite Hg1. unfold w0. simpl.
    apply set_groups_fresh_id. exact Hfresh. }
  assert (Hf2 : env w2 = env w /\ trace w2 = t1 /\ devices w2 = devices w
                /\ containers w2 = containers w /\ spaces w2 = spaces w
                /\ vfio_group_list w2 = vfio_group_list w
                /\ vfio_address_spaces w2 = vfio_address_spaces w
                /\ vfio_kvm_device_fd w2 = vfio_kvm_device_fd w).
  { unfold w2. simpl. rewrite He1, Hd1, Hc1, Hsp1, Hgl1, Has1, Hk1, Ht0.
    repeat split. }
  destruct Hf2 as (He2 & Ht2 & Hd2 & Hc2 & Hsp2 & Hgl2 & Has2 & Hk2).
  clearbody w2.
  split.
  - intros Hneg.
    destruct (fd <? 0) eqn:E; [|apply Z.ltb_ge in E; lia].
    unfold bind, g_free_group, ret.
    eexists. split; [reflexivity|].
    split; [|exact Ht2].
    unfold same_heap. simpl. rewrite Hg2, He2, Hd2, Hc2, Hsp2, Hgl2, Has2, Hk2.
    repeat split.
  - intros Hpos Hbad.
    destruct (fd <? 0) eqn:E; [apply Z.ltb_lt in E; lia|].
    cbv iota.
    rewrite (bind_Ret _ _ _ _ _ (syscall_eq _ _)).
    rewrite He2, Ht2. fold st.
    assert (Hb : negb (ret_of st =? 0)
                 || (Z.land (nth 0 (data_of st) 0) VFIO_GROUP_FLAGS_VIABLE
                     =? 0) = true).
    { destruct Hbad as [Hb|Hb].
      - apply Z.eqb_neq in Hb. rewrite Hb. reflexivity.
      - rewrite Hb. apply orb_true_r. }
    cbv zeta. rewrite Hb.
    rewrite (bind_Ret _ _ _ _ _ (syscall_eq _ _)).
    set (w3 := after_syscall (VFIO_GROUP_GET_STATUS fd) w2).
    assert (Ht3 : trace w3 = t2).
    { unfold w3. rewrite after_syscall_trace, He2, Ht2. reflexivity. }
    assert (He3 : env w3 = env w).
    { unfold w3. rewrite after_syscall_env. exact He2. }
    pose proof (same_heap_trans _ _ _ (same_heap_after_syscall _ w2)
                  (same_heap_after_syscall (CLOSE fd) w3)) as Hs.
    fold w3 in Hs.
    pose proof (after_syscall_trace (CLOSE fd) w3) as Ht4.
    rewrite Ht3, He3 in Ht4.
    set (w4 := after_syscall (CLOSE fd) w3) in *. clearbody w4.
    destruct Hs as (He4 & Hd4 & Hg4 & Hc4 & Hsp4 & Hgl4 & Has4 & Hk4).
    unfold bind, g_free_group, ret.
    eexists. split; [reflexivity|].
    split; [|exact Ht4].
    unfold same_heap. simpl.
    rewrite He4, Hd4, Hg4, Hc4, Hsp4, Hgl4, Has4, Hk4, Hg2,
      He2, Hd2, Hc2, Hsp2, Hgl2, Has2, Hk2.
    repeat split.
Qed.

Lemma vfio_get_group_probe_fails_witness :
  (exists w', vfio_get_group 43 1 (world0 host_no_group) = Ret NULL w'
              /\ same_heap (world0 host_no_group) w'
              /\ trace w' = [Sys (OPEN_GROUP 43) (Err 2)])
  /\ (exists w', vfio_get_group 43 1 (world0 host_not_viable) = Ret NULL w'
                 /\ same_heap (world0 host_not_viable) w'
                 /\ trace w' = [Sys (OPEN_GROUP 43) (Ok 9 []);
                                Sys (VFIO_GROUP_GET_STATUS 9) (Ok 0 [0]);
                                Sys (CLOSE 9) (Ok 0 [])]).
Proof.
  assert (Hlive : forall h p, p ∈ vfio_group_list (world0 h) ->
                              is_Some (groups (world0 h) !! p)).
  { intros h p Hp. apply list_elem_of_singleton in Hp. subst.
    eexists. reflexivity. }
  assert (Hnone : forall h p g, p ∈ vfio_group_list (world0 h) ->
                    groups (world0 h) !! p = Some g -> groupid g <> 43).
  { intros h p g Hp Hg. apply list_elem_of_singleton in Hp. subst.
    vm_compute in Hg. inversion Hg. discriminate. }
  split.
  - apply (proj1 (vfio_get_group_probe_fails 43 1 (world0 host_no_group)
                    (Hlive _) (Hnone _))).
    reflexivity.
  - apply (proj2 (vfio_get_group_probe_fails 43 1 (world0 host_not_viable)
                    (Hlive _) (Hnone _))).
    + discriminate.
    + right. reflexivity.
Defined.

(** ** Connecting a group to a container *)

Lemma vfio_get_address_space_registered as_ w p :
  spaces_wf w ->
  registered as_ w p ->
  (forall q, registered as_ w q -> q = p) ->
  vfio_get_address_space as_ w = Ret p w.
Proof.
  intros [Hnd Hlive] Hreg Huniq.
  destruct (find_address_space_spec as_ (vfio_address_spaces w) w Hlive)
    as (o & Ho & Hspec).
  unfold vfio_get_address_space.
  unfold bind at 1. unfold get_vfio_address_spaces at 1.
  rewrite (bind_Ret _ _ _ _ _ Ho).
  destruct o as [q|].
  - rewrite (Huniq q Hspec). reflexivity.
  - exfalso. destruct Hreg as [Hin (s' & Hs' & Has)].
    exact (Hspec p s' Hin Hs' Has).
Qed.

Lemma vfio_get_address_space_fresh as_ w :
  spaces_wf w ->
  (forall p, ~ registered as_ w p) ->
  exists space,
    spaces w !! space = None
    /\ vfio_get_address_space as_ w
       = Ret space
           (set_spaces
              (<[space := {| space_as := as_; space_containers := [] |}]>
                 (spaces w))
              (space :: vfio_address_spaces w) w).
Proof.
  intros [Hnd Hlive] Hnone.
  destruct (find_address_space_spec as_ (vfio_address_spaces w) w Hlive)
    as (o & Ho & Hspec).
  unfold vfio_get_address_space.
  unfold bind at 1. unfold get_vfio_address_spaces at 1.
  rewrite (bind_Ret _ _ _ _ _ Ho).
  destruct o as [p|]; [exfalso; exact (Hnone p Hspec)|].
  unfold bind, g_malloc0.
  destruct (g_malloc0_fresh w) as (_ & _ & _ & _ & Hfresh).
  eexists. split; [exact Hfresh | reflexivity].
Qed.

(** Releasing the entry that a lookup has just created, after steps that
    kept the heap, gives back the registries of before the lookup. *)
Lemma vfio_put_address_space_undo as_ space w w2 :
  spaces w !! space = None ->
  same_heap
    (set_spaces
       (<[space := {| space_as := as_; space_containers := [] |}]> (spaces w))
       (space :: vfio_address_spaces w) w) w2 ->
  exists w3,
    vfio_put_address_space space w2 = Ret tt w3
    /\ same_heap w w3 /\ trace w3 = trace w2 /\ errno w3 = errno w2.
Proof.
  intros Hfresh (He & Hd & Hg & Hc & Hsp & Hgl & Has & Hk).
  simpl in *.
  unfold vfio_put_address_space, bind, get_space.
  rewrite Hsp, lookup_insert_eq. simpl.
  eexists. split; [reflexivity|].
  split; [|split; reflexivity].
  unfold same_heap. simpl.
  rewrite Has. simpl. rewrite Z.eqb_refl.
  rewrite Hsp, delete_insert_id by exact Hfresh.
  rewrite He, Hd, Hg, Hc, Hgl, Hk. repeat split.
Qed.

(** X18: vfio_connect_container when the first container of the address
    space accepts the group: the group joins that container.  One
    SET_CONTAINER request is made and no new container is opened; the
    group points to the container, the container lists the group first,
    and 0 is returned. *)
Theorem vfio_connect_container_joins group as_ w p s g container rest c :
  spaces_wf w ->
  registered as_ w p ->
  (forall q, registered as_ w q -> q = p) ->
  spaces w !! p = Some s ->
  space_containers s = container :: rest ->
  groups w !! group = Some g ->
  containers w !! container = Some c ->
  let call := VFIO_GROUP_SET_CONTAINER (group_fd g) (container_fd c) in
  ret_of (host (env w) (trace w) call) = 0 ->
  exists w',
    vfio_connect_container group as_ w = Ret 0 w'
    /\ trace w' = trace w ++ [Sys call (host (env w) (trace w) call)]
    /\ groups w' = <[group := set_group_container container g]> (groups w)
    /\ containers w'
       = <[container := set_group_list (group :: group_list c) c]>
           (containers w)
    /\ devices w' = devices w /\ spaces w' = spaces w
    /\ vfio_group_list w' = vfio_group_list w
    /\ vfio_address_spaces w' = vfio_address_spaces w.
Proof.
  intros Hwf Hreg Huniq Hs Hl Hg Hc call Hok.
  unfold vfio_connect_container.
  rewrite (bind_Ret _ _ _ _ _
             (vfio_get_address_space_registered _ _ _ Hwf Hreg Huniq)).
  rewrite (bind_Ret _ _ _ _ _ (get_space_Some _ _ _ Hs)).
  rewrite (bind_Ret _ _ _ _ _ (get_group_Some _ _ _ Hg)).
  rewrite Hl.
  assert (Hfind : find_container (group_fd g) (container :: rest) w
                  = Ret (Some container) (after_syscall call w)).
  { simpl. rewrite (bind_Ret _ _ _ _ _ (get_container_Some _ _ _ Hc)).
    rewrite (bind_Ret _ _ _ _ _ (syscall_eq _ _)).
    fold call. rewrite Hok. reflexivity. }
  rewrite (bind_Ret _ _ _ _ _ Hfind).
  destruct (same_heap_after_syscall call w)
    as (He1 & Hd1 & Hg1 & Hc1 & Hsp1 & Hgl1 & Has1 & Hk1).
  pose proof (after_syscall_trace call w) as Ht1.
  set (w1 := after_syscall call w) in *. clearbody w1.
  assert (Hc' : containers w1 !! container = Some c)
    by (rewrite Hc1; exact Hc).
  rewrite (bind_Ret _ _ _ _ _ (get_container_Some _ _ _ Hc')).
  unfold bind, put_group, put_container, ret.
  eexists. split; [reflexivity|]. simpl.
  rewrite Ht1, Hg1, Hc1, Hd1, Hsp1, Hgl1, Has1. repeat split.
Qed.

Lemma vfio_connect_container_joins_witness :
  exists w',
    vfio_connect_container 210 1 (world_two_groups (fun _ _ => Ok 0 []))
    = Ret 0 w'
    /\ trace w' = [Sys (VFIO_GROUP_SET_CONTAINER 11 7) (Ok 0 [])]
    /\ containers w' = {[ 250 := container0 [210; 200] ]}.
Proof.
  destruct (vfio_connect_container_joins 210 1
              (world_two_groups (fun _ _ => Ok 0 [])) 300
              {| space_as := 1; space_containers := [250] |}
              {| group_fd := 11; groupid := 43; group_container := NULL;
                 device_list := [] |}
              250 [] (container0 [200]))
    as (w' & H & Ht & _ & Hc & _).
  - split.
    + repeat constructor. apply not_elem_of_nil.
    + intros p Hp. apply list_elem_of_singleton in Hp. subst.
      eexists. reflexivity.
  - split; [apply list_elem_of_singleton; reflexivity|].
    eexists. split; reflexivity.
  - intros q [Hq _]. apply list_elem_of_singleton in Hq. exact Hq.
  - reflexivity.
  - reflexivity.
  - reflexivity.
  - reflexivity.
  - reflexivity.
  - exists w'. split; [exact H|]. split; [exact Ht|].
    rewrite Hc. vm_compute. reflexivity.
Defined.

(** X19: vfio_connect_container for the first group of an address
    space, when no container can be set up.  If /dev/vfio/vfio cannot
    be opened, the negated errno is returned and nothing is closed; if
    it opens and the kernel reports another API version, the descriptor
    is closed and -EINVAL is returned.  Either way the entry created
    for the address space is released and the registries are as
    before. *)
Theorem vfio_connect_container_no_vfio group as_ w g :
  spaces_wf w ->
  (forall p, ~ registered as_ w p) ->
  groups w !! group = Some g ->
  let o := host (env w) (trace w) OPEN_VFIO in
  let fd := ret_of o in
  let t1 := trace w ++ [Sys OPEN_VFIO o] in
  let v := host (env w) t1 (VFIO_GET_API_VERSION fd) in
  let t2 := t1 ++ [Sys (VFIO_GET_API_VERSION fd) v] in
  (fd < 0 ->
   exists w', vfio_connect_container group as_ w = Ret (- errno w') w'
              /\ (forall e, o = Err e -> errno w' = e)
              /\ same_heap w w' /\ trace w' = t1)
  /\ (0 <= fd -> ret_of v <> VFIO_API_VERSION ->
      exists w', vfio_connect_container group as_ w = Ret (- EINVAL) w'
                 /\ same_heap w w'
                 /\ trace w' = t2 ++ [Sys (CLOSE fd)
                                        (host (env w) t2 (CLOSE fd))]).
Proof.
  intros Hwf Hnone Hg o fd t1 v t2.
  destruct (vfio_get_address_space_fresh as_ w Hwf Hnone)
    as (space & Hfresh & Hget).
  set (w0 := set_spaces _ (space :: vfio_address_spaces w) w) in Hget.
  assert (Hopen :
    vfio_connect_container group as_ w
    = (if fd <? 0 then
         e <- get_errno ;;
         _ <- vfio_put_address_space space ;;
         ret (- e)
       else
         v <- syscall (VFIO_GET_API_VERSION fd) ;;
         if negb (ret_of v =? VFIO_API_VERSION) then
           _ <- syscall (CLOSE fd) ;;
           _ <- vfio_put_address_space space ;;
           ret (- EINVAL)
         else hw_error) (after_syscall OPEN_VFIO w0)
    \/ (0 <= fd /\ ret_of v = VFIO_API_VERSION)).
  { destruct (Z.ltb_spec fd 0) as [Hlt|Hge].
    - left. unfold vfio_connect_container.
      rewrite (bind_Ret _ _ _ _ _ Hget).
      unfold bind at 1. unfold get_space at 1.
      unfold w0 at 1. cbn [spaces set_spaces]. rewrite lookup_insert_eq.
      assert (Hg0 : groups w0 !! group = Some g) by exact Hg.
      rewrite (bind_Ret _ _ _ _ _ (get_group_Some _ _ _ Hg0)).
      cbn [space_containers find_container].
      unfold bind at 1. unfold ret at 1.
      rewrite (bind_Ret _ _ _ _ _ (syscall_eq _ _)).
      change (host (env w0) (trace w0) OPEN_VFIO) with o. fold fd.
      destruct (Z.ltb_spec fd 0); [reflexivity | lia].
    - destruct (Z.eq_dec (ret_of v) VFIO_API_VERSION) as [Hv|Hv];
        [right; split; assumption|].
      left. unfold vfio_connect_container.
      rewrite (bind_Ret _ _ _ _ _ Hget).
      unfold bind at 1. unfold get_space at 1.
      unfold w0 at 1. cbn [spaces set_spaces]. rewrite lookup_insert_eq.
      assert (Hg0 : groups w0 !! group = Some g) by exact Hg.
      rewrite (bind_Ret _ _ _ _ _ (get_group_Some _ _ _ Hg0)).
      cbn [space_containers find_container].
      unfold bind at 1. unfold ret at 1.
      rewrite (bind_Ret _ _ _ _ _ (syscall_eq _ _)).
      change (host (env w0) (trace w0) OPEN_VFIO) with o. fold fd.
      destruct (Z.ltb_spec fd 0); [lia|].
      rewrite !(bind_Ret _ _ _ _ _ (syscall_eq _ _)).
      rewrite after_syscall_env, after_syscall_trace.
      change (env w0) with (env w). change (trace w0) with (trace w).
      change (host (env w) (trace w) OPEN_VFIO) with o. fold t1. fold v.
      apply Z.eqb_neq in Hv. rewrite Hv. reflexivity. }
  pose proof (same_heap_after_syscall OPEN_VFIO w0) as Hs1.
  pose proof (after_syscall_trace OPEN_VFIO w0) as Ht1.
  pose proof (after_syscall_env OPEN_VFIO w0) as He1.
  pose proof (after_syscall_errno OPEN_VFIO w0) as Hen1.
  change (trace w0) with (trace w) in Ht1.
  change (env w0) with (env w) in Ht1, He1, Hen1.
  change (trace w0) with (trace w) in Hen1.
  change (host (env w) (trace w) OPEN_VFIO) with o in Ht1, Hen1.
  fold t1 in Ht1.
  set (w1 := after_syscall OPEN_VFIO w0) in *. clearbody w1.
  split.
  - intros Hneg. destruct Hopen as [Hopen|[Hpos _]]; [|lia].
    rewrite Hopen.
    destruct (Z.ltb_spec fd 0); [|lia].
    unfold bind at 1. unfold get_errno at 1.
    destruct (vfio_put_address_space_undo as_ space w w1 Hfresh Hs1)
      as (w3 & Hp & Hs3 & Ht3 & Hen3).
    rewrite (bind_Ret _ _ _ _ _ Hp). unfold ret.
    exists w3. rewrite Hen3. split; [reflexivity|].
    split.
    { intros e Ho. rewrite Hen1, Ho. reflexivity. }
    split; [exact Hs3 | rewrite Ht3; exact Ht1].
  - intros Hpos Hv. destruct Hopen as [Hopen|[_ Hv']]; [|congruence].
    rewrite Hopen.
    destruct (Z.ltb_spec fd 0); [lia|].
    rewrite (bind_Ret _ _ _ _ _ (syscall_eq _ _)).
    rewrite He1, Ht1. fold v.
    apply Z.eqb_neq in Hv. rewrite Hv. cbn [negb]. cbv iota.
    rewrite (bind_Ret _ _ _ _ _ (syscall_eq _ _)).
    set (w2 := after_syscall (VFIO_GET_API_VERSION fd) w1).
    assert (Ht2 : trace w2 = t2).
    { unfold w2. rewrite after_syscall_trace, He1, Ht1. reflexivity. }
    assert (He2 : env w2 = env w).
    { unfold w2. rewrite after_syscall_env. exact He1. }
    pose proof (same_heap_trans _ _ _ Hs1
                  (same_heap_trans _ _ _
                     (same_heap_after_syscall _ w1)
                     (same_heap_after_syscall (CLOSE fd) w2))) as Hs.
    fold w2 in Hs.
    pose proof (after_syscall_trace (CLOSE fd) w2) as Ht4.
    rewrite Ht2, He2 in Ht4.
    set (w4 := after_syscall (CLOSE fd) w2) in *. clearbody w4.
    destruct (vfio_put_address_space_undo as_ space w w4 Hfresh Hs)
      as (w5 & Hp & Hs5 & Ht5 & _).
    rewrite (bind_Ret _ _ _ _ _ Hp). unfold ret.
    exists w5. split; [reflexivity|].
    split; [exact Hs5 | rewrite Ht5; exact Ht4].
Qed.

Lemma vfio_connect_container_no_vfio_witness :
  (exists w',
     vfio_connect_container 210 2 (world_two_groups host_no_vfio)
     = Ret (- 2) w'
     /\ same_heap (world_two_groups host_no_vfio) w'
     /\ trace w' = [Sys OPEN_VFIO (Err 2)])
  /\ (exists w',
        vfio_connect_container 210 2 (world_two_groups host_old_api)
        = Ret (- EINVAL) w'
        /\ same_heap (world_two_groups host_old_api) w'
        /\ trace w' = [Sys OPEN_VFIO (Ok 8 []);
                       Sys (VFIO_GET_API_VERSION 8) (Ok 1 []);
                       Sys (CLOSE 8) (Ok 0 [])]).
Proof.
  assert (Hwf : forall h, spaces_wf (world_two_groups h)).
  { intros h. split.
    - repeat constructor. apply not_elem_of_nil.
    - intros p Hp. apply list_elem_of_singleton in Hp. subst.
      eexists. reflexivity. }
  assert (Hnone : forall h p, ~ registered 2 (world_two_groups h) p).
  { intros h p [Hp (s & Hs & Has)].
    apply list_elem_of_singleton in Hp. subst.
    vm_compute in Hs. inversion Hs; subst. discriminate. }
  split.
  - destruct (proj1 (vfio_connect_container_no_vfio 210 2
                       (world_two_groups host_no_vfio) _
                       (Hwf _) (Hnone _) eq_refl))
      as (w' & H & He & Hs & Ht); [reflexivity|].
    exists w'. rewrite H, (He 2 eq_refl). auto.
  - destruct (proj2 (vfio_connect_container_no_vfio 210 2
                       (world_two_groups host_old_api) _
                       (Hwf _) (Hnone _) eq_refl))
      as (w' & H & Hs & Ht); [discriminate | discriminate |].
    exists w'. auto.
Defined.

(** ** The KVM VFIO device *)

(** X20: the group that vfio_kvm_device_add_group has announced to KVM
    is withdrawn by vfio_kvm_device_del_group on the same KVM device
    with the same group descriptor.  With KVM in use and no KVM VFIO
    device yet, the add creates the device and keeps its descriptor
    (the first word of the reply); the delete then issues exactly one
    request on that descriptor and creates nothing. *)
Theorem vfio_kvm_device_add_del group g w :
  CONFIG_KVM (env w) = true ->
  kvm_enabled (env w) = true ->
  vfio_kvm_device_fd w < 0 ->
  groups w !! group = Some g ->
  let cd := host (env w) (trace w) (KVM_CREATE_DEVICE KVM_DEV_TYPE_VFIO) in
  let kfd := nth 0 (data_of cd) 0 in
  let add := KVM_SET_DEVICE_ATTR kfd KVM_DEV_VFIO_GROUP
               KVM_DEV_VFIO_GROUP_ADD (group_fd g) in
  let del := KVM_SET_DEVICE_ATTR kfd KVM_DEV_VFIO_GROUP
               KVM_DEV_VFIO_GROUP_DEL (group_fd g) in
  let t1 := trace w ++ [Sys (KVM_CREATE_DEVICE KVM_DEV_TYPE_VFIO) cd] in
  let t2 := t1 ++ [Sys add (host (env w) t1 add)] in
  ret_of cd = 0 ->
  0 <= kfd ->
  exists w1 w2,
    vfio_kvm_device_add_group group w = Ret tt w1
    /\ vfio_kvm_device_fd w1 = kfd
    /\ trace w1 = t2
    /\ vfio_kvm_device_del_group group w1 = Ret tt w2
    /\ vfio_kvm_device_fd w2 = kfd
    /\ trace w2 = t2 ++ [Sys del (host (env w) t2 del)]
    /\ groups w2 = groups w /\ devices w2 = devices w
    /\ containers w2 = containers w.
Proof.
  intros Hcfg Hkvm Hneg Hg cd kfd add del t1 t2 Hcd Hkfd.
  unfold vfio_kvm_device_add_group.
  unfold bind at 1. unfold get_env at 1. rewrite Hcfg, Hkvm.
  cbn [negb]. cbv iota.
  unfold bind at 1.
  apply Z.ltb_lt in Hneg. rewrite Hneg.
  unfold bind at 1.
  rewrite (bind_Ret _ _ _ _ _ (syscall_eq _ _)).
  fold cd. rewrite Hcd. change (negb (0 =? 0)) with false. cbv iota.
  unfold bind at 1. unfold ret at 1. cbn [negb]. cbv iota.
  unfold bind at 1. fold kfd.
  set (w0 := set_vfio_kvm_device_fd kfd _).
  assert (Hf0 : env w0 = env w /\ groups w0 = groups w
                /\ devices w0 = devices w /\ containers w0 = containers w
                /\ vfio_kvm_device_fd w0 = kfd
                /\ trace w0 = t1).
  { unfold w0. simpl. rewrite after_syscall_env, after_syscall_trace.
    unfold after_syscall. fold cd. destruct cd; repeat split. }
  destruct Hf0 as (He0 & Hg0 & Hd0 & Hc0 & Hk0 & Ht0).
  clearbody w0. rewrite Hk0.
  assert (Hg0' : groups w0 !! group = Some g) by (rewrite Hg0; exact Hg).
  rewrite (bind_Ret _ _ _ _ _ (get_group_Some _ _ _ Hg0')).
  rewrite (bind_Ret _ _ _ _ _ (syscall_eq _ _)). unfold ret at 1.
  fold add.
  destruct (same_heap_after_syscall add w0)
    as (He1 & Hd1 & Hg1 & Hc1 & _ & _ & _ & Hk1).
  pose proof (after_syscall_trace add w0) as Ht1.
  rewrite He0, Ht0 in Ht1. fold t2 in Ht1.
  rewrite He0 in He1. rewrite Hg0 in Hg1. rewrite Hd0 in Hd1.
  rewrite Hc0 in Hc1. rewrite Hk0 in Hk1.
  set (w1 := after_syscall add w0) in *. clearbody w1.
  exists w1. eexists.
  split; [reflexivity|].
  split; [exact Hk1|].
  split; [exact Ht1|].
  unfold vfio_kvm_device_del_group.
  unfold bind at 1. unfold get_env at 1.
  rewrite He1, Hcfg. cbn [negb]. cbv iota.
  unfold bind at 1. rewrite Hk1.
  destruct (Z.ltb_spec kfd 0); [lia|].
  assert (Hg1' : groups w1 !! group = Some g) by (rewrite Hg1; exact Hg).
  rewrite (bind_Ret _ _ _ _ _ (get_group_Some _ _ _ Hg1')).
  rewrite (bind_Ret _ _ _ _ _ (syscall_eq _ _)). unfold ret at 1.
  fold del.
  split; [reflexivity|].
  destruct (same_heap_after_syscall del w1)
    as (_ & Hd2 & Hg2 & Hc2 & _ & _ & _ & Hk2).
  rewrite after_syscall_trace, Ht1, He1, Hk2, Hk1, Hg2, Hg1, Hd2, Hd1,
    Hc2, Hc1.
  repeat split.
Qed.

Lemma vfio_kvm_device_add_del_witness :
  exists w1 w2,
    vfio_kvm_device_add_group 200 world_kvm = Ret tt w1
    /\ vfio_kvm_device_del_group 200 w1 = Ret tt w2
    /\ trace w2
       = [Sys (KVM_CREATE_DEVICE KVM_DEV_TYPE_VFIO) (Ok 0 [12]);
          Sys (KVM_SET_DEVICE_ATTR 12 KVM_DEV_VFIO_GROUP
                 KVM_DEV_VFIO_GROUP_ADD 6) (Ok 0 []);
          Sys (KVM_SET_DEVICE_ATTR 12 KVM_DEV_VFIO_GROUP
                 KVM_DEV_VFIO_GROUP_DEL 6) (Ok 0 [])].
Proof.
  destruct (vfio_kvm_device_add_del 200
              {| group_fd := 6; groupid := 42; group_container := 250;
                 device_list := [100] |} world_kvm
              eq_refl eq_refl eq_refl eq_refl eq_refl)
    as (w1 & w2 & Ha & _ & _ & Hd & _ & Ht & _).
  { discriminate. }
  exists w1, w2. split; [exact Ha|]. split; [exact Hd|].
  rewrite Ht. reflexivity.
Defined.

(** ** Detaching a device *)

Lemma qlist_remove_other p x l :
  x <> p -> x ∈ l -> x ∈ qlist_remove p l.
Proof.
  intros Hne. induction l as [|q l IH]; intros Hin; simpl.
  - exact Hin.
  - destruct (q =? p) eqn:E.
    + apply Z.eqb_eq in E. subst q.
      apply elem_of_cons in Hin. destruct Hin as [Hx|Hx]; [congruence|exact Hx].
    + apply elem_of_cons in Hin. destruct Hin as [Hx|Hx].
      * subst. left.
      * right. apply IH. exact Hx.
Qed.

(** X21: vfio_put_base_device takes the device off the device list of
    its group, which keeps its other devices, clears the device's group
    pointer and closes the device descriptor, once; put again, the
    device is left alone and nothing is closed a second time. *)
Theorem vfio_put_base_device_once vbasedev d g w :
  devices w !! vbasedev = Some d ->
  dev_group d <> NULL ->
  groups w !! dev_group d = Some g ->
  NoDup (device_list g) ->
  let l := qlist_remove vbasedev (device_list g) in
  exists w1,
    vfio_put_base_device vbasedev w = Ret tt w1
    /\ trace w1
       = trace w ++ [Sys (CLOSE (dev_fd d))
                       (host (env w) (trace w) (CLOSE (dev_fd d)))]
    /\ devices w1 = <[vbasedev := set_dev_group NULL d]> (devices w)
    /\ groups w1 = <[dev_group d := set_device_list l g]> (groups w)
    /\ (vbasedev ∉ l)
    /\ (forall x, x <> vbasedev -> x ∈ device_list g -> x ∈ l)
    /\ vfio_put_base_device vbasedev w1 = Ret tt w1.
Proof.
  intros Hd Hnn Hg Hnd l.
  unfold vfio_put_base_device at 1.
  rewrite (bind_Ret _ _ _ _ _ (get_device_Some _ _ _ Hd)).
  apply Z.eqb_neq in Hnn. rewrite Hnn.
  rewrite (bind_Ret _ _ _ _ _ (get_group_Some _ _ _ Hg)).
  fold l.
  unfold bind at 1. unfold put_group at 1.
  unfold bind at 1. unfold put_device at 1.
  rewrite (bind_Ret _ _ _ _ _ (syscall_eq _ _)). unfold ret.
  eexists. split; [reflexivity|].
  rewrite after_syscall_trace, after_syscall_devices.
  split; [reflexivity|].
  split; [reflexivity|].
  split.
  { unfold after_syscall. destruct (host _ _ _); reflexivity. }
  split; [apply qlist_remove_NoDup; exact Hnd|].
  split; [intros x Hx Hin; apply qlist_remove_other; assumption|].
  unfold vfio_put_base_device, bind, get_device.
  rewrite after_syscall_devices. simpl.
  rewrite lookup_insert_eq. reflexivity.
Qed.

Lemma vfio_put_base_device_once_witness :
  exists w1,
    vfio_put_base_device 100 (world0 (fun _ _ => Ok 0 [])) = Ret tt w1
    /\ trace w1 = [Sys (CLOSE 5) (Ok 0 [])]
    /\ vfio_put_base_device 100 w1 = Ret tt w1.
Proof.
  destruct (vfio_put_base_device_once 100
              {| dev_fd := 5; dev_group := 200; needs_reset := false |}
              {| group_fd := 6; groupid := 42; group_container := 250;
                 device_list := [100] |}
              (world0 (fun _ _ => Ok 0 [])) eq_refl)
    as (w1 & H & Ht & _ & _ & _ & _ & H2).
  - discriminate.
  - reflexivity.
  - repeat constructor. apply not_elem_of_nil.
  - exists w1. split; [exact H|]. split; [exact Ht | exact H2].
Defined.

(** ** Sections that cannot be mapped, and the bound on kernel calls *)

(** X22: a section that is not skipped but cannot be mapped, because its
    offsets in the address space and in its region disagree within the
    page or because nothing is left of it after page alignment, is left
    alone by region_add; region_del leaves it alone too when its region
    is not a guest IOMMU. *)
Theorem vfio_listener_unmappable_section container s w :
  0 <= TARGET_PAGE_BITS (env w) <= 64 ->
  0 <= offset_within_address_space s < 2 ^ 64 ->
  0 <= size s < 2 ^ 64 ->
  vfio_listener_skipped_section s = false ->
  section_mapped (env w) s = false ->
  vfio_listener_region_add container s w = Ret tt w
  /\ (mr_is_iommu (mr s) = false ->
      vfio_listener_region_del container s w = Ret tt w).
Proof.
  intros Hb Ho Hs Hskip Hm.
  unfold section_mapped in Hm. rewrite Hskip in Hm. cbn [negb andb] in Hm.
  split.
  - unfold vfio_listener_region_add.
    unfold bind at 1. unfold get_env at 1. rewrite Hskip.
    destruct (page_offset (env w) (offset_within_address_space s)
              =? page_offset (env w) (offset_within_region s));
      [|reflexivity].
    cbn [negb andb] in Hm |- *. cbv beta iota zeta.
    apply negb_false_iff in Hm.
    fold (section_iova (env w) s). fold (section_llend (env w) s).
    rewrite Hm. reflexivity.
  - intros Hio. unfold vfio_listener_region_del.
    unfold bind at 1. unfold get_env at 1. rewrite Hskip.
    destruct (page_offset (env w) (offset_within_address_space s)
              =? page_offset (env w) (offset_within_region s));
      [|reflexivity].
    cbn [negb andb] in Hm |- *. cbv beta iota zeta.
    apply negb_false_iff in Hm.
    fold (section_iova (env w) s).
    unfold region_del_giommu. rewrite Hio.
    unfold bind at 1. unfold ret at 1.
    unfold bind at 1. unfold int128_get64 at 1.
    assert (Hr : (0 <=? size s) && (size s <? 2 ^ 64) = true).
    { apply andb_true_iff. split; [apply Z.leb_le | apply Z.ltb_lt]; lia. }
    rewrite Hr. unfold ret at 1. cbv beta iota.
    unfold int128_ge, int128_make64 in Hm. apply Z.leb_le in Hm.
    pose proof (section_iova_range (env w) s) as Hi.
    destruct (section_end_agree (env w) s Hb Ho ltac:(lia) ltac:(lia))
      as (_ & _ & Hend).
    rewrite Hend.
    apply Z.leb_le in Hm. rewrite Hm. reflexivity.
Qed.

Lemma vfio_listener_unmappable_section_witness :
  vfio_listener_region_add 250 tiny_section (world0 (fun _ _ => Ok 0 []))
  = Ret tt (world0 (fun _ _ => Ok 0 []))
  /\ vfio_listener_region_del 250 tiny_section (world0 (fun _ _ => Ok 0 []))
     = Ret tt (world0 (fun _ _ => Ok 0 [])).
Proof.
  destruct (vfio_listener_unmappable_section 250 tiny_section
              (world0 (fun _ _ => Ok 0 []))
              ltac:(vm_compute; intuition congruence)
              ltac:(vm_compute; intuition congruence)
              ltac:(vm_compute; intuition congruence)
              eq_refl eq_refl) as [Ha Hd].
  split; [exact Ha | exact (Hd eq_refl)].
Defined.

(** X23: vfio_dma_map always returns, after at most three requests to
    the kernel: the map, and after a busy answer one unmap and one more
    map.  Every request is for the container's descriptor and the very
    IOVA range asked for, and nothing but the trace and errno
    changes. *)
Theorem vfio_dma_map_bounded container c iova size vaddr readonly w :
  containers w !! container = Some c ->
  exists r w' t,
    vfio_dma_map container iova size vaddr readonly w = Ret r w'
    /\ same_heap w w'
    /\ trace w' = trace w ++ t
    /\ (1 <= length t <= 3)%nat
    /\ Forall (fun e => is_dma_call_for (container_fd c) iova size e = true)
         t.
Proof.
  intros Hc.
  destruct (vfio_dma_map_frame container c iova size vaddr readonly w Hc)
    as (r & w' & t & H & Hs & Ht & Hl & Hf).
  exists r, w', (Sys (dma_map_call c iova size vaddr readonly)
                   (host (env w) (trace w)
                      (dma_map_call c iova size vaddr readonly)) :: t).
  split; [exact H|]. split; [exact Hs|]. split; [exact Ht|].
  split; [simpl; lia|].
  constructor; [|exact Hf].
  unfold dma_map_call. simpl. rewrite !Z.eqb_refl. reflexivity.
Qed.

Lemma vfio_dma_map_bounded_witness :
  exists r w' t,
    vfio_dma_map 250 4096 4096 65536 false (world0 host_busy_once)
    = Ret r w'
    /\ trace w' = trace (world0 host_busy_once) ++ t
    /\ (1 <= length t <= 3)%nat.
Proof.
  destruct (vfio_dma_map_bounded 250 (container0 [200]) 4096 4096 65536 false
              (world0 host_busy_once) eq_refl)
    as (r & w' & t & H & _ & Ht & Hl & _).
  exists r, w', t. auto.
Defined.

(** ** Connecting a group when the kernel supports no IOMMU model *)

Lemma after_syscalls_frame cs : forall w,
  same_heap w (after_syscalls cs w)
  /\ trace (after_syscalls cs w)
     = trace w ++ sys_events (env w) (trace w) cs.
Proof.
  induction cs as [|c cs IH]; intros w.
  - split; [apply same_heap_refl|]. unfold sys_events. simpl.
    symmetry. apply app_nil_r.
  - destruct (IH (after_syscall c w)) as [Hs Ht].
    split.
    + exact (same_heap_trans _ _ _ (same_heap_after_syscall c w) Hs).
    + change (after_syscalls (c :: cs) w)
        with (after_syscalls cs (after_syscall c w)).
      rewrite Ht, after_syscall_trace, after_syscall_env.
      unfold sys_events. simpl. rewrite <- app_assoc. reflexivity.
Qed.

Lemma vfio_init_iommu_unsupported gfd fd w :
  (forall t ext, ret_of (host (env w) t (VFIO_CHECK_EXTENSION fd ext)) = 0) ->
  vfio_init_iommu gfd fd w
  = Ret (inl (- EINVAL))
      (after_syscalls [VFIO_CHECK_EXTENSION fd VFIO_TYPE1_IOMMU;
                       VFIO_CHECK_EXTENSION fd VFIO_TYPE1v2_IOMMU;
                       VFIO_CHECK_EXTENSION fd VFIO_SPAPR_TCE_IOMMU] w).
Proof.
  intros H. unfold vfio_init_iommu.
  rewrite (bind_Ret _ _ _ _ _ (syscall_eq _ _)).
  rewrite H. change (negb (0 =? 0)) with false. cbv iota.
  set (w1 := after_syscall (VFIO_CHECK_EXTENSION fd VFIO_TYPE1_IOMMU) w).
  assert (Hin : (t2 <- syscall (VFIO_CHECK_EXTENSION fd VFIO_TYPE1v2_IOMMU) ;;
                 ret (negb (ret_of t2 =? 0))) w1
                = Ret false
                    (after_syscall
                       (VFIO_CHECK_EXTENSION fd VFIO_TYPE1v2_IOMMU) w1)).
  { rewrite (bind_Ret _ _ _ _ _ (syscall_eq _ _)).
    unfold w1. rewrite after_syscall_env, H. reflexivity. }
  rewrite (bind_Ret _ _ _ _ _ Hin). cbv iota.
  rewrite (bind_Ret _ _ _ _ _ (syscall_eq _ _)).
  unfold w1. rewrite !after_syscall_env, H. reflexivity.
Qed.

(** X24: vfio_connect_container for the first group of an address
    space, on a kernel that supports neither the Type1 nor the sPAPR
    IOMMU model: -EINVAL is returned after the three probes, without any
    attempt to bind the group or to pick a model; the descriptor of the
    new container is closed, its record is freed and the entry created
    for the address space is released, so that the registries are as
    before. *)
Theorem vfio_connect_container_no_iommu_model group as_ w g :
  spaces_wf w ->
  (forall p, ~ registered as_ w p) ->
  groups w !! group = Some g ->
  let fd := ret_of (host (env w) (trace w) OPEN_VFIO) in
  0 <= fd ->
  (forall t, ret_of (host (env w) t (VFIO_GET_API_VERSION fd))
             = VFIO_API_VERSION) ->
  (forall t ext, ret_of (host (env w) t (VFIO_CHECK_EXTENSION fd ext)) = 0) ->
  exists w',
    vfio_connect_container group as_ w = Ret (- EINVAL) w'
    /\ same_heap w w'
    /\ trace w'
       = trace w
         ++ sys_events (env w) (trace w)
              [OPEN_VFIO;
               VFIO_GET_API_VERSION fd;
               VFIO_CHECK_EXTENSION fd VFIO_TYPE1_IOMMU;
               VFIO_CHECK_EXTENSION fd VFIO_TYPE1v2_IOMMU;
               VFIO_CHECK_EXTENSION fd VFIO_SPAPR_TCE_IOMMU;
               CLOSE fd].
Proof.
  intros Hwf Hnone Hg fd Hfd Hver Hext.
  destruct (vfio_get_address_space_fresh as_ w Hwf Hnone)
    as (space & Hfresh & Hget).
  set (w0 := set_spaces _ (space :: vfio_address_spaces w) w) in Hget.
  unfold vfio_connect_container.
  rewrite (bind_Ret _ _ _ _ _ Hget).
  unfold bind at 1. unfold get_space at 1.
  unfold w0 at 1. cbn [spaces set_spaces]. rewrite lookup_insert_eq.
  assert (Hg0 : groups w0 !! group = Some g) by exact Hg.
  rewrite (bind_Ret _ _ _ _ _ (get_group_Some _ _ _ Hg0)).
  cbn [space_containers find_container].
  unfold bind at 1. unfold ret at 1.
  rewrite (bind_Ret _ _ _ _ _ (syscall_eq _ _)).
  change (host (env w0) (trace w0) OPEN_VFIO)
    with (host (env w) (trace w) OPEN_VFIO).
  fold fd.
  destruct (Z.ltb_spec fd 0); [lia|].
  rewrite (bind_Ret _ _ _ _ _ (syscall_eq _ _)).
  rewrite after_syscall_env. change (env w0) with (env w).
  rewrite Hver, Z.eqb_refl. cbn [negb]. cbv iota.
  set (w2 := after_syscalls [OPEN_VFIO; VFIO_GET_API_VERSION fd] w0).
  change (after_syscall (VFIO_GET_API_VERSION fd)
            (after_syscall OPEN_VFIO w0)) with w2.
  destruct (after_syscalls_frame [OPEN_VFIO; VFIO_GET_API_VERSION fd] w0)
    as [Hs2 Ht2].
  fold w2 in Hs2, Ht2.
  unfold bind at 1. unfold g_malloc0 at 1.
  destruct (g_malloc0_fresh w2) as (_ & _ & _ & Hfc & _).
  set (container := fresh _) in *.
  unfold bind at 1. unfold put_container at 1.
  set (w3 := set_containers _ w2).
  assert (He3 : env w3 = env w).
  { change (env w3) with (env w2). destruct Hs2 as (E & _). exact E. }
  rewrite (bind_Ret _ _ _ _ _
             (vfio_init_iommu_unsupported (group_fd g) fd w3
                ltac:(rewrite He3; exact Hext))).
  set (probes := [VFIO_CHECK_EXTENSION fd VFIO_TYPE1_IOMMU;
                  VFIO_CHECK_EXTENSION fd VFIO_TYPE1v2_IOMMU;
                  VFIO_CHECK_EXTENSION fd VFIO_SPAPR_TCE_IOMMU]).
  destruct (after_syscalls_frame probes w3) as [Hs4 Ht4].
  set (w4 := after_syscalls probes w3) in *.
  unfold bind at 1. unfold g_free_container at 1.
  set (w5 := set_containers _ w4).
  rewrite (bind_Ret _ _ _ _ _ (syscall_eq _ _)).
  assert (Hs5 : same_heap w0 w5).
  { destruct Hs2 as (E2 & D2 & G2 & C2 & S2 & L2 & A2 & K2).
    destruct Hs4 as (E4 & D4 & G4 & C4 & S4 & L4 & A4 & K4).
    unfold same_heap, w5. simpl.
    rewrite E4, D4, G4, C4, S4, L4, A4, K4. unfold w3. simpl.
    rewrite delete_insert_id by exact Hfc.
    rewrite E2, D2, G2, C2, S2, L2, A2, K2. repeat split. }
  assert (Ht5 : trace w5
                = trace w
                  ++ sys_events (env w) (trace w)
                       ([OPEN_VFIO; VFIO_GET_API_VERSION fd] ++ probes)).
  { change (trace w5) with (trace w4). rewrite Ht4.
    change (trace w3) with (trace w2). rewrite He3, Ht2.
    change (env w0) with (env w). change (trace w0) with (trace w).
    unfold sys_events. simpl. rewrite <- !app_assoc. reflexivity. }
  assert (He5 : env w5 = env w).
  { destruct Hs5 as (E & _). rewrite E. reflexivity. }
  pose proof (same_heap_trans _ _ _ Hs5
                (same_heap_after_syscall (CLOSE fd) w5)) as Hs6.
  pose proof (after_syscall_trace (CLOSE fd) w5) as Ht6.
  rewrite Ht5, He5 in Ht6.
  set (w6 := after_syscall (CLOSE fd) w5) in *. clearbody w6.
  destruct (vfio_put_address_space_undo as_ space w w6 Hfresh Hs6)
    as (w7 & Hp & Hs7 & Ht7 & _).
  rewrite (bind_Ret _ _ _ _ _ Hp). unfold ret.
  exists w7. split; [reflexivity|].
  split; [exact Hs7|].
  rewrite Ht7, Ht6. unfold sys_events. simpl.
  rewrite <- !app_assoc. reflexivity.
Qed.

Lemma vfio_connect_container_no_iommu_model_witness :
  exists w',
    vfio_connect_container 210 2 (world_two_groups host_no_iommu)
    = Ret (- EINVAL) w'
    /\ same_heap (world_two_groups host_no_iommu) w'
    /\ trace w'
       = [Sys OPEN_VFIO (Ok 8 []);
          Sys (VFIO_GET_API_VERSION 8) (Ok 0 []);
          Sys (VFIO_CHECK_EXTENSION 8 VFIO_TYPE1_IOMMU) (Ok 0 []);
          Sys (VFIO_CHECK_EXTENSION 8 VFIO_TYPE1v2_IOMMU) (Ok 0 []);
          Sys (VFIO_CHECK_EXTENSION 8 VFIO_SPAPR_TCE_IOMMU) (Ok 0 []);
          Sys (CLOSE 8) (Ok 0 [])].
Proof.
  destruct (vfio_connect_container_no_iommu_model 210 2
              (world_two_groups host_no_iommu)
              {| group_fd := 11; groupid := 43; group_container := NULL;
                 device_list := [] |})
    as (w' & H & Hs & Ht).
  - split.
    + repeat constructor. apply not_elem_of_nil.
    + intros p Hp. apply list_elem_of_singleton in Hp. subst.
      eexists. reflexivity.
  - intros p [Hp (s & Hs & Has)].
    apply list_elem_of_singleton in Hp. subst.
    vm_compute in Hs. inversion Hs; subst. discriminate.
  - reflexivity.
  - discriminate.
  - reflexivity.
  - reflexivity.
  - exists w'. split; [exact H|]. split; [exact Hs | exact Ht].
Defined.
